(** * Pipette tip lifecycle: nozzle layout resolution, tip presence
      configuration, tip pickup and drop.

    A shallow embedding of
    - [opentrons/protocol_engine/execution/tip_handler.py],
    - [opentrons/protocol_engine/commands/pick_up_tip.py],
    - the nozzle-layout and tip-pickup entry points of
      [opentrons/protocol_api/instrument_context.py],
    - the mount, axis and deck-slot enumerations of [opentrons/types.py],
    followed by the properties established about them. *)

From Stdlib Require Import ZArith QArith_base String Ascii List Bool Lia.
From stdpp Require Import base option list list_numbers strings pretty gmap.

Import ListNotations.
Local Open Scope string_scope.
Local Open Scope Z_scope.
Local Open Scope list_scope.

(** ** Engine value types *)

(** [float] fields are carried as rationals: the modelled code stores and
    copies them and never computes with them. *)
Module TipGeometry.
Record t : Type := mk { length : Q; diameter : Q; volume : Q }.
End TipGeometry.

(** ** Python values *)

Module Py.

(** Exceptions that the modelled code raises, by class.  Messages built
    with f-strings are not kept; the payloads kept are those that tell two
    raise sites of one class apart. *)
Inductive exn : Type :=
| CommandPreconditionViolated
| CommandParameterLimitViolated (parameter_name actual_value : string)
| KeyError (key : string)
| ValueError
| IndexError
| TypeError
| AssertionError
| RuntimeError
| UnsupportedAPIError
| APIVersionError
| HardwareNotSupportedError
| FailedTipStateCheck
| TipNotAttachedError
| TipAttachedError
| PickUpTipTipNotAttachedError (tip_geometry : TipGeometry.t)
| ProtocolEngineError.

(** A call either returns or raises. *)
Inductive result (A : Type) : Type :=
| Ok (a : A)
| Raise (e : exn).
Arguments Ok {A} a.
Arguments Raise {A} e.

Definition bind {A B} (r : result A) (k : A -> result B) : result B :=
  match r with
  | Ok a => k a
  | Raise e => Raise e
  end.

(** Truthiness of an [Optional[str]]: [None] and the empty string are
    falsy. *)
Definition truthy (o : option string) : bool :=
  match o with
  | Some s => negb (String.eqb s "")
  | None => false
  end.

(** [str(x)] for an [Optional[str]]. *)
Definition str (o : option string) : string :=
  match o with
  | Some s => s
  | None => "None"
  end.

(** [sub in s] on strings: [sub] occurs in [s] as a substring. *)
Fixpoint contains (sub s : string) : bool :=
  String.prefix sub s ||
  match s with
  | EmptyString => false
  | String _ s' => contains sub s'
  end.

(** [s[0]]: the first character as a string; [IndexError] when empty. *)
Definition first_char (s : string) : result string :=
  match s with
  | EmptyString => Raise IndexError
  | String c _ => Ok (String c EmptyString)
  end.

(** [s[1:]]: slicing never raises. *)
Definition drop_first (s : string) : string :=
  match s with
  | EmptyString => EmptyString
  | String _ s' => s'
  end.

(** Strings are sequences of code points below 256, one [ascii] each. *)

Definition digit_value (c : ascii) : option Z :=
  let n := Z.of_N (N_of_ascii c) in
  if (Z.leb 48 n && Z.leb n 57)%bool then Some (n - 48)%Z else None.

(** The code points below 256 that [int] skips around a number: tab to
    carriage return, the blank, NEL and the no-break blank. *)
Definition is_space (c : ascii) : bool :=
  let n := Z.of_N (N_of_ascii c) in
  ((Z.leb 9 n && Z.leb n 13) || Z.eqb n 32 || Z.eqb n 133 || Z.eqb n 160)%bool.

Fixpoint lstrip (s : string) : string :=
  match s with
  | EmptyString => EmptyString
  | String c s' => if is_space c then lstrip s' else s
  end.

Fixpoint all_space (s : string) : bool :=
  match s with
  | EmptyString => true
  | String c s' => (is_space c && all_space s')%bool
  end.

(** The digits of a number, with the value read so far and the count of
    digits: a single "_" may stand between two digits, and blanks may
    follow the last digit up to the end of the string.  [after_digit]
    tells whether the character before was a digit. *)
Fixpoint int_digits (after_digit : bool) (acc count : Z) (s : string)
  : option (Z * Z) :=
  match s with
  | EmptyString => if after_digit then Some (acc, count) else None
  | String c s' =>
      match digit_value c with
      | Some d => int_digits true (10 * acc + d)%Z (count + 1)%Z s'
      | None =>
          if negb after_digit then None
          else if Ascii.eqb c "_"%char then int_digits false acc count s'
          else if (is_space c && all_space s')%bool then Some (acc, count)
          else None
      end
  end.

(** [sys.int_info.default_max_str_digits] *)
Definition default_max_str_digits : Z := 4300.

(** [int(s)] on a string: blanks, an optional sign, decimal digits with
    single "_" separators, blanks; anything else, the empty string
    included, is a [ValueError], and so is a number of more digits than
    the interpreter's default limit. *)
Definition int (s : string) : result Z :=
  let s := lstrip s in
  let '(sign, s) :=
    match s with
    | String "+"%char s' => (1, s')
    | String "-"%char s' => (-1, s')
    | _ => (1, s)
    end%Z in
  match int_digits false 0 0 s with
  | Some (n, count) =>
      if Z.leb count default_max_str_digits then Ok (sign * n)%Z
      else Raise ValueError
  | None => Raise ValueError
  end.

(** [d[k1][k2]] on a dict of dicts. *)
Definition getitem2 (d : gmap string (gmap string string)) (k1 k2 : string)
  : result string :=
  match d !! k1 with
  | None => Raise (KeyError k1)
  | Some inner =>
      match inner !! k2 with
      | None => Raise (KeyError k2)
      | Some v => Ok v
      end
  end.

End Py.

Import Py.

(** [result] is used through stdpp's monad notations: [x ← c; k]. *)
#[global] Instance result_ret : MRet result := fun A a => Ok a.
#[global] Instance result_bind : MBind result := fun A B k r => Py.bind r k.

(** ** tip_handler.py: the nozzle layout resolver *)

Definition PRIMARY_NOZZLE_TO_ENDING_NOZZLE_MAP : gmap string (gmap string string) :=
  <["A1" := <["COLUMN" := "H1"]> (<["ROW" := "A12"]> ∅)]>
  (<["H1" := <["COLUMN" := "A1"]> (<["ROW" := "H12"]> ∅)]>
  (<["A12" := <["COLUMN" := "H12"]> (<["ROW" := "A1"]> ∅)]>
  (<["H12" := <["COLUMN" := "A12"]> (<["ROW" := "H1"]> ∅)]> ∅))).

Definition PRIMARY_NOZZLE_TO_BACK_LEFT_NOZZLE_MAP : gmap string (gmap string string) :=
  <["A1" := <["COLUMN" := "A1"]> (<["ROW" := "A1"]> ∅)]>
  (<["H1" := <["COLUMN" := "A1"]> (<["ROW" := "H1"]> ∅)]>
  (<["A12" := <["COLUMN" := "A12"]> (<["ROW" := "A1"]> ∅)]>
  (<["H12" := <["COLUMN" := "A12"]> (<["ROW" := "H1"]> ∅)]> ∅))).

(** The three-key dict the resolver returns on most paths. *)
Definition nozzle_dict (primary front_right back_left : string) : gmap string string :=
  <["primary_nozzle" := primary]>
  (<["front_right_nozzle" := front_right]>
  (<["back_left_nozzle" := back_left]> ∅)).

Definition _available_for_nozzle_layout
    (channels : Z) (style : string)
    (primary_nozzle front_right_nozzle back_left_nozzle : option string)
  : result (gmap string string) :=
  let primary := default "" primary_nozzle in
  let front_right := default "" front_right_nozzle in
  let back_left := default "" back_left_nozzle in
  if channels =? 1 then Raise CommandPreconditionViolated
  else if String.eqb style "ALL" then Ok ∅
  else if String.eqb style "ROW" && (channels =? 8) then
    Raise (CommandParameterLimitViolated "RowNozzleLayout" (str primary_nozzle))
  else if String.eqb style "PARTIAL_COLUM" && (channels =? 96) then
    Raise (CommandParameterLimitViolated "PartialColumnNozzleLayout"
             (str primary_nozzle))
  else if negb (truthy primary_nozzle) then
    Ok (<["primary_nozzle" := "A1"]> ∅)
  else if String.eqb style "SINGLE" then
    Ok (<["primary_nozzle" := primary]> ∅)
  else if String.eqb style "QUADRANT" && truthy front_right_nozzle
          && negb (truthy back_left_nozzle) then
    Ok (nozzle_dict primary front_right primary)
  else if String.eqb style "QUADRANT" && truthy back_left_nozzle
          && negb (truthy front_right_nozzle) then
    Ok (nozzle_dict primary primary back_left)
  else if negb (truthy front_right_nozzle) && truthy back_left_nozzle then
    fr ← getitem2 PRIMARY_NOZZLE_TO_ENDING_NOZZLE_MAP primary style;
    Ok (nozzle_dict primary fr back_left)
  else if truthy front_right_nozzle && negb (truthy back_left_nozzle) then
    bl ← getitem2 PRIMARY_NOZZLE_TO_BACK_LEFT_NOZZLE_MAP primary style;
    Ok (nozzle_dict primary front_right bl)
  else if truthy front_right_nozzle && truthy back_left_nozzle then
    Ok (nozzle_dict primary front_right back_left)
  else
    fr ← getitem2 PRIMARY_NOZZLE_TO_ENDING_NOZZLE_MAP primary style;
    bl ← getitem2 PRIMARY_NOZZLE_TO_BACK_LEFT_NOZZLE_MAP primary style;
    Ok (nozzle_dict primary fr bl).

(** ** types.py and the engine's enumerations *)

Module MountType.
Inductive t : Type := LEFT | RIGHT | EXTENSION.
End MountType.

Module Mount.
Inductive t : Type := LEFT | RIGHT | EXTENSION.
End Mount.

Definition to_hw_mount (m : MountType.t) : Mount.t :=
  match m with
  | MountType.LEFT => Mount.LEFT
  | MountType.RIGHT => Mount.RIGHT
  | MountType.EXTENSION => Mount.EXTENSION
  end.

Definition ALLOWED_PRIMARY_NOZZLES : list string := ["A1"; "H1"; "A12"; "H12"].

Module NozzleConfigurationType.
Inductive t : Type := COLUMN | ROW | SINGLE | FULL | SUBRECT.

Definition eqb (a b : t) : bool :=
  match a, b with
  | COLUMN, COLUMN | ROW, ROW | SINGLE, SINGLE | FULL, FULL
  | SUBRECT, SUBRECT => true
  | _, _ => false
  end.
End NozzleConfigurationType.

(** The part of [NozzleMapInterface] that the modelled code reads. *)
Module NozzleMap.
Record t : Type := mk {
  starting_nozzle : string;
  back_left : string;
  front_right : string;
  configuration : NozzleConfigurationType.t;
  tip_count : Z;
  physical_nozzle_count : Z;
}.
End NozzleMap.

Module TipPresenceStatus.
Inductive t : Type := PRESENT | ABSENT | UNKNOWN.
End TipPresenceStatus.

(** [hardware_control.types.TipStateType]: what the sensor gateway reads and
    is asked to confirm. *)
Module TipStateType.
Inductive t : Type := ABSENT | PRESENT.

Definition eqb (a b : t) : bool :=
  match a, b with
  | ABSENT, ABSENT | PRESENT, PRESENT => true
  | _, _ => false
  end.
End TipStateType.

Module InstrumentProbeType.
Inductive t : Type := PRIMARY | SECONDARY.
End InstrumentProbeType.

(** Only [TipScrapeType.NONE] is named by the modelled code; other members
    are carried by name. *)
Module TipScrapeType.
Inductive t : Type := NONE | other (name : string).
End TipScrapeType.

(** Modelled from the spec: [TipPresenceStatus.to_hw_state], which lives
    in the engine's [types] module.  The spec's
    verifier contract pairs an expected PRESENT or ABSENT with the sensed
    hardware state of that name; UNKNOWN has no hardware state to expect. *)
Definition to_hw_state (s : TipPresenceStatus.t) : result TipStateType.t :=
  match s with
  | TipPresenceStatus.PRESENT => Ok TipStateType.PRESENT
  | TipPresenceStatus.ABSENT => Ok TipStateType.ABSENT
  | TipPresenceStatus.UNKNOWN => Raise AssertionError
  end.

(** Modelled from the spec: [TipPresenceStatus.from_hw_state], the same
    pairing read the other way. *)
Definition from_hw_state (s : TipStateType.t) : TipPresenceStatus.t :=
  match s with
  | TipStateType.PRESENT => TipPresenceStatus.PRESENT
  | TipStateType.ABSENT => TipPresenceStatus.ABSENT
  end.

(** ** The collaborators of the tip handler *)

Definition LabwareDefinition : Type := string.

(** Relative well locations are passed through untouched. *)
Record WellLocation : Type := {
  origin : string;
  offset : Q * Q * Q;
}.

(** [StateView]: the read accessors the modelled code calls, for pipettes and
    labware that are loaded (the accessors' own failures on unknown ids are
    not modelled). *)
Record StateView : Type := {
  get_attached_tip : string -> option TipGeometry.t;
  get_channels : string -> Z;
  get_nozzle_configuration : string -> NozzleMap.t;
  get_mount : string -> MountType.t;
  get_serial_number : string -> string;
  get_definition : string -> LabwareDefinition;
  get_nominal_tip_geometry : string -> string -> string -> TipGeometry.t;
  compute_tips_to_mark_as_used : string -> string -> NozzleMap.t -> list string;
  convert_pick_up_tip_well_location : WellLocation -> WellLocation;
  validate_tip_state : string -> bool -> option exn;
  use_virtual_pipettes : bool;
}.

(** ** State-update deltas *)

Module update_types.

Inductive FluidUpdate : Type :=
| Empty (clean_tip : bool)
| Unknown.

(** Modelled from the spec: [update_types.StateUpdate], whose source is
    not in this slice.  A delta is "a sparse set of field changes keyed by
    pipette id"; a field left at [None] is no change.  The fields are
    those the pick-up-tip command sets, and [pipette_location] for the
    change the preceding move brings along. *)
Record StateUpdate : Type := mk {
  pipette_location : option (string * string * string);
  pipette_tip_state : option (string * option TipGeometry.t);
  pipette_aspirated_fluid : option (string * FluidUpdate);
  tips_used : option (string * list string);
  ready_to_aspirate : option (string * bool);
}.

(** [StateUpdate()]: no change at all. *)
Definition empty : StateUpdate := mk None None None None None.

(** Modelled from the spec: [StateUpdate.reduce], "an additive,
    associative merge": a fresh delta in which, field by field, the later
    argument's change stands where it makes one. *)
Definition reduce (a b : StateUpdate) : StateUpdate :=
  mk (pipette_location b ∪ pipette_location a)
     (pipette_tip_state b ∪ pipette_tip_state a)
     (pipette_aspirated_fluid b ∪ pipette_aspirated_fluid a)
     (tips_used b ∪ tips_used a)
     (ready_to_aspirate b ∪ ready_to_aspirate a).

(** Modelled from the spec: the builder methods of [StateUpdate]; each
    sets the one field it is named after.  In Python they update the
    receiver and return it; here each returns the updated value. *)
Definition update_pipette_tip_state
    (pipette_id : string) (tip_geometry : option TipGeometry.t)
    (u : StateUpdate) : StateUpdate :=
  mk (pipette_location u) (Some (pipette_id, tip_geometry))
     (pipette_aspirated_fluid u) (tips_used u) (ready_to_aspirate u).

Definition set_fluid_empty (pipette_id : string) (clean_tip : bool)
    (u : StateUpdate) : StateUpdate :=
  mk (pipette_location u) (pipette_tip_state u)
     (Some (pipette_id, Empty clean_tip)) (tips_used u) (ready_to_aspirate u).

Definition set_fluid_unknown (pipette_id : string)
    (u : StateUpdate) : StateUpdate :=
  mk (pipette_location u) (pipette_tip_state u)
     (Some (pipette_id, Unknown)) (tips_used u) (ready_to_aspirate u).

Definition mark_tips_as_used (labware_id : string) (well_names : list string)
    (u : StateUpdate) : StateUpdate :=
  mk (pipette_location u) (pipette_tip_state u)
     (pipette_aspirated_fluid u) (Some (labware_id, well_names))
     (ready_to_aspirate u).

Definition set_pipette_ready_to_aspirate (pipette_id : string) (ready : bool)
    (u : StateUpdate) : StateUpdate :=
  mk (pipette_location u) (pipette_tip_state u)
     (pipette_aspirated_fluid u) (tips_used u) (Some (pipette_id, ready)).

End update_types.

(** ** Command results *)

(** The public face of a defined error. *)
Record ErrorOccurrence : Type := {
  errorType : string;
  isDefined : bool;
  detail : string;
  wrappedErrors : list exn;
}.

Record DefinedErrorData : Type := {
  public : ErrorOccurrence;
  state_update : update_types.StateUpdate;
  state_update_if_false_positive : update_types.StateUpdate;
}.

(** What [move_to_well] hands back: the reached position with the delta of
    the move, or the motion layer's defined error. *)
Inductive MoveResult : Type :=
| MoveSuccess (position : Q * Q * Q) (move_update : update_types.StateUpdate)
| MoveDefinedError (e : DefinedErrorData).

(** ** The robot and the calls made to it *)

(** The hardware gateway and the labware data provider, as what they answer
    during one command: whether the gateway is the sensing (OT-3) kind, what
    the tip sensors read for a mount and probe selection, the calibrated tip
    length for a pipette serial and tip rack given the nominal fallback, and
    the outcome of a move. *)
Record Robot : Type := {
  is_ot3 : bool;
  tip_presence_status :
    Mount.t -> option InstrumentProbeType.t -> TipStateType.t;
  get_calibrated_tip_length : string -> LabwareDefinition -> Q -> Q;
  move_to_well_result :
    string -> string -> string -> WellLocation -> MoveResult;
}.

(** Every call that leaves the handler, in the order made.  Motion and
    bookkeeping calls of the hardware API are recorded and return; the
    modelled code has no handler for their failures, and runs in which they
    fail are not described here. *)
Inductive Call : Type :=
| call_move_to_well (pipette_id labware_id well_name : string)
| call_get_nominal_tip_geometry (pipette_id labware_id well_name : string)
| call_get_calibrated_tip_length (serial : string) (nominal_fallback : Q)
| call_tip_pickup_moves (mount : Mount.t)
| call_verify_tip_presence (mount : Mount.t) (expected : TipStateType.t)
    (follow_singular_sensor : option InstrumentProbeType.t)
| call_get_tip_presence_status (mount : Mount.t)
| call_cache_tip (mount : Mount.t) (tip_length : Q)
| call_set_current_tiprack_diameter (mount : Mount.t) (tiprack_diameter : Q)
| call_set_working_volume (mount : Mount.t) (tip_volume : Q)
| call_prepare_for_aspirate (mount : Mount.t)
| call_tip_drop_moves (mount : Mount.t) (ignore_plunger : bool)
    (scrape_type : TipScrapeType.t) (home_after : option bool)
| call_remove_tip (mount : Mount.t).

(** The objects a handler holds, and the record of its calls. *)
Record Machine : Type := {
  state_view : StateView;
  robot : Robot;
  calls : list Call;
}.

Definition with_calls (m : Machine) (cs : list Call) : Machine :=
  {| state_view := state_view m; robot := robot m; calls := cs |}.

(** ** Execution monad: state passing over [Machine], with exceptions *)

Definition Exec (A : Type) : Type := Machine -> result A * Machine.

Module Exec.

Definition ret {A} (a : A) : Exec A := fun m => (Ok a, m).

Definition bind {A B} (c : Exec A) (k : A -> Exec B) : Exec B :=
  fun m =>
    match c m with
    | (Ok a, m') => k a m'
    | (Raise e, m') => (Raise e, m')
    end.

Definition raise {A} (e : exn) : Exec A := fun m => (Raise e, m).

Definition lift {A} (r : result A) : Exec A := fun m => (r, m).

(** [try: c except e: handler e] *)
Definition try_except {A} (c : Exec A) (handler : exn -> Exec A) : Exec A :=
  fun m =>
    match c m with
    | (Ok a, m') => (Ok a, m')
    | (Raise e, m') => handler e m'
    end.

Definition view : Exec StateView := fun m => (Ok (state_view m), m).

Definition the_robot : Exec Robot := fun m => (Ok (robot m), m).

(** Make a call: it is appended to the record. *)
Definition call (c : Call) : Exec unit :=
  fun m => (Ok tt, with_calls m (calls m ++ [c])).

End Exec.

#[global] Instance exec_ret : MRet Exec := @Exec.ret.
#[global] Instance exec_bind : MBind Exec := fun A B k c => Exec.bind c k.

(** ** tip_handler.py: which sensors a 96-channel configuration reaches *)

Definition tip_on_left_side_96 (back_left_nozzle : string) : result bool :=
  left_most_column ← Py.int (drop_first back_left_nozzle);
  Ok (left_most_column =? 1).

Definition tip_on_right_side_96 (front_right_nozzle : string) : result bool :=
  right_most_column ← Py.int (drop_first front_right_nozzle);
  Ok (right_most_column =? 12).

(** ** tip_handler.py: the [TipHandler] protocol *)

Module TipHandler.
Class t : Type := {
  available_for_nozzle_layout :
    string -> string -> option string -> option string -> option string ->
    Exec (gmap string string);
  pick_up_tip : string -> string -> string -> bool -> Exec TipGeometry.t;
  drop_tip :
    string -> option bool -> bool -> bool -> TipScrapeType.t -> Exec unit;
  cache_tip : string -> TipGeometry.t -> Exec unit;
  remove_tip : string -> Exec unit;
  get_tip_presence : string -> Exec TipPresenceStatus.t;
  verify_tip_presence :
    string -> TipPresenceStatus.t -> option InstrumentProbeType.t -> Exec unit;
}.
End TipHandler.

(** [ensure_ot3_hardware]: hands back the gateway when it is the sensing
    kind and raises [HardwareNotSupportedError] otherwise. *)
Definition ensure_ot3_hardware : Exec unit :=
  r ← Exec.the_robot;
  if is_ot3 r then mret tt else Exec.raise HardwareNotSupportedError.

(** Modelled from the spec: the gateway's [verify_tip_presence], "a
    tip-presence sensor read ... raising a hardware-check failure
    exception": the sensors are read for the mount with the given probe
    selection, and a reading other than the expected one raises
    [FailedTipStateCheck]. *)
Definition ot3api_verify_tip_presence
    (mount : Mount.t) (expected : TipStateType.t)
    (follow_singular_sensor : option InstrumentProbeType.t) : Exec unit :=
  Exec.call (call_verify_tip_presence mount expected follow_singular_sensor);;
  r ← Exec.the_robot;
  if TipStateType.eqb (tip_presence_status r mount follow_singular_sensor)
       expected
  then mret tt
  else Exec.raise FailedTipStateCheck.

(** The gateway's [get_tip_presence_status]: the reading with no probe
    selection. *)
Definition ot3api_get_tip_presence_status (mount : Mount.t)
  : Exec TipStateType.t :=
  Exec.call (call_get_tip_presence_status mount);;
  r ← Exec.the_robot;
  mret (tip_presence_status r mount None).

Module HardwareTipHandler.

(** In [available_for_nozzle_layout], [get_attached_tip] hands back the
    attached [TipGeometry] or [None]; a [TipGeometry] object is truthy, so
    the test is on its presence. *)

Definition _get_hw_mount (pipette_id : string) : Exec Mount.t :=
  sv ← Exec.view;
  mret (to_hw_mount (get_mount sv pipette_id)).

Definition available_for_nozzle_layout
    (pipette_id style : string)
    (primary_nozzle front_right_nozzle back_left_nozzle : option string)
  : Exec (gmap string string) :=
  sv ← Exec.view;
  if bool_decide (is_Some (get_attached_tip sv pipette_id)) then
    Exec.raise CommandPreconditionViolated
  else
    let channels := get_channels sv pipette_id in
    Exec.lift (_available_for_nozzle_layout
                 channels style primary_nozzle front_right_nozzle
                 back_left_nozzle).

Definition supported_partial_nozzle_minimum : Z := 4.

Definition unsupported_layout_types_96 : list NozzleConfigurationType.t :=
  [NozzleConfigurationType.SINGLE].

Definition get_tip_presence_config (sv : StateView) (pipette_id : string)
  : result (bool * option InstrumentProbeType.t) :=
  let follow_singular_sensor : option InstrumentProbeType.t := None in
  let nozzle_configuration := get_nozzle_configuration sv pipette_id in
  let channels := get_channels sv pipette_id in
  if channels =? 1 then
    Ok (true, follow_singular_sensor)
  else if channels =? 8 then
    Ok (supported_partial_nozzle_minimum
          <=? NozzleMap.tip_count nozzle_configuration,
        follow_singular_sensor)
  else if channels =? 96 then
    let tip_presence_supported :=
      negb (existsb
              (NozzleConfigurationType.eqb
                 (NozzleMap.configuration nozzle_configuration))
              unsupported_layout_types_96)
      && (supported_partial_nozzle_minimum
            <=? NozzleMap.tip_count nozzle_configuration) in
    if negb (NozzleConfigurationType.eqb
               (NozzleMap.configuration nozzle_configuration)
               NozzleConfigurationType.FULL)
       && tip_presence_supported
    then
      use_left ← tip_on_left_side_96 (NozzleMap.back_left nozzle_configuration);
      use_right ←
        tip_on_right_side_96 (NozzleMap.front_right nozzle_configuration);
      if negb (use_left && use_right) then
        if use_left then
          Ok (tip_presence_supported, Some InstrumentProbeType.PRIMARY)
        else
          Ok (tip_presence_supported, Some InstrumentProbeType.SECONDARY)
      else Ok (tip_presence_supported, follow_singular_sensor)
    else Ok (tip_presence_supported, follow_singular_sensor)
  else Raise ValueError.

Definition verify_tip_presence
    (pipette_id : string) (expected : TipPresenceStatus.t)
    (follow_singular_sensor : option InstrumentProbeType.t) : Exec unit :=
  Exec.try_except
    (ensure_ot3_hardware;;
     hw_mount ← _get_hw_mount pipette_id;
     hw_expected ← Exec.lift (to_hw_state expected);
     ot3api_verify_tip_presence hw_mount hw_expected follow_singular_sensor)
    (fun e =>
       match e with
       | HardwareNotSupportedError => mret tt
       | FailedTipStateCheck =>
           match expected with
           | TipPresenceStatus.ABSENT => Exec.raise TipAttachedError
           | TipPresenceStatus.PRESENT => Exec.raise TipNotAttachedError
           | TipPresenceStatus.UNKNOWN => Exec.raise ProtocolEngineError
           end
       | _ => Exec.raise e
       end).

Definition cache_tip (pipette_id : string) (tip : TipGeometry.t) : Exec unit :=
  hw_mount ← _get_hw_mount pipette_id;
  Exec.call (call_cache_tip hw_mount (TipGeometry.length tip));;
  Exec.call
    (call_set_current_tiprack_diameter hw_mount (TipGeometry.diameter tip));;
  Exec.call (call_set_working_volume hw_mount (TipGeometry.volume tip)).

Definition remove_tip (pipette_id : string) : Exec unit :=
  hw_mount ← _get_hw_mount pipette_id;
  Exec.call (call_remove_tip hw_mount);;
  Exec.call (call_set_current_tiprack_diameter hw_mount 0%Q).

Definition pick_up_tip
    (pipette_id labware_id well_name : string)
    (do_not_ignore_tip_presence : bool) : Exec TipGeometry.t :=
  hw_mount ← _get_hw_mount pipette_id;
  sv ← Exec.view;
  r ← Exec.the_robot;
  Exec.call (call_get_nominal_tip_geometry pipette_id labware_id well_name);;
  let nominal_tip_geometry :=
    get_nominal_tip_geometry sv pipette_id labware_id well_name in
  Exec.call
    (call_get_calibrated_tip_length (get_serial_number sv pipette_id)
       (TipGeometry.length nominal_tip_geometry));;
  let actual_tip_length :=
    get_calibrated_tip_length r (get_serial_number sv pipette_id)
      (get_definition sv labware_id)
      (TipGeometry.length nominal_tip_geometry) in
  let tip_geometry :=
    TipGeometry.mk actual_tip_length
      (TipGeometry.diameter nominal_tip_geometry)
      (TipGeometry.volume nominal_tip_geometry) in
  Exec.call (call_tip_pickup_moves hw_mount);;
  '(tip_presence_supported, follow_singular_sensor) ←
    Exec.lift (get_tip_presence_config sv pipette_id);
  (if do_not_ignore_tip_presence && tip_presence_supported then
     Exec.try_except
       (verify_tip_presence pipette_id TipPresenceStatus.PRESENT
          follow_singular_sensor)
       (fun e =>
          match e with
          | TipNotAttachedError =>
              Exec.raise (PickUpTipTipNotAttachedError tip_geometry)
          | _ => Exec.raise e
          end)
   else mret tt);;
  cache_tip pipette_id tip_geometry;;
  Exec.call (call_prepare_for_aspirate hw_mount);;
  mret tip_geometry.

Definition drop_tip
    (pipette_id : string) (home_after : option bool)
    (do_not_ignore_tip_presence ignore_plunger : bool)
    (scrape_type : TipScrapeType.t) : Exec unit :=
  hw_mount ← _get_hw_mount pipette_id;
  Exec.call (call_tip_drop_moves hw_mount ignore_plunger scrape_type home_after);;
  (if do_not_ignore_tip_presence then
     verify_tip_presence pipette_id TipPresenceStatus.ABSENT None
   else mret tt);;
  remove_tip pipette_id.

Definition get_tip_presence (pipette_id : string) : Exec TipPresenceStatus.t :=
  Exec.try_except
    (ensure_ot3_hardware;;
     hw_mount ← _get_hw_mount pipette_id;
     status ← ot3api_get_tip_presence_status hw_mount;
     mret (from_hw_state status))
    (fun e =>
       match e with
       | HardwareNotSupportedError => mret TipPresenceStatus.UNKNOWN
       | _ => Exec.raise e
       end).

Definition handler : TipHandler.t := {|
  TipHandler.available_for_nozzle_layout := available_for_nozzle_layout;
  TipHandler.pick_up_tip := pick_up_tip;
  TipHandler.drop_tip := drop_tip;
  TipHandler.cache_tip := cache_tip;
  TipHandler.remove_tip := remove_tip;
  TipHandler.get_tip_presence := get_tip_presence;
  TipHandler.verify_tip_presence := verify_tip_presence;
|}.

End HardwareTipHandler.

Module VirtualTipHandler.

Definition pick_up_tip
    (pipette_id labware_id well_name : string)
    (do_not_ignore_tip_presence : bool) : Exec TipGeometry.t :=
  sv ← Exec.view;
  Exec.call (call_get_nominal_tip_geometry pipette_id labware_id well_name);;
  let nominal_tip_geometry :=
    get_nominal_tip_geometry sv pipette_id labware_id well_name in
  match validate_tip_state sv pipette_id false with
  | Some e => Exec.raise e
  | None => mret nominal_tip_geometry
  end.

Definition available_for_nozzle_layout
    (pipette_id style : string)
    (primary_nozzle front_right_nozzle back_left_nozzle : option string)
  : Exec (gmap string string) :=
  sv ← Exec.view;
  if bool_decide (is_Some (get_attached_tip sv pipette_id)) then
    Exec.raise CommandPreconditionViolated
  else
    let channels := get_channels sv pipette_id in
    Exec.lift (_available_for_nozzle_layout
                 channels style primary_nozzle front_right_nozzle
                 back_left_nozzle).

Definition drop_tip
    (pipette_id : string) (home_after : option bool)
    (do_not_ignore_tip_presence ignore_plunger : bool)
    (scrape_type : TipScrapeType.t) : Exec unit :=
  sv ← Exec.view;
  match validate_tip_state sv pipette_id true with
  | Some e => Exec.raise e
  | None => mret tt
  end.

Definition cache_tip (pipette_id : string) (tip : TipGeometry.t) : Exec unit :=
  Exec.raise AssertionError.

Definition remove_tip (pipette_id : string) : Exec unit :=
  Exec.raise AssertionError.

Definition verify_tip_presence
    (pipette_id : string) (expected : TipPresenceStatus.t)
    (follow_singular_sensor : option InstrumentProbeType.t) : Exec unit :=
  mret tt.

Definition get_tip_presence (pipette_id : string) : Exec TipPresenceStatus.t :=
  Exec.raise RuntimeError.

Definition handler : TipHandler.t := {|
  TipHandler.available_for_nozzle_layout := available_for_nozzle_layout;
  TipHandler.pick_up_tip := pick_up_tip;
  TipHandler.drop_tip := drop_tip;
  TipHandler.cache_tip := cache_tip;
  TipHandler.remove_tip := remove_tip;
  TipHandler.get_tip_presence := get_tip_presence;
  TipHandler.verify_tip_presence := verify_tip_presence;
|}.

End VirtualTipHandler.

Definition create_tip_handler (sv : StateView) : TipHandler.t :=
  if use_virtual_pipettes sv then VirtualTipHandler.handler
  else HardwareTipHandler.handler.

(** ** pick_up_tip.py: the pick-up-tip command *)

Record PickUpTipParams : Type := {
  pipetteId : string;
  labwareId : string;
  wellName : string;
  wellLocation : WellLocation;
}.

(** The three tip fields are declared [ge=0]: the source refuses to build
    a result from a negative value.  Tip geometries are lengths and
    volumes, and runs over a negative one are not described here. *)
Record PickUpTipResult : Type := {
  tipVolume : Q;
  tipLength : Q;
  tipDiameter : Q;
  position : Q * Q * Q;
}.

Definition TipPhysicallyMissingError (wrapped : list exn) : ErrorOccurrence := {|
  errorType := "tipPhysicallyMissing";
  isDefined := true;
  detail := "No Tip Detected";
  wrappedErrors := wrapped;
|}.

Inductive ExecuteReturn : Type :=
| SuccessData (result : PickUpTipResult) (update : update_types.StateUpdate)
| DefinedError (e : DefinedErrorData).

(** [move_to_well] of the movement layer: the call is made and the robot's
    outcome for it comes back. *)
Definition move_to_well
    (pipette_id labware_id well_name : string) (well_location : WellLocation)
  : Exec MoveResult :=
  Exec.call (call_move_to_well pipette_id labware_id well_name);;
  r ← Exec.the_robot;
  mret (move_to_well_result r pipette_id labware_id well_name well_location).

Module PickUpTipImplementation.

Import update_types.

(** Ids and timestamps of the error occurrence ([model_utils]) are left out
    of [ErrorOccurrence].  The [else] branch of the [try] statement only
    builds values, so it is placed inside the guarded computation. *)
Definition execute (tip_handler : TipHandler.t) (params : PickUpTipParams)
  : Exec ExecuteReturn :=
  let pipette_id := pipetteId params in
  let labware_id := labwareId params in
  let well_name := wellName params in
  sv ← Exec.view;
  let tips_to_mark_as_used :=
    compute_tips_to_mark_as_used sv labware_id well_name
      (get_nozzle_configuration sv pipette_id) in
  let well_location :=
    convert_pick_up_tip_well_location sv (wellLocation params) in
  move_result ← move_to_well pipette_id labware_id well_name well_location;
  match move_result with
  | MoveDefinedError e => mret (DefinedError e)
  | MoveSuccess move_position move_update =>
      Exec.try_except
        (tip_geometry ←
           @TipHandler.pick_up_tip tip_handler
             pipette_id labware_id well_name true;
         let state_update :=
           set_pipette_ready_to_aspirate pipette_id true
             (set_fluid_empty pipette_id true
                (mark_tips_as_used labware_id tips_to_mark_as_used
                   (update_pipette_tip_state pipette_id (Some tip_geometry)
                      move_update))) in
         mret (SuccessData
                 {| tipVolume := TipGeometry.volume tip_geometry;
                    tipLength := TipGeometry.length tip_geometry;
                    tipDiameter := TipGeometry.diameter tip_geometry;
                    position := move_position |}
                 state_update))
        (fun e =>
           match e with
           | PickUpTipTipNotAttachedError e_tip_geometry =>
               let state_update_if_false_positive :=
                 mark_tips_as_used labware_id tips_to_mark_as_used
                   (set_fluid_empty pipette_id true
                      (update_pipette_tip_state pipette_id
                         (Some e_tip_geometry)
                         (reduce empty move_update))) in
               let state_update :=
                 set_fluid_unknown pipette_id
                   (mark_tips_as_used labware_id tips_to_mark_as_used
                      (reduce empty move_update)) in
               mret (DefinedError
                       {| public := TipPhysicallyMissingError [e];
                          state_update := state_update;
                          state_update_if_false_positive :=
                            state_update_if_false_positive |})
           | _ => Exec.raise e
           end)
  end.

End PickUpTipImplementation.

(** ** instrument_context.py: tip pickup and nozzle layout entry points *)

Module NozzleLayout.
Inductive t : Type := COLUMN | PARTIAL_COLUMN | SINGLE | ROW | QUADRANT | ALL.

Definition eqb (a b : t) : bool :=
  match a, b with
  | COLUMN, COLUMN | PARTIAL_COLUMN, PARTIAL_COLUMN | SINGLE, SINGLE
  | ROW, ROW | QUADRANT, QUADRANT | ALL, ALL => true
  | _, _ => false
  end.
End NozzleLayout.

(** [APIVersion(major, minor)], ordered lexicographically. *)
Definition APIVersion : Type := (Z * Z)%type.

Definition version_lt (a b : APIVersion) : bool :=
  (fst a <? fst b) || ((fst a =? fst b) && (snd a <? snd b)).

Definition version_ge (a b : APIVersion) : bool := negb (version_lt a b).

Definition _PREP_AFTER_ADDED_IN : APIVersion := (2, 13).
Definition _PRESSES_INCREMENT_REMOVED_IN : APIVersion := (2, 14).
Definition _PARTIAL_NOZZLE_CONFIGURATION_ADDED_IN : APIVersion := (2, 16).
Definition _PARTIAL_NOZZLE_CONFIGURATION_AUTOMATIC_TIP_TRACKING_IN : APIVersion :=
  (2, 18).
Definition _PARTIAL_NOZZLE_CONFIGURATION_SINGLE_ROW_PARTIAL_COLUMN_ADDED_IN
  : APIVersion := (2, 20).

Definition Labware : Type := string.

Record Well : Type := {
  well_name : string;
  parent : Labware;
}.

(** A [types.Location]: a point with what [get_parent_labware_and_well]
    finds for its labware part; [well.top()] is the location [top_of]. *)
Inductive Location : Type :=
| at_point (point : Q * Q * Q) (maybe_tip_rack : option Labware)
    (maybe_well : option Well)
| top_of (well : Well).

(** The [location] argument of [pick_up_tip], by its run-time class. *)
Inductive LocationArg : Type :=
| no_location
| a_well (w : Well)
| a_labware (l : Labware)
| a_location (loc : Location)
| something_else.

(** Calls that leave the instrument context: tip selection, tip-rack
    validation, and the core's motions and reconfiguration. *)
Inductive ApiCall : Type :=
| api_next_available_tip (starting_tip : option Well) (tip_racks : list Labware)
    (channels : Z) (nozzle_map : option NozzleMap.t)
| api_validate_tiprack (tip_rack : Labware)
| api_core_pick_up_tip (location : Location) (well : Well)
    (presses : option Z) (increment : option Q) (prep_after : bool)
| api_core_configure_nozzle_layout (style : NozzleLayout.t)
    (primary_nozzle front_right_nozzle back_left_nozzle : option string).

(** The instrument core, read through its accessors. *)
Record InstrumentCore : Type := {
  core_get_channels : Z;
  core_get_active_channels : Z;
  core_get_nozzle_map : NozzleMap.t;
  core_is_tip_tracking_available : bool;
}.

(** [labware.next_available_tip], as what it selects. *)
Definition TipSelector : Type :=
  option Well -> list Labware -> Z -> option NozzleMap.t -> Labware * Well.

(** The instrument context with what it calls into.  The core, the tip
    selection and the tip-rack validation are not part of the modelled
    code and the method bodies have no handler around them: [raised_by]
    tells, for a call that leaves the instrument context, the exception it
    ends in, [None] when it returns. *)
Record InstrumentContext : Type := {
  _api_version : APIVersion;
  _core : InstrumentCore;
  _starting_tip : option Well;
  _tip_racks : list Labware;
  _last_tip_picked_up_from : option Well;
  next_available_tip : TipSelector;
  raised_by : ApiCall -> option exn;
}.

Record ApiState : Type := {
  context : InstrumentContext;
  api_calls : list ApiCall;
}.

Definition Api (A : Type) : Type := ApiState -> result A * ApiState.

Module Api.

Definition ret {A} (a : A) : Api A := fun s => (Ok a, s).

Definition bind {A B} (c : Api A) (k : A -> Api B) : Api B :=
  fun s =>
    match c s with
    | (Ok a, s') => k a s'
    | (Raise e, s') => (Raise e, s')
    end.

Definition raise {A} (e : exn) : Api A := fun s => (Raise e, s).

Definition lift {A} (r : result A) : Api A := fun s => (r, s).

Definition self : Api InstrumentContext := fun s => (Ok (context s), s).

(** Make a call: it is appended to the record, and it returns or raises
    as [raised_by] tells. *)
Definition call (c : ApiCall) : Api unit :=
  fun s =>
    let s' := {| context := context s; api_calls := api_calls s ++ [c] |} in
    match raised_by (context s) c with
    | Some e => (Raise e, s')
    | None => (Ok tt, s')
    end.

Definition set_tip_racks (racks : list Labware) : Api unit :=
  fun s =>
    let c := context s in
    (Ok tt,
     {| context :=
          {| _api_version := _api_version c; _core := _core c;
             _starting_tip := _starting_tip c; _tip_racks := racks;
             _last_tip_picked_up_from := _last_tip_picked_up_from c;
             next_available_tip := next_available_tip c;
             raised_by := raised_by c |};
        api_calls := api_calls s |}).

Definition set_last_tip_picked_up_from (w : Well) : Api unit :=
  fun s =>
    let c := context s in
    (Ok tt,
     {| context :=
          {| _api_version := _api_version c; _core := _core c;
             _starting_tip := _starting_tip c; _tip_racks := _tip_racks c;
             _last_tip_picked_up_from := Some w;
             next_available_tip := next_available_tip c;
             raised_by := raised_by c |};
        api_calls := api_calls s |}).

End Api.

#[global] Instance api_ret : MRet Api := @Api.ret.
#[global] Instance api_bind : MBind Api := fun A B k c => Api.bind c k.

(** Modelled from the spec: the [requires_version] decorator, whose body
    is in [api_support.util], outside this slice; the spec names the
    versioned behaviour and leaves the versioning infrastructure to the
    collaborators.  From API version 2.0 on, a method is refused with an
    [APIVersionError] below the version it was added in; a protocol below
    version 2.0 is let through to the method body. *)
Definition requires_version (added_in : APIVersion) : Api unit :=
  ctx ← Api.self;
  let current_version := _api_version ctx in
  if version_ge current_version (2, 0) && version_lt current_version added_in
  then Api.raise APIVersionError
  else mret tt.

Definition _raise_if_has_end_or_front_right_or_back_left
    (style : NozzleLayout.t) (end_ front_right back_left : option string)
  : result unit :=
  if truthy end_ || truthy front_right || truthy back_left
  then Raise ValueError else Ok tt.

Definition _check_valid_start_nozzle
    (style : NozzleLayout.t) (start : option string) : result string :=
  match start with
  | None => Raise ValueError
  | Some s =>
      if negb (bool_decide (s ∈ ALLOWED_PRIMARY_NOZZLES)) then Raise ValueError
      else Ok s
  end.

Definition _check_valid_end_nozzle (start : string) (end_ : option string)
  : result string :=
  match end_ with
  | None => Raise ValueError
  | Some e =>
      row ← first_char start;
      if contains row e then Raise ValueError
      else if String.eqb start "H1" || String.eqb start "H12" then
        if contains "A" e then Raise ValueError else Ok e
      else if String.eqb start "A1" || String.eqb start "A12" then
        if contains "H" e then Raise ValueError else Ok e
      else Ok e
  end.

Definition _raise_if_no_front_right_or_back_left_for_quadrant
    (front_right back_left : option string) : result unit :=
  match front_right, back_left with
  | None, None => Raise ValueError
  | _, _ => Ok tt
  end.

Definition _raise_if_has_end_nozzle_for_quadrant (end_ : option string)
  : result unit :=
  match end_ with
  | Some _ => Raise ValueError
  | None => Ok tt
  end.

Definition _raise_if_has_front_right_or_back_left_for_partial_column
    (front_right back_left : option string) : result unit :=
  if truthy front_right || truthy back_left then Raise ValueError else Ok tt.

Definition _raise_if_configuration_not_supported_by_pipette
    (channels : Z) (style : NozzleLayout.t) : result unit :=
  match style with
  | NozzleLayout.COLUMN | NozzleLayout.ROW =>
      if negb (channels =? 96) then Raise ValueError else Ok tt
  | NozzleLayout.PARTIAL_COLUMN =>
      if negb (channels =? 8) then Raise ValueError else Ok tt
  | _ => Ok tt
  end.

Module InstrumentContextMethods.

Definition channels : Api Z :=
  ctx ← Api.self; mret (core_get_channels (_core ctx)).

Definition disabled_layouts : list NozzleLayout.t := [NozzleLayout.QUADRANT].

Definition original_enabled_layouts : list NozzleLayout.t :=
  [NozzleLayout.COLUMN; NozzleLayout.ALL].

(** The log warning of the [ALL] case has no effect on the result and is
    left out. *)
Definition configure_nozzle_layout
    (style : NozzleLayout.t)
    (start end_ front_right back_left : option string)
    (tip_racks : option (list Labware)) : Api unit :=
  requires_version (2, 16);;
  ctx ← Api.self;
  if existsb (NozzleLayout.eqb style) disabled_layouts then
    Api.raise UnsupportedAPIError
  else if version_lt (_api_version ctx)
            _PARTIAL_NOZZLE_CONFIGURATION_SINGLE_ROW_PARTIAL_COLUMN_ADDED_IN
          && negb (existsb (NozzleLayout.eqb style) original_enabled_layouts)
  then Api.raise APIVersionError
  else
    ch ← channels;
    '(validated_start, front_right_resolved, back_left_resolved) ←
      Api.lift
        match style with
        | NozzleLayout.SINGLE =>
            validated_start ← _check_valid_start_nozzle style start;
            _raise_if_has_end_or_front_right_or_back_left
              style end_ front_right back_left;;
            Ok (Some validated_start, front_right, back_left)
        | NozzleLayout.COLUMN | NozzleLayout.ROW =>
            _raise_if_configuration_not_supported_by_pipette ch style;;
            validated_start ← _check_valid_start_nozzle style start;
            _raise_if_has_end_or_front_right_or_back_left
              style end_ front_right back_left;;
            Ok (Some validated_start, front_right, back_left)
        | NozzleLayout.PARTIAL_COLUMN =>
            _raise_if_configuration_not_supported_by_pipette ch style;;
            validated_start ← _check_valid_start_nozzle style start;
            validated_end ← _check_valid_end_nozzle validated_start end_;
            _raise_if_has_front_right_or_back_left_for_partial_column
              front_right back_left;;
            if String.eqb validated_start "H1"
               || String.eqb validated_start "H12"
            then Ok (Some validated_start, Some validated_start,
                     Some validated_end)
            else if bool_decide (start = Some "A1")
                    || bool_decide (start = Some "A12")
            then Ok (Some validated_start, Some validated_end,
                     Some validated_start)
            else Ok (Some validated_start, front_right, back_left)
        | NozzleLayout.QUADRANT =>
            validated_start ← _check_valid_start_nozzle style start;
            _raise_if_has_end_nozzle_for_quadrant end_;;
            _raise_if_no_front_right_or_back_left_for_quadrant
              front_right back_left;;
            match front_right, back_left with
            | None, _ => Ok (Some validated_start, Some validated_start,
                             back_left)
            | Some _, None => Ok (Some validated_start, front_right,
                                  Some validated_start)
            | Some _, Some _ => Ok (Some validated_start, front_right,
                                    back_left)
            end
        | NozzleLayout.ALL => Ok (start, front_right, back_left)
        end;
    Api.call (api_core_configure_nozzle_layout
                style validated_start front_right_resolved back_left_resolved);;
    Api.set_tip_racks (default [] tip_racks).

(** [types.Location] arguments: what the location's labware part is. *)
Definition get_parent_labware_and_well (loc : Location)
  : option Labware * option Well :=
  match loc with
  | at_point _ maybe_tip_rack maybe_well => (maybe_tip_rack, maybe_well)
  | top_of w => (None, Some w)
  end.

Definition select_tip
    (starting_tip : option Well) (tip_racks : list Labware)
    (channels : Z) (nozzle_map : option NozzleMap.t) : Api (Labware * Well) :=
  ctx ← Api.self;
  Api.call (api_next_available_tip starting_tip tip_racks channels nozzle_map);;
  mret (next_available_tip ctx starting_tip tip_racks channels nozzle_map).

Definition pick_up_tip
    (location : LocationArg) (presses : option Z) (increment : option Q)
    (prep_after : option bool) : Api unit :=
  requires_version (2, 0);;
  ctx ← Api.self;
  let api := _api_version ctx in
  if bool_decide (is_Some presses)
     && version_ge api _PRESSES_INCREMENT_REMOVED_IN
  then Api.raise UnsupportedAPIError
  else if bool_decide (is_Some increment)
          && version_ge api _PRESSES_INCREMENT_REMOVED_IN
  then Api.raise UnsupportedAPIError
  else if bool_decide (is_Some prep_after)
          && version_lt api _PREP_AFTER_ADDED_IN
  then Api.raise APIVersionError
  else
    let active_channels :=
      if version_ge api _PARTIAL_NOZZLE_CONFIGURATION_ADDED_IN
      then core_get_active_channels (_core ctx)
      else core_get_channels (_core ctx) in
    let nozzle_map :=
      if version_ge api _PARTIAL_NOZZLE_CONFIGURATION_AUTOMATIC_TIP_TRACKING_IN
      then Some (core_get_nozzle_map (_core ctx))
      else None in
    '(tip_rack, well, move_to_location) ←
      match location with
      | no_location =>
          if match nozzle_map with
             | Some nm =>
                 negb (NozzleConfigurationType.eqb (NozzleMap.configuration nm)
                         NozzleConfigurationType.FULL)
                 && bool_decide (is_Some (_starting_tip ctx))
             | None => false
             end
          then Api.raise CommandPreconditionViolated
          else if negb (core_is_tip_tracking_available (_core ctx))
          then Api.raise CommandPreconditionViolated
          else
            '(tip_rack, well) ←
              select_tip (_starting_tip ctx) (_tip_racks ctx)
                active_channels nozzle_map;
            mret (tip_rack, well, None)
      | a_well w => mret (parent w, w, None)
      | a_labware l =>
          '(tip_rack, well) ← select_tip None [l] active_channels nozzle_map;
          mret (tip_rack, well, None)
      | a_location loc =>
          match get_parent_labware_and_well loc with
          | (_, Some maybe_well) =>
              mret (parent maybe_well, maybe_well, Some loc)
          | (Some maybe_tip_rack, None) =>
              '(tip_rack, well) ←
                select_tip None [maybe_tip_rack] active_channels nozzle_map;
              mret (tip_rack, well, None)
          | (None, None) => Api.raise TypeError
          end
      | something_else => Api.raise TypeError
      end;
    Api.call (api_validate_tiprack tip_rack);;
    let move_to_location := default (top_of well) move_to_location in
    let prep_after :=
      match prep_after with
      | Some b => b
      | None => version_ge api _PREP_AFTER_ADDED_IN
      end in
    Api.call (api_core_pick_up_tip move_to_location well presses increment
                prep_after);;
    Api.set_last_tip_picked_up_from well.

End InstrumentContextMethods.

(** ** Vocabulary for the statements *)

(** The column of a nozzle name as the tip handler reads it:
    [int(name[1:])]. *)
Definition nozzle_column (name : string) : result Z :=
  Py.int (drop_first name).

(** A state view holding one pipette configuration and a robot with one
    sensor reading, for concrete runs. *)
Definition demo_tip : TipGeometry.t := TipGeometry.mk (50 # 1) (5 # 1) (200 # 1).

Definition demo_state_view
    (channels : Z) (nm : NozzleMap.t) (attached : option TipGeometry.t)
  : StateView := {|
  get_attached_tip := fun _ => attached;
  get_channels := fun _ => channels;
  get_nozzle_configuration := fun _ => nm;
  get_mount := fun _ => MountType.LEFT;
  get_serial_number := fun _ => "P1KSV3420230721";
  get_definition := fun _ => "opentrons/opentrons_flex_96_tiprack_200ul/1";
  get_nominal_tip_geometry := fun _ _ _ => demo_tip;
  compute_tips_to_mark_as_used := fun _ well _ => [well];
  convert_pick_up_tip_well_location := fun l => l;
  validate_tip_state := fun _ _ => None;
  use_virtual_pipettes := false;
|}.

Definition demo_robot (ot3 : bool) (sensed : TipStateType.t) : Robot := {|
  is_ot3 := ot3;
  tip_presence_status := fun _ _ => sensed;
  get_calibrated_tip_length := fun _ _ nominal => nominal;
  move_to_well_result := fun _ _ _ _ =>
    MoveSuccess (0 # 1, 0 # 1, 0 # 1)
      (update_types.mk (Some ("pipette", "tiprack", "A1")) None None None None);
|}.

Definition demo_machine
    (channels : Z) (nm : NozzleMap.t) (attached : option TipGeometry.t)
    (ot3 : bool) (sensed : TipStateType.t) : Machine := {|
  state_view := demo_state_view channels nm attached;
  robot := demo_robot ot3 sensed;
  calls := [];
|}.

Definition full_map_1 : NozzleMap.t :=
  NozzleMap.mk "A1" "A1" "A1" NozzleConfigurationType.FULL 1 1.

Definition partial_map_8 : NozzleMap.t :=
  NozzleMap.mk "H1" "F1" "H1" NozzleConfigurationType.SUBRECT 3 8.

Definition column3_map_96 : NozzleMap.t :=
  NozzleMap.mk "A3" "A3" "H3" NozzleConfigurationType.COLUMN 8 96.

Definition full_map_96 : NozzleMap.t :=
  NozzleMap.mk "A1" "A1" "H12" NozzleConfigurationType.FULL 96 96.

Definition demo_params : PickUpTipParams := {|
  pipetteId := "pipette";
  labwareId := "tiprack";
  wellName := "A1";
  wellLocation := {| origin := "top"; offset := (0 # 1, 0 # 1, 0 # 1) |};
|}.

(** An instrument context over a core with the given channel count and
    nozzle map, at a given API version, for concrete runs; every call that
    leaves it returns. *)
Definition demo_core (channels : Z) (nm : NozzleMap.t) : InstrumentCore := {|
  core_get_channels := channels;
  core_get_active_channels := NozzleMap.tip_count nm;
  core_get_nozzle_map := nm;
  core_is_tip_tracking_available := true;
|}.

Definition demo_well : Well := {| well_name := "A12"; parent := "tiprack" |}.

Definition demo_context
    (api : APIVersion) (channels : Z) (nm : NozzleMap.t)
    (starting_tip : option Well) : InstrumentContext := {|
  _api_version := api;
  _core := demo_core channels nm;
  _starting_tip := starting_tip;
  _tip_racks := ["tiprack"];
  _last_tip_picked_up_from := None;
  next_available_tip := fun starting_tip racks _ _ =>
    (default "tiprack" (head racks), default demo_well starting_tip);
  raised_by := fun _ => None;
|}.

Definition column12_map_96 : NozzleMap.t :=
  NozzleMap.mk "A12" "A12" "H12" NozzleConfigurationType.COLUMN 8 96.

Definition full_map_8 : NozzleMap.t :=
  NozzleMap.mk "A1" "A1" "H1" NozzleConfigurationType.FULL 8 8.

(** The hardware mount of a pipette. *)
Definition hw_mount (m : Machine) (pipette_id : string) : Mount.t :=
  to_hw_mount (get_mount (state_view m) pipette_id).

(** The geometry [pick_up_tip] resolves: nominal diameter and volume with
    the calibrated length. *)
Definition resolved_tip_geometry
    (m : Machine) (pipette_id labware_id well_name : string) : TipGeometry.t :=
  let sv := state_view m in
  let nominal := get_nominal_tip_geometry sv pipette_id labware_id well_name in
  TipGeometry.mk
    (get_calibrated_tip_length (robot m) (get_serial_number sv pipette_id)
       (get_definition sv labware_id) (TipGeometry.length nominal))
    (TipGeometry.diameter nominal) (TipGeometry.volume nominal).

(** The calls of [pick_up_tip] up to and including the pickup motion: the
    two geometry lookups, then the motion. *)
Definition pickup_calls
    (m : Machine) (pipette_id labware_id well_name : string) : list Call :=
  let sv := state_view m in
  [call_get_nominal_tip_geometry pipette_id labware_id well_name;
   call_get_calibrated_tip_length (get_serial_number sv pipette_id)
     (TipGeometry.length
        (get_nominal_tip_geometry sv pipette_id labware_id well_name));
   call_tip_pickup_moves (hw_mount m pipette_id)].

(** The calls that commit a tip to the hardware API and ready the plunger. *)
Definition commit_calls
    (m : Machine) (pipette_id : string) (g : TipGeometry.t) : list Call :=
  let mount := hw_mount m pipette_id in
  [call_cache_tip mount (TipGeometry.length g);
   call_set_current_tiprack_diameter mount (TipGeometry.diameter g);
   call_set_working_volume mount (TipGeometry.volume g);
   call_prepare_for_aspirate mount].


(** The state a successful [configure_nozzle_layout] leaves behind: one
    more call to the core, and the tip racks replaced. *)
Definition after_configure
    (s : ApiState) (style : NozzleLayout.t)
    (primary front_right back_left : option string)
    (tip_racks : option (list Labware)) : ApiState :=
  {| context :=
       {| _api_version := _api_version (context s);
          _core := _core (context s);
          _starting_tip := _starting_tip (context s);
          _tip_racks := default [] tip_racks;
          _last_tip_picked_up_from := _last_tip_picked_up_from (context s);
          next_available_tip := next_available_tip (context s);
          raised_by := raised_by (context s) |};
     api_calls :=
       api_calls s
       ++ [api_core_configure_nozzle_layout style primary front_right
             back_left] |}.

(** The same instrument context over a core that refuses every request
    with [e]: the tip selection and the tip-rack validation answer as
    before. *)
Definition with_refusing_core (ctx : InstrumentContext) (e : exn)
  : InstrumentContext :=
  {| _api_version := _api_version ctx;
     _core := _core ctx;
     _starting_tip := _starting_tip ctx;
     _tip_racks := _tip_racks ctx;
     _last_tip_picked_up_from := _last_tip_picked_up_from ctx;
     next_available_tip := next_available_tip ctx;
     raised_by := fun c =>
       match c with
       | api_core_pick_up_tip _ _ _ _ _
       | api_core_configure_nozzle_layout _ _ _ _ => Some e
       | _ => raised_by ctx c
       end |}.

(** ** types.py: deck slots, mounts and axes *)

(** [str.upper()] on ASCII text, which is what slot names are made of. *)
Definition upper_char (c : ascii) : ascii :=
  let n := N_of_ascii c in
  if (97 <=? n)%N && (n <=? 122)%N then ascii_of_N (n - 32) else c.

Fixpoint upper (s : string) : string :=
  match s with
  | EmptyString => EmptyString
  | String c s' => String (upper_char c) (upper s')
  end.

(** [DeckLocation = Union[int, str]] *)
Inductive DeckLocation : Type :=
| location_int (n : Z)
| location_str (s : string).

(** [str(value)] of a [DeckLocation]. *)
Definition deck_location_str (value : DeckLocation) : string :=
  match value with
  | location_int n => pretty n
  | location_str s => s
  end.

(** A dict built by a comprehension over pairs: later pairs overwrite
    earlier ones. *)
Definition dict_of_pairs `{Countable K} {V} (pairs : list (K * V)) : gmap K V :=
  foldl (fun d kv => <[kv.1 := kv.2]> d) ∅ pairs.

Module DeckSlotName.

Inductive t : Type :=
| SLOT_1 | SLOT_2 | SLOT_3 | SLOT_4 | SLOT_5 | SLOT_6
| SLOT_7 | SLOT_8 | SLOT_9 | SLOT_10 | SLOT_11 | FIXED_TRASH
| SLOT_A1 | SLOT_A2 | SLOT_A3 | SLOT_B1 | SLOT_B2 | SLOT_B3
| SLOT_C1 | SLOT_C2 | SLOT_C3 | SLOT_D1 | SLOT_D2 | SLOT_D3.

Definition value (s : t) : string :=
  match s with
  | SLOT_1 => "1" | SLOT_2 => "2" | SLOT_3 => "3" | SLOT_4 => "4"
  | SLOT_5 => "5" | SLOT_6 => "6" | SLOT_7 => "7" | SLOT_8 => "8"
  | SLOT_9 => "9" | SLOT_10 => "10" | SLOT_11 => "11" | FIXED_TRASH => "12"
  | SLOT_A1 => "A1" | SLOT_A2 => "A2" | SLOT_A3 => "A3"
  | SLOT_B1 => "B1" | SLOT_B2 => "B2" | SLOT_B3 => "B3"
  | SLOT_C1 => "C1" | SLOT_C2 => "C2" | SLOT_C3 => "C3"
  | SLOT_D1 => "D1" | SLOT_D2 => "D2" | SLOT_D3 => "D3"
  end.

(** The members in definition order. *)
Definition members : list t :=
  [SLOT_1; SLOT_2; SLOT_3; SLOT_4; SLOT_5; SLOT_6;
   SLOT_7; SLOT_8; SLOT_9; SLOT_10; SLOT_11; FIXED_TRASH;
   SLOT_A1; SLOT_A2; SLOT_A3; SLOT_B1; SLOT_B2; SLOT_B3;
   SLOT_C1; SLOT_C2; SLOT_C3; SLOT_D1; SLOT_D2; SLOT_D3].

(** [cls(value)]: the member with that value; [ValueError] when there is
    none. *)
Definition of_value (v : string) : result t :=
  match List.find (fun s => String.eqb (value s) v) members with
  | Some s => Ok s
  | None => Raise ValueError
  end.

#[global] Instance eq_dec : EqDecision t.
Proof. solve_decision. Defined.

(** Members are hashed by their place in the enumeration. *)
Definition place (s : t) : nat :=
  match s with
  | SLOT_1 => 0 | SLOT_2 => 1 | SLOT_3 => 2 | SLOT_4 => 3
  | SLOT_5 => 4 | SLOT_6 => 5 | SLOT_7 => 6 | SLOT_8 => 7
  | SLOT_9 => 8 | SLOT_10 => 9 | SLOT_11 => 10 | FIXED_TRASH => 11
  | SLOT_A1 => 12 | SLOT_A2 => 13 | SLOT_A3 => 14
  | SLOT_B1 => 15 | SLOT_B2 => 16 | SLOT_B3 => 17
  | SLOT_C1 => 18 | SLOT_C2 => 19 | SLOT_C3 => 20
  | SLOT_D1 => 21 | SLOT_D2 => 22 | SLOT_D3 => 23
  end%nat.

#[global] Program Instance countable : Countable t :=
  inj_countable' place (fun n => default SLOT_1 (members !! n)) _.
Next Obligation. intros []; reflexivity. Qed.

Definition from_primitive (value : DeckLocation) : result t :=
  let str_val := upper (deck_location_str value) in
  of_value str_val.

Definition ot3_slots : list t :=
  [SLOT_A1; SLOT_A2; SLOT_A3; SLOT_B1; SLOT_B2; SLOT_B3;
   SLOT_C1; SLOT_C2; SLOT_C3; SLOT_D1; SLOT_D2; SLOT_D3].

Definition _slot_equivalencies : list (t * t) :=
  [(SLOT_1, SLOT_D1); (SLOT_2, SLOT_D2); (SLOT_3, SLOT_D3);
   (SLOT_4, SLOT_C1); (SLOT_5, SLOT_C2); (SLOT_6, SLOT_C3);
   (SLOT_7, SLOT_B1); (SLOT_8, SLOT_B2); (SLOT_9, SLOT_B3);
   (SLOT_10, SLOT_A1); (SLOT_11, SLOT_A2); (FIXED_TRASH, SLOT_A3)].

Definition _ot2_to_ot3 : gmap t t :=
  dict_of_pairs _slot_equivalencies.

Definition _ot3_to_ot2 : gmap t t :=
  dict_of_pairs (map (fun '(ot2, ot3) => (ot3, ot2)) _slot_equivalencies).

(** [d.get(self, self)] *)
Definition to_ot2_equivalent (s : t) : t := default s (_ot3_to_ot2 !! s).

Definition to_ot3_equivalent (s : t) : t := default s (_ot2_to_ot3 !! s).

Definition as_int (s : t) : result Z := Py.int (value (to_ot2_equivalent s)).

(** A robot type other than the two named ones falls off the end of the
    method, which then hands back [None]. *)
Definition to_equivalent_for_robot_type (s : t) (robot_type : string)
  : option t :=
  if String.eqb robot_type "OT-2 Standard" then Some (to_ot2_equivalent s)
  else if String.eqb robot_type "OT-3 Standard" then Some (to_ot3_equivalent s)
  else None.

Definition id (s : t) : string := value s.

End DeckSlotName.

Module StagingSlotName.

Inductive t : Type := SLOT_A4 | SLOT_B4 | SLOT_C4 | SLOT_D4.

Definition value (s : t) : string :=
  match s with
  | SLOT_A4 => "A4" | SLOT_B4 => "B4" | SLOT_C4 => "C4" | SLOT_D4 => "D4"
  end.

Definition members : list t := [SLOT_A4; SLOT_B4; SLOT_C4; SLOT_D4].

Definition of_value (v : string) : result t :=
  match List.find (fun s => String.eqb (value s) v) members with
  | Some s => Ok s
  | None => Raise ValueError
  end.

Definition from_primitive (value : string) : result t :=
  let str_val := upper value in
  of_value str_val.

Definition id (s : t) : string := value s.

End StagingSlotName.

(** [Mount.string_to_mount] *)
Definition string_to_mount (mount : string) : Mount.t :=
  if String.eqb mount "right" then Mount.RIGHT
  else if String.eqb mount "left" then Mount.LEFT
  else Mount.EXTENSION.

(** [MountType.other_mount] *)
Definition other_mount (m : MountType.t) : MountType.t :=
  match m with
  | MountType.RIGHT => MountType.LEFT
  | _ => MountType.RIGHT
  end.

(** [MountType.from_hw_mount]: its dict has no entry for the extension
    mount. *)
Definition from_hw_mount (mount : Mount.t) : result MountType.t :=
  match mount with
  | Mount.LEFT => Ok MountType.LEFT
  | Mount.RIGHT => Ok MountType.RIGHT
  | Mount.EXTENSION => Raise (KeyError "EXTENSION")
  end.

Module AxisType.

Inductive t : Type := X | Y | Z_L | Z_R | Z_G | P_L | P_R | Q | G.

Definition name (a : t) : string :=
  match a with
  | X => "X" | Y => "Y" | Z_L => "Z_L" | Z_R => "Z_R" | Z_G => "Z_G"
  | P_L => "P_L" | P_R => "P_R" | Q => "Q" | G => "G"
  end.

Definition axis_for_mount (mount : Mount.t) : t :=
  match mount with
  | Mount.LEFT => Z_L
  | Mount.RIGHT => Z_R
  | Mount.EXTENSION => Z_G
  end.

Definition mount_for_axis (axis : t) : result Mount.t :=
  match axis with
  | Z_L => Ok Mount.LEFT
  | Z_R => Ok Mount.RIGHT
  | Z_G => Ok Mount.EXTENSION
  | other => Raise (KeyError (name other))
  end.

Definition plunger_axis_for_mount (mount : Mount.t) : result t :=
  match mount with
  | Mount.LEFT => Ok P_L
  | Mount.RIGHT => Ok P_R
  | Mount.EXTENSION => Raise (KeyError "EXTENSION")
  end.

Definition ot2_axes : list t := [X; Y; Z_L; Z_R; P_L; P_R].
Definition flex_gantry_axes : list t := [X; Y; Z_L; Z_R; Z_G].
Definition ot2_gantry_axes : list t := [X; Y; Z_L; Z_R].

End AxisType.


(** A call that tells the hardware API that a tip is attached or makes it
    ready to aspirate. *)
Definition commits_tip (c : Call) : bool :=
  match c with
  | call_cache_tip _ _ | call_set_working_volume _ _
  | call_prepare_for_aspirate _ => true
  | _ => false
  end.

(** A defined error of the motion layer, and the same machine with every
    move ending in it. *)
Definition stall_error : DefinedErrorData := {|
  public :=
    {| errorType := "stallOrCollision"; isDefined := true;
       detail := "Stall or collision"; wrappedErrors := [] |};
  state_update := update_types.empty;
  state_update_if_false_positive := update_types.empty;
|}.

Definition with_failed_move (m : Machine) (e : DefinedErrorData) : Machine :=
  {| state_view := state_view m;
     robot :=
       {| is_ot3 := is_ot3 (robot m);
          tip_presence_status := tip_presence_status (robot m);
          get_calibrated_tip_length := get_calibrated_tip_length (robot m);
          move_to_well_result := fun _ _ _ _ => MoveDefinedError e |};
     calls := calls m |}.

(** * Properties *)

(** ** Sample runs of the resolver *)

Example resolver_column_A1 :
  _available_for_nozzle_layout 96 "COLUMN" (Some "A1") None None
  = Ok (nozzle_dict "A1" "H1" "A1").
Proof. vm_compute. reflexivity. Qed.

Example resolver_pc96 :
  _available_for_nozzle_layout 96 "PARTIAL_COLUMN" None None None
  = Ok (<["primary_nozzle" := "A1"]> ∅).
Proof. reflexivity. Qed.

Example resolver_quadrant_none :
  _available_for_nozzle_layout 96 "QUADRANT" (Some "A1") None None
  = Raise (KeyError "QUADRANT").
Proof. vm_compute. reflexivity. Qed.



(** ** The nozzle layout resolver *)

Lemma allowed_primary_cases (p : string) :
  p ∈ ALLOWED_PRIMARY_NOZZLES <-> p = "A1" \/ p = "H1" \/ p = "A12" \/ p = "H12".
Proof.
  unfold ALLOWED_PRIMARY_NOZZLES.
  rewrite !elem_of_cons, elem_of_nil. tauto.
Qed.

(** The outer keys of both tables are the allowed primary nozzles. *)
Lemma ending_map_outer (p : string) :
  p ∉ ALLOWED_PRIMARY_NOZZLES -> PRIMARY_NOZZLE_TO_ENDING_NOZZLE_MAP !! p = None.
Proof.
  rewrite allowed_primary_cases. intros Hp.
  unfold PRIMARY_NOZZLE_TO_ENDING_NOZZLE_MAP.
  rewrite !lookup_insert_ne by (intros E; subst p; intuition congruence).
  apply lookup_empty.
Qed.

Lemma back_left_map_outer (p : string) :
  p ∉ ALLOWED_PRIMARY_NOZZLES -> PRIMARY_NOZZLE_TO_BACK_LEFT_NOZZLE_MAP !! p = None.
Proof.
  rewrite allowed_primary_cases. intros Hp.
  unfold PRIMARY_NOZZLE_TO_BACK_LEFT_NOZZLE_MAP.
  rewrite !lookup_insert_ne by (intros E; subst p; intuition congruence).
  apply lookup_empty.
Qed.

(** The inner keys are "COLUMN" and "ROW" only. *)
Lemma inner_keys (c r style : string) :
  style <> "COLUMN" -> style <> "ROW" ->
  (<["COLUMN" := c]> (<["ROW" := r]> (∅ : gmap string string))) !! style = None.
Proof.
  intros Hc Hr. rewrite !lookup_insert_ne by congruence. apply lookup_empty.
Qed.

Lemma getitem2_ending_outer (p style : string) :
  p ∉ ALLOWED_PRIMARY_NOZZLES ->
  getitem2 PRIMARY_NOZZLE_TO_ENDING_NOZZLE_MAP p style = Raise (KeyError p).
Proof. intros Hp. unfold getitem2. now rewrite ending_map_outer. Qed.

Lemma getitem2_back_left_outer (p style : string) :
  p ∉ ALLOWED_PRIMARY_NOZZLES ->
  getitem2 PRIMARY_NOZZLE_TO_BACK_LEFT_NOZZLE_MAP p style = Raise (KeyError p).
Proof. intros Hp. unfold getitem2. now rewrite back_left_map_outer. Qed.

Lemma getitem2_ending_inner (p style : string) :
  p ∈ ALLOWED_PRIMARY_NOZZLES -> style <> "COLUMN" -> style <> "ROW" ->
  getitem2 PRIMARY_NOZZLE_TO_ENDING_NOZZLE_MAP p style = Raise (KeyError style).
Proof.
  rewrite allowed_primary_cases. intros Hp Hc Hr.
  unfold getitem2, PRIMARY_NOZZLE_TO_ENDING_NOZZLE_MAP.
  destruct Hp as [-> | [-> | [-> | ->]]];
    repeat (rewrite lookup_insert_ne by discriminate);
    rewrite lookup_insert_eq; now rewrite inner_keys.
Qed.

Lemma getitem2_back_left_inner (p style : string) :
  p ∈ ALLOWED_PRIMARY_NOZZLES -> style <> "COLUMN" -> style <> "ROW" ->
  getitem2 PRIMARY_NOZZLE_TO_BACK_LEFT_NOZZLE_MAP p style = Raise (KeyError style).
Proof.
  rewrite allowed_primary_cases. intros Hp Hc Hr.
  unfold getitem2, PRIMARY_NOZZLE_TO_BACK_LEFT_NOZZLE_MAP.
  destruct Hp as [-> | [-> | [-> | ->]]];
    repeat (rewrite lookup_insert_ne by discriminate);
    rewrite lookup_insert_eq; now rewrite inner_keys.
Qed.

(** Whenever a table lookup is made with a key that is in neither table,
    it is a [KeyError]. *)
Lemma getitem2_ending_key_error (p style : string) :
  p ∉ ALLOWED_PRIMARY_NOZZLES \/ (style <> "COLUMN" /\ style <> "ROW") ->
  exists k, getitem2 PRIMARY_NOZZLE_TO_ENDING_NOZZLE_MAP p style = Raise (KeyError k).
Proof.
  intros H. destruct (decide (p ∈ ALLOWED_PRIMARY_NOZZLES)) as [Hin | Hout].
  - destruct H as [H | [Hc Hr]]; [contradiction |].
    exists style. now apply getitem2_ending_inner.
  - exists p. now apply getitem2_ending_outer.
Qed.

Lemma getitem2_back_left_key_error (p style : string) :
  p ∉ ALLOWED_PRIMARY_NOZZLES \/ (style <> "COLUMN" /\ style <> "ROW") ->
  exists k,
    getitem2 PRIMARY_NOZZLE_TO_BACK_LEFT_NOZZLE_MAP p style = Raise (KeyError k).
Proof.
  intros H. destruct (decide (p ∈ ALLOWED_PRIMARY_NOZZLES)) as [Hin | Hout].
  - destruct H as [H | [Hc Hr]]; [contradiction |].
    exists style. now apply getitem2_back_left_inner.
  - exists p. now apply getitem2_back_left_outer.
Qed.

Lemma eqb_false_of_ne (a b : string) : a <> b -> String.eqb a b = false.
Proof. intros H. now apply String.eqb_neq. Qed.

(** ROW on an 8-channel pipette is refused, whatever the nozzle hints. *)
Lemma resolver_row_on_8_channel (p fr bl : option string) :
  _available_for_nozzle_layout 8 "ROW" p fr bl
  = Raise (CommandParameterLimitViolated "RowNozzleLayout" (str p)).
Proof. reflexivity. Qed.

(** The 96-channel guard of the resolver fires on the style name
    "PARTIAL_COLUM". *)
Lemma resolver_partial_colum_on_96_channel (p fr bl : option string) :
  _available_for_nozzle_layout 96 "PARTIAL_COLUM" p fr bl
  = Raise (CommandParameterLimitViolated "PartialColumnNozzleLayout" (str p)).
Proof. reflexivity. Qed.

(** C3. On a 96-channel pipette the style "PARTIAL_COLUMN" passes the
    resolver's compatibility guards: the guard meant for it compares the
    style with "PARTIAL_COLUM", so the call is never refused with
    [CommandParameterLimitViolated]; with no primary nozzle it returns the
    default layout [{"primary_nozzle": "A1"}].  The ROW guard for
    8-channel pipettes does fire. *)
Theorem C3_partial_column_on_96_channel_not_refused :
  _available_for_nozzle_layout 96 "PARTIAL_COLUMN" None None None
    = Ok (<["primary_nozzle" := "A1"]> ∅)
  /\ (forall p fr bl name value,
        _available_for_nozzle_layout 96 "PARTIAL_COLUMN" p fr bl
        <> Raise (CommandParameterLimitViolated name value))
  /\ (forall p fr bl,
        _available_for_nozzle_layout 8 "ROW" p fr bl
        = Raise (CommandParameterLimitViolated "RowNozzleLayout" (str p))).
Proof.
  split; [reflexivity | split].
  - intros p fr bl name value.
    unfold _available_for_nozzle_layout. simpl.
    destruct (truthy p); simpl; [| discriminate].
    destruct (truthy fr), (truthy bl); simpl;
      try discriminate;
      unfold mbind, result_bind, Py.bind;
      repeat match goal with
             | |- context [getitem2 ?t ?a ?b] =>
                 destruct (getitem2 t a b) eqn:?; simpl
             end;
      try discriminate.
    all: match goal with
         | H : getitem2 _ _ _ = Raise _ |- _ =>
             unfold getitem2 in H;
             repeat match type of H with
                    | context [match ?x with _ => _ end] => destruct x
                    end; inversion H; discriminate
         end.
  - apply resolver_row_on_8_channel.
Qed.

(** Counterexample to C10 as stated: a multi-channel call with a primary
    nozzle and the style "PARTIAL_COLUMN" on an 8-channel pipette that
    returns a layout and raises nothing, because both corner nozzles are
    given. *)
Lemma C10_counterexample :
  _available_for_nozzle_layout 8 "PARTIAL_COLUMN"
    (Some "A1") (Some "D1") (Some "A1")
  = Ok (nozzle_dict "A1" "D1" "A1").
Proof. reflexivity. Qed.

(** C10, amended.  A multi-channel call with a primary nozzle given, not
    turned away by an earlier guard, raises [KeyError] when it reaches a
    table lookup with a key the tables lack: that is when at most one of
    [front_right] and [back_left] is given (for "QUADRANT": neither), and
    either the style is not "COLUMN" or "ROW" or the primary nozzle is
    not one of A1, H1, A12, H12. *)
Theorem C10_resolver_key_error
    (channels : Z) (style p : string) (fr bl : option string) :
  channels <> 1 ->
  p <> "" ->
  style <> "ALL" -> style <> "SINGLE" ->
  ~ (style = "ROW" /\ channels = 8) ->
  ~ (style = "PARTIAL_COLUM" /\ channels = 96) ->
  (truthy fr = false \/ truthy bl = false) ->
  (style = "QUADRANT" -> truthy fr = false /\ truthy bl = false) ->
  (style <> "COLUMN" /\ style <> "ROW") \/ p ∉ ALLOWED_PRIMARY_NOZZLES ->
  exists k,
    _available_for_nozzle_layout channels style (Some p) fr bl
    = Raise (KeyError k).
Proof.
  intros Hch Hp Hall Hsingle Hrow Hpc Hone Hquad Hkey.
  assert (Hkey' : p ∉ ALLOWED_PRIMARY_NOZZLES
                  \/ (style <> "COLUMN" /\ style <> "ROW")) by tauto.
  unfold _available_for_nozzle_layout.
  rewrite (proj2 (Z.eqb_neq channels 1) Hch).
  rewrite (eqb_false_of_ne _ _ Hall).
  replace (String.eqb style "ROW" && (channels =? 8)) with false.
  2:{ symmetry. apply andb_false_iff.
      destruct (String.eqb_spec style "ROW"); [| now left].
      right. apply Z.eqb_neq. tauto. }
  replace (String.eqb style "PARTIAL_COLUM" && (channels =? 96)) with false.
  2:{ symmetry. apply andb_false_iff.
      destruct (String.eqb_spec style "PARTIAL_COLUM"); [| now left].
      right. apply Z.eqb_neq. tauto. }
  simpl truthy. rewrite (eqb_false_of_ne _ _ Hp). simpl negb. cbv iota.
  rewrite (eqb_false_of_ne _ _ Hsingle).
  simpl default.
  destruct (getitem2_ending_key_error p style Hkey') as [k1 Hk1].
  destruct (getitem2_back_left_key_error p style Hkey') as [k2 Hk2].
  destruct (String.eqb_spec style "QUADRANT") as [Hq | Hq].
  - destruct (Hquad Hq) as [Hfr Hbl]. rewrite Hfr, Hbl. simpl.
    exists k1. now rewrite Hk1.
  - simpl.
    destruct (truthy fr) eqn:Hfr, (truthy bl) eqn:Hbl; simpl.
    + destruct Hone; discriminate.
    + exists k2. now rewrite Hk2.
    + exists k1. now rewrite Hk1.
    + exists k1. now rewrite Hk1.
Qed.

Lemma C10_resolver_key_error_witness :
  exists k,
    _available_for_nozzle_layout 96 "QUADRANT" (Some "A1") None None
    = Raise (KeyError k).
Proof.
  apply (C10_resolver_key_error 96 "QUADRANT" "A1" None None);
    try discriminate; try (intros [? ?]; discriminate).
  - left; reflexivity.
  - intros _; split; reflexivity.
  - left; split; discriminate.
Defined.

(** ** Runs of the hardware tip handler *)

Ltac exec_unfold :=
  unfold HardwareTipHandler.pick_up_tip, HardwareTipHandler.drop_tip,
    HardwareTipHandler.get_tip_presence,
    HardwareTipHandler.verify_tip_presence,
    HardwareTipHandler.cache_tip, HardwareTipHandler.remove_tip,
    HardwareTipHandler._get_hw_mount, ensure_ot3_hardware,
    ot3api_verify_tip_presence, ot3api_get_tip_presence_status,
    move_to_well,
    Exec.try_except, Exec.the_robot, Exec.view, Exec.lift, Exec.call,
    Exec.raise, mbind, mret, exec_bind, exec_ret, Exec.bind, Exec.ret,
    with_calls.

(** [verify_tip_presence] expecting PRESENT: silent without sensing
    hardware, one sensor call otherwise. *)
Lemma verify_present_run
    (m : Machine) (pipette_id : string)
    (follow : option InstrumentProbeType.t) :
  HardwareTipHandler.verify_tip_presence
    pipette_id TipPresenceStatus.PRESENT follow m
  = if is_ot3 (robot m) then
      let m' :=
        with_calls m
          (calls m
           ++ [call_verify_tip_presence (hw_mount m pipette_id) TipStateType.PRESENT follow]) in
      match tip_presence_status (robot m) (hw_mount m pipette_id) follow with
      | TipStateType.PRESENT => (Ok tt, m')
      | TipStateType.ABSENT => (Raise TipNotAttachedError, m')
      end
    else (Ok tt, m).
Proof.
  unfold hw_mount. exec_unfold. simpl.
  destruct (is_ot3 (robot m)); simpl; [| reflexivity].
  destruct (tip_presence_status (robot m) _ follow); reflexivity.
Qed.

(** [verify_tip_presence] expecting ABSENT. *)
Lemma verify_absent_run
    (m : Machine) (pipette_id : string)
    (follow : option InstrumentProbeType.t) :
  HardwareTipHandler.verify_tip_presence
    pipette_id TipPresenceStatus.ABSENT follow m
  = if is_ot3 (robot m) then
      let m' :=
        with_calls m
          (calls m
           ++ [call_verify_tip_presence (hw_mount m pipette_id) TipStateType.ABSENT follow]) in
      match tip_presence_status (robot m) (hw_mount m pipette_id) follow with
      | TipStateType.ABSENT => (Ok tt, m')
      | TipStateType.PRESENT => (Raise TipAttachedError, m')
      end
    else (Ok tt, m).
Proof.
  unfold hw_mount. exec_unfold. simpl.
  destruct (is_ot3 (robot m)); simpl; [| reflexivity].
  destruct (tip_presence_status (robot m) _ follow); reflexivity.
Qed.

(** Every run of the hardware [pick_up_tip], in closed form. *)
Lemma pick_up_tip_run
    (m : Machine) (pipette_id labware_id well_name : string) (verify : bool) :
  HardwareTipHandler.pick_up_tip pipette_id labware_id well_name verify m
  = let g := resolved_tip_geometry m pipette_id labware_id well_name in
    let pre := calls m ++ pickup_calls m pipette_id labware_id well_name in
    match HardwareTipHandler.get_tip_presence_config (state_view m) pipette_id with
    | Raise e => (Raise e, with_calls m pre)
    | Ok (supported, follow) =>
        if verify && supported && is_ot3 (robot m) then
          let sensed :=
            pre ++ [call_verify_tip_presence (hw_mount m pipette_id) TipStateType.PRESENT follow] in
          match tip_presence_status (robot m) (hw_mount m pipette_id) follow with
          | TipStateType.PRESENT =>
              (Ok g, with_calls m (sensed ++ commit_calls m pipette_id g))
          | TipStateType.ABSENT =>
              (Raise (PickUpTipTipNotAttachedError g), with_calls m sensed)
          end
        else (Ok g, with_calls m (pre ++ commit_calls m pipette_id g))
    end.
Proof.
  unfold resolved_tip_geometry, pickup_calls, commit_calls, hw_mount.
  exec_unfold. simpl.
  destruct (HardwareTipHandler.get_tip_presence_config (state_view m) pipette_id)
    as [[supported follow] | e]; simpl.
  2:{ now rewrite <- !app_assoc. }
  destruct verify, supported; simpl;
    try (now rewrite <- !app_assoc).
  destruct (is_ot3 (robot m)); simpl.
  - destruct (tip_presence_status (robot m) _ follow); simpl;
      now rewrite <- !app_assoc.
  - now rewrite <- !app_assoc.
Qed.

(** Every run of the hardware [drop_tip], in closed form. *)
Lemma drop_tip_run
    (m : Machine) (pipette_id : string) (home_after : option bool)
    (verify ignore_plunger : bool) (scrape_type : TipScrapeType.t) :
  HardwareTipHandler.drop_tip
    pipette_id home_after verify ignore_plunger scrape_type m
  = let moved :=
      calls m
      ++ [call_tip_drop_moves (hw_mount m pipette_id) ignore_plunger scrape_type home_after] in
    let removal :=
      [call_remove_tip (hw_mount m pipette_id);
       call_set_current_tiprack_diameter (hw_mount m pipette_id) 0%Q] in
    if verify && is_ot3 (robot m) then
      let sensed :=
        moved ++ [call_verify_tip_presence (hw_mount m pipette_id) TipStateType.ABSENT None] in
      match tip_presence_status (robot m) (hw_mount m pipette_id) None with
      | TipStateType.ABSENT => (Ok tt, with_calls m (sensed ++ removal))
      | TipStateType.PRESENT => (Raise TipAttachedError, with_calls m sensed)
      end
    else (Ok tt, with_calls m (moved ++ removal)).
Proof.
  unfold hw_mount. exec_unfold. simpl.
  destruct verify; simpl; [| now rewrite <- !app_assoc].
  destruct (is_ot3 (robot m)); simpl; [| now rewrite <- !app_assoc].
  destruct (tip_presence_status (robot m) _ None); simpl;
    now rewrite <- !app_assoc.
Qed.


(** ** Tip presence configuration *)

Lemma configuration_eqb_eq (a b : NozzleConfigurationType.t) :
  NozzleConfigurationType.eqb a b = true <-> a = b.
Proof. destruct a, b; simpl; split; congruence. Qed.

Lemma configuration_eqb_ne (a b : NozzleConfigurationType.t) :
  a <> b -> NozzleConfigurationType.eqb a b = false.
Proof. destruct a, b; simpl; congruence. Qed.

Lemma nozzle_column_left (name : string) (c : Z) :
  nozzle_column name = Ok c -> tip_on_left_side_96 name = Ok (c =? 1).
Proof.
  unfold nozzle_column, tip_on_left_side_96. intros ->. reflexivity.
Qed.

Lemma nozzle_column_right (name : string) (c : Z) :
  nozzle_column name = Ok c -> tip_on_right_side_96 name = Ok (c =? 12).
Proof.
  unfold nozzle_column, tip_on_right_side_96. intros ->. reflexivity.
Qed.

(** The configuration of a 96-channel pipette in closed form, when both
    corner names read as columns. *)
Lemma presence_config_96 (sv : StateView) (pid : string) (cl cr : Z) :
  let nm := get_nozzle_configuration sv pid in
  get_channels sv pid = 96 ->
  nozzle_column (NozzleMap.back_left nm) = Ok cl ->
  nozzle_column (NozzleMap.front_right nm) = Ok cr ->
  HardwareTipHandler.get_tip_presence_config sv pid
  = let supported :=
      negb (NozzleConfigurationType.eqb (NozzleMap.configuration nm)
              NozzleConfigurationType.SINGLE)
      && (4 <=? NozzleMap.tip_count nm) in
    Ok (supported,
        if negb (NozzleConfigurationType.eqb (NozzleMap.configuration nm)
                   NozzleConfigurationType.FULL)
           && supported && negb ((cl =? 1) && (cr =? 12))
        then Some (if cl =? 1 then InstrumentProbeType.PRIMARY
                   else InstrumentProbeType.SECONDARY)
        else None).
Proof.
  intros nm Hch Hl Hr.
  unfold HardwareTipHandler.get_tip_presence_config.
  fold nm. rewrite Hch. simpl Z.eqb. cbv iota.
  unfold HardwareTipHandler.unsupported_layout_types_96,
    HardwareTipHandler.supported_partial_nozzle_minimum.
  simpl existsb. rewrite orb_false_r.
  rewrite (nozzle_column_left _ _ Hl), (nozzle_column_right _ _ Hr).
  destruct (NozzleConfigurationType.eqb (NozzleMap.configuration nm)
              NozzleConfigurationType.FULL);
    destruct (NozzleConfigurationType.eqb (NozzleMap.configuration nm)
                NozzleConfigurationType.SINGLE);
    destruct (4 <=? NozzleMap.tip_count nm);
    simpl; try reflexivity;
    destruct (cl =? 1), (cr =? 12); reflexivity.
Qed.

(** C5. On a 96-channel pipette with a non-FULL configuration whose
    presence sensing is supported: with the back-left nozzle in column 1
    and the front-right nozzle in column 12 no sensor is singled out; with
    only the back-left nozzle in column 1 the PRIMARY sensor is followed;
    in every other case the SECONDARY sensor is followed. *)
Theorem C5_follow_singular_sensor_96
    (sv : StateView) (pid : string) (cl cr : Z) :
  let nm := get_nozzle_configuration sv pid in
  get_channels sv pid = 96 ->
  NozzleMap.configuration nm <> NozzleConfigurationType.FULL ->
  NozzleMap.configuration nm <> NozzleConfigurationType.SINGLE ->
  4 <= NozzleMap.tip_count nm ->
  nozzle_column (NozzleMap.back_left nm) = Ok cl ->
  nozzle_column (NozzleMap.front_right nm) = Ok cr ->
  (cl = 1 /\ cr = 12 ->
   HardwareTipHandler.get_tip_presence_config sv pid = Ok (true, None))
  /\ (cl = 1 /\ cr <> 12 ->
      HardwareTipHandler.get_tip_presence_config sv pid
      = Ok (true, Some InstrumentProbeType.PRIMARY))
  /\ (cl <> 1 ->
      HardwareTipHandler.get_tip_presence_config sv pid
      = Ok (true, Some InstrumentProbeType.SECONDARY)).
Proof.
  intros nm Hch Hfull Hsingle Htc Hl Hr.
  rewrite (presence_config_96 sv pid cl cr Hch Hl Hr). fold nm.
  rewrite (configuration_eqb_ne _ _ Hfull), (configuration_eqb_ne _ _ Hsingle),
    (proj2 (Z.leb_le 4 _) Htc). simpl.
  repeat split.
  - intros [-> ->]. reflexivity.
  - intros [-> Hne]. apply Z.eqb_neq in Hne. simpl. now rewrite Hne.
  - intros Hne. apply Z.eqb_neq in Hne. now rewrite Hne.
Qed.

Lemma C5_follow_singular_sensor_96_witness :
  HardwareTipHandler.get_tip_presence_config
    (demo_state_view 96 column3_map_96 None) "pipette"
  = Ok (true, Some InstrumentProbeType.SECONDARY).
Proof.
  apply (C5_follow_singular_sensor_96
           (demo_state_view 96 column3_map_96 None) "pipette" 3 3);
    simpl; try reflexivity; try discriminate; lia.
Defined.

(** [get_tip_presence] in closed form: UNKNOWN comes from hardware of the
    non-sensing kind and from nothing else. *)
Lemma get_tip_presence_run (m : Machine) (pid : string) :
  HardwareTipHandler.get_tip_presence pid m
  = if is_ot3 (robot m) then
      (Ok (from_hw_state (tip_presence_status (robot m) (hw_mount m pid) None)),
       with_calls m (calls m ++ [call_get_tip_presence_status (hw_mount m pid)]))
    else (Ok TipPresenceStatus.UNKNOWN, m).
Proof.
  unfold hw_mount. exec_unfold. simpl.
  destruct (is_ot3 (robot m)); reflexivity.
Qed.

(** Counterexample to C4 as stated.  A single-channel pipette with its one
    nozzle active (fewer than 4) has sensing supported, the sensor is
    consulted during pickup and an ABSENT reading raises; an 8-channel
    pipette with 3 active nozzles, which the claim counts among the
    supported configurations, has sensing unsupported. *)
Lemma C4_counterexample :
  HardwareTipHandler.get_tip_presence_config
    (demo_state_view 1 full_map_1 None) "pipette" = Ok (true, None)
  /\ HardwareTipHandler.pick_up_tip "pipette" "tiprack" "A1" true
       (demo_machine 1 full_map_1 None true TipStateType.ABSENT)
     = (Raise (PickUpTipTipNotAttachedError demo_tip),
        with_calls (demo_machine 1 full_map_1 None true TipStateType.ABSENT)
          [call_get_nominal_tip_geometry "pipette" "tiprack" "A1";
           call_get_calibrated_tip_length "P1KSV3420230721" (50 # 1);
           call_tip_pickup_moves Mount.LEFT;
           call_verify_tip_presence Mount.LEFT TipStateType.PRESENT None])
  /\ HardwareTipHandler.get_tip_presence_config
       (demo_state_view 8 partial_map_8 None) "pipette" = Ok (false, None).
Proof. repeat split; reflexivity. Qed.

(** C4, amended.  For a 1-, 8- or 96-channel pipette the presence
    configuration is computed without raising, and sensing is unsupported
    exactly for an 8-channel pipette with fewer than 4 active nozzles and
    for a 96-channel pipette with a SINGLE layout or fewer than 4 active
    nozzles; a single-channel pipette is always supported.  When
    unsupported, a pickup makes no sensor call and commits the tip; when
    supported, on sensing hardware, the pickup asks the sensor right after
    the pickup motion.  The status UNKNOWN is what [get_tip_presence]
    answers on hardware of the non-sensing kind, and only there. *)
Theorem C4_presence_sensing_support
    (m : Machine) (pid lid well : string) :
  let sv := state_view m in
  let nm := get_nozzle_configuration sv pid in
  let ch := get_channels sv pid in
  let g := resolved_tip_geometry m pid lid well in
  (ch = 1 \/ ch = 8 \/ ch = 96) ->
  (exists c, nozzle_column (NozzleMap.back_left nm) = Ok c) ->
  (exists c, nozzle_column (NozzleMap.front_right nm) = Ok c) ->
  exists supported follow,
    HardwareTipHandler.get_tip_presence_config sv pid = Ok (supported, follow)
    /\ (supported = false <->
        (ch = 8 /\ NozzleMap.tip_count nm < 4)
        \/ (ch = 96 /\ (NozzleMap.configuration nm = NozzleConfigurationType.SINGLE
                        \/ NozzleMap.tip_count nm < 4)))
    /\ (supported = false ->
        HardwareTipHandler.pick_up_tip pid lid well true m
        = (Ok g,
           with_calls m
             (calls m ++ pickup_calls m pid lid well ++ commit_calls m pid g)))
    /\ (supported = true -> is_ot3 (robot m) = true ->
        exists r rest,
          HardwareTipHandler.pick_up_tip pid lid well true m
          = (r,
             with_calls m
               (calls m ++ pickup_calls m pid lid well
                ++ [call_verify_tip_presence (hw_mount m pid)
                      TipStateType.PRESENT follow]
                ++ rest)))
    /\ (fst (HardwareTipHandler.get_tip_presence pid m)
        = Ok TipPresenceStatus.UNKNOWN
        <-> is_ot3 (robot m) = false).
Proof.
  intros sv nm ch g Hch [cl Hl] [cr Hr].
  assert (Hcfg : exists supported follow,
             HardwareTipHandler.get_tip_presence_config sv pid
             = Ok (supported, follow)
             /\ (supported = false <->
                 (ch = 8 /\ NozzleMap.tip_count nm < 4)
                 \/ (ch = 96
                     /\ (NozzleMap.configuration nm
                         = NozzleConfigurationType.SINGLE
                         \/ NozzleMap.tip_count nm < 4)))).
  { destruct Hch as [H1 | [H8 | H96]].
    - exists true, None. split.
      + unfold HardwareTipHandler.get_tip_presence_config.
        fold ch. now rewrite H1.
      + split; [discriminate |].
        intros [[H _] | [H _]]; rewrite H1 in H; discriminate.
    - exists (4 <=? NozzleMap.tip_count nm), None. split.
      + unfold HardwareTipHandler.get_tip_presence_config.
        fold ch. now rewrite H8.
      + rewrite Z.leb_gt. lia.
    - eexists _, _. split.
      + apply (presence_config_96 sv pid cl cr H96 Hl Hr).
      + rewrite andb_false_iff, negb_false_iff, Z.leb_gt.
        rewrite configuration_eqb_eq.
        unfold ch, nm in *. intuition lia. }
  destruct Hcfg as (supported & follow & Hrun & Hiff).
  exists supported, follow. split; [exact Hrun |]. split; [exact Hiff |].
  split; [| split].
  - intros ->. rewrite pick_up_tip_run. fold sv. rewrite Hrun. simpl.
    now rewrite <- app_assoc.
  - intros -> Hot. rewrite pick_up_tip_run. fold sv. rewrite Hrun, Hot. simpl.
    destruct (tip_presence_status (robot m) (hw_mount m pid) follow).
    + eexists _, []. now rewrite <- !app_assoc.
    + eexists _, (commit_calls m pid g). now rewrite <- !app_assoc.
  - rewrite get_tip_presence_run.
    destruct (is_ot3 (robot m)); simpl.
    + destruct (tip_presence_status _ _ _); simpl; split; discriminate.
    + split; reflexivity.
Qed.

Lemma C4_presence_sensing_support_witness :
  exists supported follow,
    HardwareTipHandler.get_tip_presence_config
      (demo_state_view 8 partial_map_8 None) "pipette" = Ok (supported, follow)
    /\ supported = false.
Proof.
  destruct (C4_presence_sensing_support
              (demo_machine 8 partial_map_8 None true TipStateType.PRESENT)
              "pipette" "tiprack" "A1")
    as (supported & follow & Hrun & Hiff & _).
  - right; left; reflexivity.
  - exists 1; reflexivity.
  - exists 1; reflexivity.
  - exists supported, follow. split; [exact Hrun |].
    apply Hiff. left. simpl. split; [reflexivity | lia].
Defined.

(** ** Dropping a tip *)

(** C7. With verification enabled, a tip sensed PRESENT after the drop
    motion makes [drop_tip] raise [TipAttachedError]: the run ends with the
    sensor call, the state view is untouched and no tip removal is told to
    the hardware API.  Conversely, whenever a run of [drop_tip] does tell
    the hardware API to remove the tip, the run returned normally and
    verification was either disabled, unavailable on the hardware, or read
    ABSENT. *)
Theorem C7_drop_tip_attached
    (m : Machine) (pid : string) (home_after : option bool)
    (ignore_plunger : bool) (scrape_type : TipScrapeType.t) :
  let mount := hw_mount m pid in
  (is_ot3 (robot m) = true ->
   tip_presence_status (robot m) mount None = TipStateType.PRESENT ->
   exists m',
     HardwareTipHandler.drop_tip
       pid home_after true ignore_plunger scrape_type m
     = (Raise TipAttachedError, m')
     /\ state_view m' = state_view m
     /\ calls m'
        = calls m
          ++ [call_tip_drop_moves mount ignore_plunger scrape_type home_after;
              call_verify_tip_presence mount TipStateType.ABSENT None])
  /\ (forall verify r m',
        HardwareTipHandler.drop_tip
          pid home_after verify ignore_plunger scrape_type m = (r, m') ->
        ~ In (call_remove_tip mount) (calls m) ->
        In (call_remove_tip mount) (calls m') ->
        r = Ok tt
        /\ (verify = false \/ is_ot3 (robot m) = false
            \/ tip_presence_status (robot m) mount None = TipStateType.ABSENT)).
Proof.
  intros mount. split.
  - intros Hot Hsensed. rewrite drop_tip_run. fold mount.
    rewrite Hot, Hsensed. simpl.
    eexists. split; [reflexivity |]. split; [reflexivity |].
    simpl. now rewrite <- app_assoc.
  - intros verify r m' Hrun Hbefore Hafter.
    rewrite drop_tip_run in Hrun. fold mount in Hrun. cbv zeta in Hrun.
    destruct verify; simpl in Hrun; [| inversion Hrun; auto].
    destruct (is_ot3 (robot m)); [| inversion Hrun; auto].
    destruct (tip_presence_status (robot m) mount None);
      inversion Hrun; subst; [auto |].
    exfalso. simpl in Hafter.
    rewrite !in_app_iff in Hafter. simpl in Hafter.
    intuition discriminate.
Qed.

Lemma C7_drop_tip_attached_witness :
  exists m',
    HardwareTipHandler.drop_tip "pipette" None true false TipScrapeType.NONE
      (demo_machine 96 full_map_96 (Some demo_tip) true TipStateType.PRESENT)
    = (Raise TipAttachedError, m')
    /\ calls m'
       = [call_tip_drop_moves Mount.LEFT false TipScrapeType.NONE None;
          call_verify_tip_presence Mount.LEFT TipStateType.ABSENT None].
Proof.
  destruct (C7_drop_tip_attached
              (demo_machine 96 full_map_96 (Some demo_tip) true
                 TipStateType.PRESENT)
              "pipette" None false TipScrapeType.NONE) as [Hraise _].
  destruct (Hraise eq_refl eq_refl) as (m' & Hrun & _ & Hcalls).
  exists m'. split; [exact Hrun | exact Hcalls].
Defined.

(** ** Reconfiguring nozzles with a tip attached *)

(** C8. With a tip attached, [available_for_nozzle_layout] of the hardware
    handler and of the virtual handler raises
    [CommandPreconditionViolated] whatever the style and nozzle hints are
    (so before the resolver is consulted), and leaves the machine, the
    nozzle map in its state view included, as it was. *)
Theorem C8_no_layout_change_with_tip
    (h : TipHandler.t) (m : Machine) (pid style : string)
    (primary front_right back_left : option string) :
  h = HardwareTipHandler.handler \/ h = VirtualTipHandler.handler ->
  is_Some (get_attached_tip (state_view m) pid) ->
  @TipHandler.available_for_nozzle_layout h
    pid style primary front_right back_left m
  = (Raise CommandPreconditionViolated, m).
Proof.
  intros Hh Htip.
  destruct Hh as [-> | ->]; simpl;
    [unfold HardwareTipHandler.available_for_nozzle_layout
    | unfold VirtualTipHandler.available_for_nozzle_layout];
    exec_unfold; simpl;
    now rewrite (bool_decide_eq_true_2 _ Htip).
Qed.

Lemma C8_no_layout_change_with_tip_witness :
  let m := demo_machine 96 full_map_96 (Some demo_tip) true TipStateType.PRESENT in
  @TipHandler.available_for_nozzle_layout (create_tip_handler (state_view m))
    "pipette" "COLUMN" (Some "A1") None None m
  = (Raise CommandPreconditionViolated, m).
Proof.
  intros m.
  apply (C8_no_layout_change_with_tip
           (create_tip_handler (state_view m)) m "pipette" "COLUMN"
           (Some "A1") None None).
  - left; reflexivity.
  - simpl. eexists; reflexivity.
Defined.

(** ** The pick-up-tip command *)

Import update_types.

(** C1. When the move succeeds, presence verification is supported, the
    hardware senses, and the sensor reads ABSENT, the command returns (and
    does not raise) a defined error of kind tipPhysicallyMissing wrapping
    the pickup failure, with two deltas.  The genuine delta marks the
    wells computed from the nozzle map as used, sets the fluid state to
    unknown and commits no tip; the false-positive delta marks the same
    wells as used and commits the tip with the geometry resolved before
    the sensor was asked.  In the record of calls the two geometry lookups
    and the pickup motion come before the sensor call, and nothing comes
    after it. *)
Theorem C1_tip_physically_missing
    (m : Machine) (params : PickUpTipParams)
    (position : Q * Q * Q) (move_update : StateUpdate)
    (follow : option InstrumentProbeType.t) :
  let pid := pipetteId params in
  let lid := labwareId params in
  let well := wellName params in
  let sv := state_view m in
  let tips :=
    compute_tips_to_mark_as_used sv lid well (get_nozzle_configuration sv pid) in
  let g := resolved_tip_geometry m pid lid well in
  let mount := hw_mount m pid in
  move_to_well_result (robot m) pid lid well
    (convert_pick_up_tip_well_location sv (wellLocation params))
  = MoveSuccess position move_update ->
  pipette_tip_state move_update = None ->
  HardwareTipHandler.get_tip_presence_config sv pid = Ok (true, follow) ->
  is_ot3 (robot m) = true ->
  tip_presence_status (robot m) mount follow = TipStateType.ABSENT ->
  exists genuine false_positive m',
    PickUpTipImplementation.execute HardwareTipHandler.handler params m
    = (Ok (DefinedError
             {| public :=
                  TipPhysicallyMissingError [PickUpTipTipNotAttachedError g];
                state_update := genuine;
                state_update_if_false_positive := false_positive |}),
       m')
    /\ errorType (TipPhysicallyMissingError [PickUpTipTipNotAttachedError g])
       = "tipPhysicallyMissing"
    /\ tips_used genuine = Some (lid, tips)
    /\ pipette_aspirated_fluid genuine = Some (pid, Unknown)
    /\ pipette_tip_state genuine = None
    /\ tips_used false_positive = Some (lid, tips)
    /\ pipette_tip_state false_positive = Some (pid, Some g)
    /\ state_view m' = sv
    /\ calls m'
       = calls m
         ++ [call_move_to_well pid lid well]
         ++ pickup_calls m pid lid well
         ++ [call_verify_tip_presence mount TipStateType.PRESENT follow].
Proof.
  intros pid lid well sv tips g mount Hmove Hnotip Hcfg Hot Hsensed.
  set (moved := with_calls m (calls m ++ [call_move_to_well pid lid well])).
  unfold PickUpTipImplementation.execute.
  fold pid lid well.
  unfold move_to_well, Exec.try_except, Exec.view, Exec.the_robot, Exec.call,
    mbind, mret, exec_bind, exec_ret, Exec.bind, Exec.ret.
  fold sv. fold moved.
  change (robot moved) with (robot m). rewrite Hmove.
  change (@TipHandler.pick_up_tip HardwareTipHandler.handler)
    with HardwareTipHandler.pick_up_tip.
  rewrite (pick_up_tip_run moved pid lid well true).
  change (state_view moved) with sv. change (robot moved) with (robot m).
  change (hw_mount moved pid) with mount.
  rewrite Hcfg, Hot, Hsensed. cbv zeta. simpl andb. cbv iota beta.
  change (resolved_tip_geometry moved pid lid well) with g.
  do 3 eexists. split; [reflexivity |].
  split; [reflexivity |].
  split; [reflexivity |]. split; [reflexivity |].
  split; [simpl; now rewrite Hnotip |].
  split; [reflexivity |]. split; [reflexivity |]. split; [reflexivity |].
  simpl. now rewrite <- !app_assoc.
Qed.



Lemma C1_tip_physically_missing_witness :
  exists genuine false_positive m',
    PickUpTipImplementation.execute HardwareTipHandler.handler demo_params
      (demo_machine 96 full_map_96 None true TipStateType.ABSENT)
    = (Ok (DefinedError
             {| public :=
                  TipPhysicallyMissingError
                    [PickUpTipTipNotAttachedError demo_tip];
                state_update := genuine;
                state_update_if_false_positive := false_positive |}),
       m')
    /\ update_types.pipette_tip_state genuine = None
    /\ update_types.pipette_tip_state false_positive
       = Some ("pipette", Some demo_tip).
Proof.
  destruct (C1_tip_physically_missing
              (demo_machine 96 full_map_96 None true TipStateType.ABSENT)
              demo_params (0 # 1, 0 # 1, 0 # 1)
              (update_types.mk (Some ("pipette", "tiprack", "A1"))
                 None None None None)
              None eq_refl eq_refl eq_refl eq_refl eq_refl)
    as (genuine & false_positive & m' & Hrun & _ & _ & _ & Hg & _ & Hf & _).
  exists genuine, false_positive, m'.
  split; [exact Hrun | split; [exact Hg | exact Hf]].
Defined.


(** ** The instrument context *)

Ltac api_unfold :=
  unfold InstrumentContextMethods.configure_nozzle_layout,
    InstrumentContextMethods.pick_up_tip,
    InstrumentContextMethods.select_tip,
    InstrumentContextMethods.channels, requires_version,
    Api.self, Api.lift, Api.call, Api.raise, Api.set_tip_racks,
    Api.set_last_tip_picked_up_from,
    mbind, mret, api_bind, api_ret, Api.bind, Api.ret.

Lemma version_ge_trans (a b c : APIVersion) :
  version_ge a b = true -> version_ge b c = true -> version_ge a c = true.
Proof.
  unfold version_ge, version_lt. destruct a, b, c; simpl.
  rewrite !negb_true_iff, !orb_false_iff, !andb_false_iff,
    !Z.ltb_ge, !Z.eqb_neq. lia.
Qed.

Lemma version_ge_not_lt (a b : APIVersion) :
  version_ge a b = true -> version_lt a b = false.
Proof. unfold version_ge. now rewrite negb_true_iff. Qed.

(** A method present since version 2.0 is never refused by its decorator. *)
Lemma version_gate_2_0 (a : APIVersion) :
  version_ge a (2, 0) && version_lt a (2, 0) = false.
Proof. unfold version_ge. now destruct (version_lt a (2, 0)). Qed.

(** At or above the version a method was added in, the decorator lets the
    call through. *)
Lemma version_gate_passes (a added_in : APIVersion) :
  version_ge a added_in = true ->
  version_ge a (2, 0) && version_lt a added_in = false.
Proof. intros H. rewrite (version_ge_not_lt _ _ H). apply andb_false_r. Qed.

(** Counterexample to C9 as stated: at API version 2.16 a pipette in a
    COLUMN configuration with [starting_tip] set picks up a tip without an
    explicit location; no error is raised, and tip selection and the
    pickup are carried out. *)
Lemma C9_counterexample :
  let ctx := demo_context (2, 16) 96 column12_map_96 (Some demo_well) in
  let run :=
    InstrumentContextMethods.pick_up_tip no_location None None None
      {| context := ctx; api_calls := [] |} in
  NozzleMap.configuration (core_get_nozzle_map (_core ctx))
    <> NozzleConfigurationType.FULL
  /\ _starting_tip ctx = Some demo_well
  /\ fst run = Ok tt
  /\ api_calls (snd run)
     = [api_next_available_tip (Some demo_well) ["tiprack"] 8 None;
        api_validate_tiprack "tiprack";
        api_core_pick_up_tip (top_of demo_well) demo_well None None true].
Proof.
  intros ctx run. split; [discriminate |]. split; [reflexivity |].
  split; vm_compute; reflexivity.
Qed.

(** C9, amended.  From API version 2.18 on, a [pick_up_tip] call with no
    explicit location (and without the removed [presses] and [increment]
    arguments), made while the nozzle configuration is not FULL and
    [starting_tip] is set, raises [CommandPreconditionViolated]; the
    context is unchanged and no selection, validation or motion call has
    been made. *)
Theorem C9_starting_tip_with_partial_configuration
    (s : ApiState) (prep_after : option bool) :
  let ctx := context s in
  version_ge (_api_version ctx)
    _PARTIAL_NOZZLE_CONFIGURATION_AUTOMATIC_TIP_TRACKING_IN = true ->
  NozzleMap.configuration (core_get_nozzle_map (_core ctx))
    <> NozzleConfigurationType.FULL ->
  is_Some (_starting_tip ctx) ->
  InstrumentContextMethods.pick_up_tip no_location None None prep_after s
  = (Raise CommandPreconditionViolated, s).
Proof.
  intros ctx Hver Hcfg Htip. unfold ctx in *. clear ctx.
  api_unfold.
  rewrite version_gate_2_0.
  simpl.
  rewrite (version_ge_not_lt _ _PREP_AFTER_ADDED_IN) by
    (apply (version_ge_trans _ _ _ Hver); reflexivity).
  rewrite andb_false_r. rewrite Hver.
  rewrite (configuration_eqb_ne _ _ Hcfg).
  now rewrite (bool_decide_eq_true_2 _ Htip).
Qed.

Lemma C9_starting_tip_with_partial_configuration_witness :
  let s := {| context := demo_context (2, 20) 96 column12_map_96 (Some demo_well);
              api_calls := [] |} in
  InstrumentContextMethods.pick_up_tip no_location None None None s
  = (Raise CommandPreconditionViolated, s).
Proof.
  intros s.
  apply (C9_starting_tip_with_partial_configuration s None).
  - reflexivity.
  - simpl. discriminate.
  - simpl. eexists; reflexivity.
Defined.

(** With both corner nozzles given, every style that gets past the
    resolver's guards on an 8-channel pipette returns them as given. *)
Lemma resolver_both_corners_8 (style p fr bl : string) :
  p <> "" -> fr <> "" -> bl <> "" ->
  style <> "ALL" -> style <> "ROW" -> style <> "SINGLE" ->
  _available_for_nozzle_layout 8 style (Some p) (Some fr) (Some bl)
  = Ok (nozzle_dict p fr bl).
Proof.
  intros Hp Hfr Hbl Hall Hrow Hsingle.
  unfold _available_for_nozzle_layout, truthy.
  rewrite (eqb_false_of_ne _ _ Hall), (eqb_false_of_ne _ _ Hrow),
    (eqb_false_of_ne _ _ Hsingle), (eqb_false_of_ne _ _ Hp),
    (eqb_false_of_ne _ _ Hfr), (eqb_false_of_ne _ _ Hbl).
  destruct (String.eqb style "PARTIAL_COLUM"), (String.eqb style "QUADRANT");
    reflexivity.
Qed.

(** Counterexample to C6 as stated: on an 8-channel pipette at API version
    2.20, PARTIAL_COLUMN from "A1" to "D1" is passed on with "D1" as the
    front-right nozzle and "A1" as the back-left nozzle, not the other way
    round. *)
Lemma C6_counterexample :
  let run :=
    InstrumentContextMethods.configure_nozzle_layout
      NozzleLayout.PARTIAL_COLUMN (Some "A1") (Some "D1") None None None
      {| context := demo_context (2, 20) 8 full_map_8 None; api_calls := [] |} in
  api_calls (snd run)
  = [api_core_configure_nozzle_layout NozzleLayout.PARTIAL_COLUMN
       (Some "A1") (Some "D1") (Some "A1")]
  /\ api_calls (snd run)
     <> [api_core_configure_nozzle_layout NozzleLayout.PARTIAL_COLUMN
           (Some "A1") (Some "A1") (Some "D1")].
Proof.
  intros run.
  assert (H : api_calls (snd run)
              = [api_core_configure_nozzle_layout NozzleLayout.PARTIAL_COLUMN
                   (Some "A1") (Some "D1") (Some "A1")])
    by (vm_compute; reflexivity).
  split; [exact H |]. rewrite H. discriminate.
Qed.

(** C6, amended.  On an 8-channel pipette, from API version 2.20 on,
    [configure_nozzle_layout] with style PARTIAL_COLUMN, start "A1" and end
    "D1" passes every check of the instrument context and asks the core
    for primary nozzle "A1", front-right nozzle "D1" and back-left nozzle
    "A1".  The call returns, with the tip racks set, when the core returns;
    what the core raises is raised by the call, with the tip racks
    untouched.  The engine's resolver returns the three nozzles unchanged
    for every style name that passes its guards. *)
Theorem C6_partial_column_A1_D1
    (s : ApiState) (tip_racks : option (list Labware)) :
  let asked :=
    api_core_configure_nozzle_layout NozzleLayout.PARTIAL_COLUMN
      (Some "A1") (Some "D1") (Some "A1") in
  let run :=
    InstrumentContextMethods.configure_nozzle_layout
      NozzleLayout.PARTIAL_COLUMN (Some "A1") (Some "D1") None None
      tip_racks s in
  core_get_channels (_core (context s)) = 8 ->
  version_ge (_api_version (context s))
    _PARTIAL_NOZZLE_CONFIGURATION_SINGLE_ROW_PARTIAL_COLUMN_ADDED_IN = true ->
  api_calls (snd run) = api_calls s ++ [asked]
  /\ match raised_by (context s) asked with
     | None =>
         fst run = Ok tt
         /\ _tip_racks (context (snd run)) = default [] tip_racks
     | Some e =>
         fst run = Raise e /\ context (snd run) = context s
     end
  /\ (forall style,
        style <> "ALL" -> style <> "ROW" -> style <> "SINGLE" ->
        _available_for_nozzle_layout 8 style (Some "A1") (Some "D1") (Some "A1")
        = Ok (nozzle_dict "A1" "D1" "A1")).
Proof.
  intros asked run Hch Hver.
  assert (Hrun :
    run
    = let s' := {| context := context s; api_calls := api_calls s ++ [asked] |} in
      match raised_by (context s) asked with
      | Some e => (Raise e, s')
      | None => Api.set_tip_racks (default [] tip_racks) s'
      end).
  { unfold run. api_unfold.
    rewrite (version_gate_passes _ (2, 16)) by
      (apply (version_ge_trans _ _ _ Hver); reflexivity).
    simpl. rewrite (version_ge_not_lt _ _ Hver). simpl.
    rewrite Hch. simpl. fold asked.
    destruct (raised_by (context s) asked); reflexivity. }
  rewrite Hrun. cbv zeta.
  split; [destruct (raised_by (context s) asked); reflexivity |].
  split; [destruct (raised_by (context s) asked); split; reflexivity |].
  intros style Hall Hrow Hsingle.
  apply resolver_both_corners_8; try assumption; discriminate.
Qed.

Lemma C6_partial_column_A1_D1_witness :
  let run :=
    InstrumentContextMethods.configure_nozzle_layout
      NozzleLayout.PARTIAL_COLUMN (Some "A1") (Some "D1") None None None
      {| context := demo_context (2, 20) 8 full_map_8 None; api_calls := [] |} in
  api_calls (snd run)
  = [api_core_configure_nozzle_layout NozzleLayout.PARTIAL_COLUMN
       (Some "A1") (Some "D1") (Some "A1")]
  /\ _available_for_nozzle_layout 8 "QUADRANT" (Some "A1") (Some "D1") (Some "A1")
     = Ok (nozzle_dict "A1" "D1" "A1").
Proof.
  intros run.
  destruct (C6_partial_column_A1_D1
              {| context := demo_context (2, 20) 8 full_map_8 None;
                 api_calls := [] |} None eq_refl eq_refl)
    as (Hcalls & _ & Hres).
  split; [exact Hcalls |].
  apply Hres; discriminate.
Defined.


(** * Further properties *)

(** ** The nozzle layout resolver: errors, shape of the result, tables *)

Lemma getitem2_raise (d : gmap string (gmap string string)) (k1 k2 : string)
    (e : exn) :
  getitem2 d k1 k2 = Raise e -> e = KeyError k1 \/ e = KeyError k2.
Proof.
  unfold getitem2. destruct (d !! k1) as [inner |]; [| intros [= <-]; now left].
  destruct (inner !! k2); [discriminate | intros [= <-]; now right].
Qed.

(** The resolver raises three kinds of error only, each for one reason:
    [CommandPreconditionViolated] for a single-channel pipette,
    [CommandParameterLimitViolated] from its two compatibility guards, and
    [KeyError] from a table lookup, which happens only with a primary
    nozzle given and a corner nozzle missing, the key being the primary
    nozzle or the style. *)
Theorem resolver_error_envelope
    (channels : Z) (style : string) (p fr bl : option string) (e : exn) :
  _available_for_nozzle_layout channels style p fr bl = Raise e ->
  (channels = 1 /\ e = CommandPreconditionViolated)
  \/ (channels = 8 /\ style = "ROW"
      /\ e = CommandParameterLimitViolated "RowNozzleLayout" (str p))
  \/ (channels = 96 /\ style = "PARTIAL_COLUM"
      /\ e = CommandParameterLimitViolated "PartialColumnNozzleLayout" (str p))
  \/ (channels <> 1 /\ truthy p = true
      /\ (truthy fr = false \/ truthy bl = false)
      /\ (e = KeyError (default "" p) \/ e = KeyError style)).
Proof.
  unfold _available_for_nozzle_layout.
  destruct (Z.eqb_spec channels 1) as [-> | Hch].
  { intros [= <-]. now left. }
  destruct (String.eqb style "ALL"); [discriminate |].
  destruct (String.eqb_spec style "ROW") as [-> | _]; simpl andb.
  { destruct (Z.eqb_spec channels 8) as [-> | _].
    - intros [= <-]. right; left. auto.
    - simpl.
      destruct (truthy p) eqn:Hp; simpl; [| discriminate].
      destruct (truthy fr) eqn:Hfr, (truthy bl) eqn:Hbl; simpl;
        try discriminate;
        unfold mbind, result_bind, Py.bind;
        repeat match goal with
               | |- context [getitem2 ?t ?a ?b] =>
                   let H := fresh "Hget" in
                   destruct (getitem2 t a b) eqn:H; simpl
               end;
        try discriminate; intros [= <-];
        right; right; right;
        (split; [exact Hch |]); (split; [reflexivity |]);
        (split; [auto |]);
        match goal with
        | H : getitem2 _ _ _ = Raise _ |- _ =>
            now apply getitem2_raise in H
        end. }
  destruct (String.eqb_spec style "PARTIAL_COLUM") as [-> | _]; simpl andb.
  { destruct (Z.eqb_spec channels 96) as [-> | _].
    - intros [= <-]. right; right; left. auto.
    - simpl.
      destruct (truthy p) eqn:Hp; simpl; [| discriminate].
      destruct (truthy fr) eqn:Hfr, (truthy bl) eqn:Hbl; simpl;
        try discriminate;
        unfold mbind, result_bind, Py.bind;
        repeat match goal with
               | |- context [getitem2 ?t ?a ?b] =>
                   let H := fresh "Hget" in
                   destruct (getitem2 t a b) eqn:H; simpl
               end;
        try discriminate; intros [= <-];
        right; right; right;
        (split; [exact Hch |]); (split; [reflexivity |]);
        (split; [auto |]);
        match goal with
        | H : getitem2 _ _ _ = Raise _ |- _ =>
            now apply getitem2_raise in H
        end. }
  destruct (truthy p) eqn:Hp; simpl; [| discriminate].
  destruct (String.eqb style "SINGLE"); [discriminate |].
  destruct (String.eqb style "QUADRANT");
    destruct (truthy fr) eqn:Hfr, (truthy bl) eqn:Hbl; simpl;
    try discriminate;
    unfold mbind, result_bind, Py.bind;
    repeat match goal with
           | |- context [getitem2 ?t ?a ?b] =>
               let H := fresh "Hget" in
               destruct (getitem2 t a b) eqn:H; simpl
           end;
    try discriminate; intros [= <-];
    right; right; right;
    (split; [exact Hch |]); (split; [reflexivity |]);
    (split; [auto |]);
    match goal with
    | H : getitem2 _ _ _ = Raise _ |- _ =>
        now apply getitem2_raise in H
    end.
Qed.

Lemma resolver_error_envelope_witness :
  (96 = 1 /\ KeyError "QUADRANT" = CommandPreconditionViolated)
  \/ (96 = 8 /\ "QUADRANT" = "ROW"
      /\ KeyError "QUADRANT"
         = CommandParameterLimitViolated "RowNozzleLayout" (str (Some "A1")))
  \/ (96 = 96 /\ "QUADRANT" = "PARTIAL_COLUM"
      /\ KeyError "QUADRANT"
         = CommandParameterLimitViolated "PartialColumnNozzleLayout"
             (str (Some "A1")))
  \/ (96 <> 1 /\ truthy (Some "A1") = true
      /\ (truthy None = false \/ truthy None = false)
      /\ (KeyError "QUADRANT" = KeyError (default "" (Some "A1"))
          \/ KeyError "QUADRANT" = KeyError "QUADRANT")).
Proof.
  apply (resolver_error_envelope 96 "QUADRANT" (Some "A1") None None).
  vm_compute. reflexivity.
Defined.

Ltac resolver_cases :=
  unfold mbind, result_bind, Py.bind;
  repeat match goal with
         | |- context [getitem2 ?t ?a ?b] =>
             let H := fresh "Hget" in
             destruct (getitem2 t a b) eqn:H; simpl
         end.

(** Whatever the resolver returns is one of three dicts: the empty dict
    (style "ALL" only), the primary nozzle alone, or the three nozzles.
    The primary nozzle returned is the one given, or "A1" when none was
    given; a corner nozzle that was given is returned unchanged, and the
    tables only ever fill in a corner that is missing. *)
Theorem resolver_result_shape
    (channels : Z) (style : string) (p fr bl : option string)
    (d : gmap string string) :
  _available_for_nozzle_layout channels style p fr bl = Ok d ->
  let primary := if truthy p then default "" p else "A1" in
  (style = "ALL" /\ d = ∅)
  \/ (style <> "ALL" /\ d = <["primary_nozzle" := primary]> ∅
      /\ (truthy p = false \/ style = "SINGLE"))
  \/ (style <> "ALL" /\ style <> "SINGLE" /\ truthy p = true
      /\ exists f b,
           d = nozzle_dict primary f b
           /\ (truthy fr = true -> f = default "" fr)
           /\ (truthy bl = true -> b = default "" bl)).
Proof.
  unfold _available_for_nozzle_layout.
  destruct (channels =? 1); [discriminate |].
  destruct (String.eqb_spec style "ALL") as [-> | Hall].
  { intros [= <-]. now left. }
  destruct (String.eqb style "ROW" && (channels =? 8)); [discriminate |].
  destruct (String.eqb style "PARTIAL_COLUM" && (channels =? 96));
    [discriminate |].
  destruct (truthy p) eqn:Hp; simpl.
  2:{ intros [= <-]. right; left. auto. }
  destruct (String.eqb_spec style "SINGLE") as [-> | Hsingle].
  { intros [= <-]. right; left. auto. }
  intros Hrun. right; right.
  split; [exact Hall |]. split; [exact Hsingle |]. split; [reflexivity |].
  revert Hrun.
  destruct (String.eqb style "QUADRANT");
    destruct (truthy fr) eqn:Hfr, (truthy bl) eqn:Hbl; simpl;
    resolver_cases; try discriminate; intros [= <-];
    eexists _, _; (split; [reflexivity |]); split; intros; congruence.
Qed.

Lemma resolver_result_shape_witness :
  exists f b,
    nozzle_dict "A1" "H1" "A1" = nozzle_dict "A1" f b.
Proof.
  destruct (resolver_result_shape 96 "COLUMN" (Some "A1") None None
              (nozzle_dict "A1" "H1" "A1"))
    as [[H _] | [(_ & _ & [H | H]) | (_ & _ & _ & f & b & Hd & _)]];
    try discriminate.
  - vm_compute. reflexivity.
  - exists f, b. exact Hd.
Defined.

(** With a primary nozzle and no corner nozzle given, a call that passes
    the guards returns what the two tables hold. *)
Lemma resolver_no_hints (channels : Z) (style p e b : string) :
  channels <> 1 -> p <> "" ->
  style <> "ALL" -> style <> "SINGLE" ->
  ~ (style = "ROW" /\ channels = 8) ->
  ~ (style = "PARTIAL_COLUM" /\ channels = 96) ->
  getitem2 PRIMARY_NOZZLE_TO_ENDING_NOZZLE_MAP p style = Ok e ->
  getitem2 PRIMARY_NOZZLE_TO_BACK_LEFT_NOZZLE_MAP p style = Ok b ->
  _available_for_nozzle_layout channels style (Some p) None None
  = Ok (nozzle_dict p e b).
Proof.
  intros Hch Hp Hall Hsingle Hrow Hpc He Hb.
  unfold _available_for_nozzle_layout.
  rewrite (proj2 (Z.eqb_neq channels 1) Hch).
  rewrite (eqb_false_of_ne _ _ Hall), (eqb_false_of_ne _ _ Hsingle).
  replace (String.eqb style "ROW" && (channels =? 8)) with false.
  2:{ symmetry. apply andb_false_iff.
      destruct (String.eqb_spec style "ROW"); [| now left].
      right. apply Z.eqb_neq. tauto. }
  replace (String.eqb style "PARTIAL_COLUM" && (channels =? 96)) with false.
  2:{ symmetry. apply andb_false_iff.
      destruct (String.eqb_spec style "PARTIAL_COLUM"); [| now left].
      right. apply Z.eqb_neq. tauto. }
  change (truthy (Some p)) with (negb (String.eqb p "")).
  rewrite (eqb_false_of_ne _ _ Hp).
  change (truthy None) with false.
  rewrite !andb_false_r. simpl negb. cbv iota. simpl default.
  rewrite He, Hb. reflexivity.
Qed.

(** The two lookup tables agree with each other.  For an allowed primary
    nozzle and style "COLUMN" or "ROW", the ending nozzle is another
    allowed nozzle whose own ending nozzle is the primary again; both ends
    of the line name the same back-left nozzle, which is one of the two
    ends; and on any pipette that passes the guards the resolver returns
    the primary with these two nozzles. *)
Theorem nozzle_tables_consistent (p style : string) :
  p ∈ ALLOWED_PRIMARY_NOZZLES ->
  style = "COLUMN" \/ style = "ROW" ->
  exists e b,
    getitem2 PRIMARY_NOZZLE_TO_ENDING_NOZZLE_MAP p style = Ok e
    /\ getitem2 PRIMARY_NOZZLE_TO_BACK_LEFT_NOZZLE_MAP p style = Ok b
    /\ e ∈ ALLOWED_PRIMARY_NOZZLES
    /\ e <> p
    /\ getitem2 PRIMARY_NOZZLE_TO_ENDING_NOZZLE_MAP e style = Ok p
    /\ getitem2 PRIMARY_NOZZLE_TO_BACK_LEFT_NOZZLE_MAP e style = Ok b
    /\ (b = p \/ b = e)
    /\ forall channels,
         channels <> 1 -> ~ (style = "ROW" /\ channels = 8) ->
         _available_for_nozzle_layout channels style (Some p) None None
         = Ok (nozzle_dict p e b).
Proof.
  rewrite allowed_primary_cases.
  intros Hp Hstyle.
  assert (Hcase : exists e b,
             (p, style, e, b)
             ∈ [("A1", "COLUMN", "H1", "A1"); ("A1", "ROW", "A12", "A1");
                ("H1", "COLUMN", "A1", "A1"); ("H1", "ROW", "H12", "H1");
                ("A12", "COLUMN", "H12", "A12"); ("A12", "ROW", "A1", "A1");
                ("H12", "COLUMN", "A12", "A12"); ("H12", "ROW", "H1", "H1")]).
  { destruct Hp as [-> | [-> | [-> | ->]]], Hstyle as [-> | ->];
      eexists _, _; repeat constructor. }
  destruct Hcase as (e & b & Hcase).
  exists e, b.
  repeat (apply elem_of_cons in Hcase; destruct Hcase as [[= -> -> -> ->] | Hcase]);
    [.. | now apply elem_of_nil in Hcase].
  all: split; [vm_compute; reflexivity |].
  all: split; [vm_compute; reflexivity |].
  all: split; [apply allowed_primary_cases; tauto |].
  all: split; [discriminate |].
  all: split; [vm_compute; reflexivity |].
  all: split; [vm_compute; reflexivity |].
  all: split; [tauto |].
  all: intros channels Hch Hrow;
    apply resolver_no_hints;
    try assumption; try discriminate;
    try (vm_compute; reflexivity);
    intros [? ?]; discriminate.
Qed.

Lemma nozzle_tables_consistent_witness :
  exists e b,
    getitem2 PRIMARY_NOZZLE_TO_ENDING_NOZZLE_MAP "H12" "ROW" = Ok e
    /\ getitem2 PRIMARY_NOZZLE_TO_ENDING_NOZZLE_MAP e "ROW" = Ok "H12"
    /\ getitem2 PRIMARY_NOZZLE_TO_BACK_LEFT_NOZZLE_MAP "H12" "ROW" = Ok b.
Proof.
  destruct (nozzle_tables_consistent "H12" "ROW")
    as (e & b & He & Hb & _ & _ & Hback & _).
  - vm_compute. repeat constructor.
  - right; reflexivity.
  - exists e, b. split; [exact He | split; [exact Hback | exact Hb]].
Defined.

(** Style "QUADRANT" on a multi-channel pipette with a primary nozzle:
    the call returns exactly when at least one corner nozzle is given, and
    a corner that is not given is then the primary nozzle. *)
Theorem resolver_quadrant
    (channels : Z) (p : string) (fr bl : option string) :
  channels <> 1 -> p <> "" ->
  let run := _available_for_nozzle_layout channels "QUADRANT" (Some p) fr bl in
  ((exists d, run = Ok d) <-> truthy fr = true \/ truthy bl = true)
  /\ (truthy fr = true -> truthy bl = false ->
      run = Ok (nozzle_dict p (default "" fr) p))
  /\ (truthy fr = false -> truthy bl = true ->
      run = Ok (nozzle_dict p p (default "" bl)))
  /\ (truthy fr = true -> truthy bl = true ->
      run = Ok (nozzle_dict p (default "" fr) (default "" bl))).
Proof.
  intros Hch Hp run.
  assert (Hrun : run
                 = if truthy fr then
                     if truthy bl
                     then Ok (nozzle_dict p (default "" fr) (default "" bl))
                     else Ok (nozzle_dict p (default "" fr) p)
                   else if truthy bl
                        then Ok (nozzle_dict p p (default "" bl))
                        else
                          e ← getitem2 PRIMARY_NOZZLE_TO_ENDING_NOZZLE_MAP
                                p "QUADRANT";
                          b ← getitem2 PRIMARY_NOZZLE_TO_BACK_LEFT_NOZZLE_MAP
                                p "QUADRANT";
                          Ok (nozzle_dict p e b)).
  { unfold run, _available_for_nozzle_layout.
    rewrite (proj2 (Z.eqb_neq channels 1) Hch).
    change (String.eqb "QUADRANT" "ALL") with false.
    change (String.eqb "QUADRANT" "ROW") with false.
    change (String.eqb "QUADRANT" "PARTIAL_COLUM") with false.
    change (String.eqb "QUADRANT" "SINGLE") with false.
    change (String.eqb "QUADRANT" "QUADRANT") with true.
    change (truthy (Some p)) with (negb (String.eqb p "")).
    rewrite (eqb_false_of_ne _ _ Hp).
    destruct (truthy fr), (truthy bl); reflexivity. }
  split; [| split; [| split]].
  - split.
    + intros [d Hd].
      destruct (truthy fr) eqn:Hfr; [now left |].
      destruct (truthy bl) eqn:Hbl; [now right |].
      exfalso.
      destruct (getitem2_ending_key_error p "QUADRANT") as [k Hk].
      { right. split; discriminate. }
      rewrite Hrun, Hk in Hd. discriminate.
    + rewrite Hrun.
      intros [H | H]; rewrite H; destruct (truthy fr), (truthy bl);
        eexists; reflexivity.
  - intros Hfr Hbl. rewrite Hrun, Hfr, Hbl. reflexivity.
  - intros Hfr Hbl. rewrite Hrun, Hfr, Hbl. reflexivity.
  - intros Hfr Hbl. rewrite Hrun, Hfr, Hbl. reflexivity.
Qed.

Lemma resolver_quadrant_witness :
  _available_for_nozzle_layout 96 "QUADRANT" (Some "A1") (Some "D6") None
  = Ok (nozzle_dict "A1" "D6" "A1").
Proof.
  destruct (resolver_quadrant 96 "A1" (Some "D6") None)
    as (_ & H & _); try discriminate.
  apply H; reflexivity.
Defined.

(** ** Nozzle name checks of the instrument context *)

Lemma contains_char (c : ascii) (s : string) :
  contains (String c EmptyString) s = true <-> In c (list_ascii_of_string s).
Proof.
  induction s as [| c' s IH]; simpl.
  - split; [discriminate | tauto].
  - destruct (Ascii.ascii_dec c c') as [-> | Hne].
    + destruct s; simpl; tauto.
    + simpl. rewrite IH. split; [tauto | intros [H | H]; congruence].
Qed.

Lemma contains_char_false (c : ascii) (s : string) :
  contains (String c EmptyString) s = false <-> ~ In c (list_ascii_of_string s).
Proof.
  rewrite <- contains_char. destruct (contains _ s); split; congruence.
Qed.

(** The end-nozzle check for an allowed start nozzle, in closed form. *)
Lemma check_valid_end_nozzle_run (start : string) (end_ : option string) :
  start ∈ ALLOWED_PRIMARY_NOZZLES ->
  _check_valid_end_nozzle start end_
  = match end_ with
    | None => Raise ValueError
    | Some e =>
        if contains "A" e || contains "H" e then Raise ValueError else Ok e
    end.
Proof.
  rewrite allowed_primary_cases. intros Hstart.
  destruct end_ as [e |]; [| reflexivity].
  destruct Hstart as [-> | [-> | [-> | ->]]]; simpl;
    unfold mbind, result_bind, Py.bind; simpl;
    destruct (contains "A" e), (contains "H" e); reflexivity.
Qed.

(** For each of the four allowed start nozzles, [_check_valid_end_nozzle]
    accepts the same end nozzles: the names in which neither the letter A
    nor the letter H occurs.  Every other end nozzle, a missing one
    included, is a [ValueError].  The column of the end nozzle plays no
    part. *)
Theorem check_valid_end_nozzle_accepts
    (start : string) (end_ : option string) :
  start ∈ ALLOWED_PRIMARY_NOZZLES ->
  (forall e,
     _check_valid_end_nozzle start end_ = Ok e <->
     end_ = Some e
     /\ ~ In "A"%char (list_ascii_of_string e)
     /\ ~ In "H"%char (list_ascii_of_string e))
  /\ (forall x, _check_valid_end_nozzle start end_ = Raise x -> x = ValueError).
Proof.
  intros Hstart.
  rewrite (check_valid_end_nozzle_run start end_ Hstart). split.
  - intros e. destruct end_ as [e' |].
    + destruct (contains "A" e') eqn:Ha, (contains "H" e') eqn:Hh; simpl;
        (split; [try discriminate; intros [= <-] | intros ([= <-] & HA & HH)]);
        try (exfalso; apply HA; now apply contains_char);
        try (exfalso; apply HH; now apply contains_char);
        try reflexivity.
      split; [reflexivity |].
      split; now apply contains_char_false.
    + split; [discriminate | intros ([=] & _)].
  - intros x. destruct end_ as [e' |]; [| congruence].
    destruct (contains "A" e' || contains "H" e'); congruence.
Qed.

Lemma check_valid_end_nozzle_accepts_witness :
  _check_valid_end_nozzle "H12" (Some "E12") = Ok "E12".
Proof.
  destruct (check_valid_end_nozzle_accepts "H12" (Some "E12")) as [H _].
  - vm_compute. repeat constructor.
  - apply H. split; [reflexivity |].
    split; simpl; intros [E | [E | [E | []]]]; discriminate.
Defined.

(** ** [configure_nozzle_layout] of the instrument context *)

Ltac destruct_matches_in H :=
  repeat match type of H with
         | context [match ?x with _ => _ end] =>
             let E := fresh "E" in destruct x eqn:E
         | context [if ?x then _ else _] =>
             let E := fresh "E" in destruct x eqn:E
         end.

Ltac result_unfold_in H :=
  unfold mbind, mret, result_bind, result_ret, Py.bind in H.

Lemma layout_eqb_eq (a b : NozzleLayout.t) :
  NozzleLayout.eqb a b = true <-> a = b.
Proof. destruct a, b; simpl; split; congruence. Qed.

Lemma check_valid_start_nozzle_ok
    (style : NozzleLayout.t) (start : option string) (q : string) :
  _check_valid_start_nozzle style start = Ok q ->
  start = Some q /\ q ∈ ALLOWED_PRIMARY_NOZZLES.
Proof.
  unfold _check_valid_start_nozzle. destruct start as [s |]; [| discriminate].
  destruct (bool_decide (s ∈ ALLOWED_PRIMARY_NOZZLES)) eqn:E; simpl;
    [| discriminate].
  intros [= <-]. split; [reflexivity |]. now apply bool_decide_eq_true in E.
Qed.

(** The checks of the layout arguments raise [ValueError] only. *)
Lemma check_valid_end_nozzle_raises (start : string) (end_ : option string)
    (x : exn) :
  start ∈ ALLOWED_PRIMARY_NOZZLES ->
  _check_valid_end_nozzle start end_ = Raise x -> x = ValueError.
Proof.
  rewrite allowed_primary_cases. intros Hstart.
  destruct end_ as [e |]; [| simpl; congruence].
  destruct Hstart as [-> | [-> | [-> | ->]]]; simpl;
    unfold mbind, result_bind, Py.bind; simpl;
    destruct (contains "A" e), (contains "H" e); simpl; congruence.
Qed.

(** A [configure_nozzle_layout] that raises has left the tip racks alone.
    Either one of its own checks refused the call, with [APIVersionError],
    [UnsupportedAPIError] or [ValueError], and nothing has been done; or
    the core was asked once, after every check, and the call raises what
    the core raised, the instrument context being as before. *)
Theorem configure_nozzle_layout_raising_runs
    (style : NozzleLayout.t) (start end_ front_right back_left : option string)
    (tip_racks : option (list Labware)) (s s' : ApiState) (e : exn) :
  InstrumentContextMethods.configure_nozzle_layout
    style start end_ front_right back_left tip_racks s = (Raise e, s') ->
  (s' = s
   /\ (e = APIVersionError \/ e = UnsupportedAPIError \/ e = ValueError))
  \/ (exists primary fr bl,
        let asked :=
          api_core_configure_nozzle_layout style primary fr bl in
        raised_by (context s) asked = Some e
        /\ context s' = context s
        /\ api_calls s' = api_calls s ++ [asked]).
Proof.
  intros Hrun. revert Hrun. api_unfold.
  destruct (version_ge _ (2, 0) && version_lt _ (2, 16));
    [intros [= <- <-]; left; auto |].
  destruct (existsb _ _); [intros [= <- <-]; left; auto |].
  destruct (_ && _); [intros [= <- <-]; left; auto |].
  simpl.
  match goal with
  | |- context [match ?r with Ok _ => _ | Raise _ => _ end] =>
      destruct r as [[[p f] b] | x] eqn:Hchecks
  end; simpl.
  - destruct (raised_by (context s) _) as [x |] eqn:Hraised;
      [| discriminate].
    intros [= <- <-]. right. exists p, f, b. auto.
  - intros [= <- <-]. left. split; [reflexivity |]. right; right.
    revert Hchecks.
    unfold _raise_if_has_end_or_front_right_or_back_left,
      _raise_if_has_front_right_or_back_left_for_partial_column,
      _raise_if_configuration_not_supported_by_pipette,
      _raise_if_has_end_nozzle_for_quadrant,
      _raise_if_no_front_right_or_back_left_for_quadrant.
    unfold mbind, mret, result_bind, result_ret, Py.bind.
    destruct style;
      repeat match goal with
             | |- context [_check_valid_start_nozzle ?st ?x] =>
                 let q := fresh "q" in
                 let E := fresh "E" in
                 destruct (_check_valid_start_nozzle st x) as [q | ?] eqn:E;
                   [apply check_valid_start_nozzle_ok in E;
                    destruct E as [? ?]
                   | unfold _check_valid_start_nozzle in E;
                     destruct x; [destruct (negb _) in E |]; congruence]
             | |- context [_check_valid_end_nozzle ?q ?x] =>
                 let E := fresh "E" in
                 destruct (_check_valid_end_nozzle q x) eqn:E;
                   [| apply check_valid_end_nozzle_raises in E;
                      [congruence | assumption]]
             | |- context [if ?c then _ else _] => destruct c
             | |- context [match ?o with Some _ => _ | None => _ end] =>
                 destruct o
             end;
      congruence.
Qed.

Lemma configure_nozzle_layout_raising_runs_witness :
  let s := {| context := demo_context (2, 20) 8 full_map_8 None;
              api_calls := [] |} in
  snd (InstrumentContextMethods.configure_nozzle_layout
         NozzleLayout.ROW (Some "A1") None None None (Some []) s) = s.
Proof.
  intros s.
  destruct (configure_nozzle_layout_raising_runs
              NozzleLayout.ROW (Some "A1") None None None (Some []) s
              (snd (InstrumentContextMethods.configure_nozzle_layout
                      NozzleLayout.ROW (Some "A1") None None None (Some [])
                      s))
              ValueError)
    as [[H _] | (p & f & b & H & _)].
  - vm_compute. reflexivity.
  - exact H.
  - discriminate H.
Defined.

Ltac destruct_all_matches :=
  repeat match goal with
         | H : context [match ?x with _ => _ end] |- _ =>
             let E := fresh "E" in destruct x eqn:E; try discriminate
         end.

Ltac tidy_results :=
  repeat match goal with
         | H : _check_valid_start_nozzle _ _ = Ok _ |- _ =>
             apply check_valid_start_nozzle_ok in H; destruct H as [-> ?]
         | H : negb (_ =? _) = false |- _ =>
             apply negb_false_iff, Z.eqb_eq in H
         | H : (_, _) = (_, _) |- _ => injection H as <- <-
         | H : Ok _ = Ok _ |- _ => injection H as H
         | H : Some _ = Some _ |- _ => injection H as H
         end.

(** A [configure_nozzle_layout] that returns.  The API version is below
    2.0 or at least 2.16, and the style is not QUADRANT; below 2.20 only
    COLUMN and ALL get through; COLUMN and ROW are accepted on a 96-channel
    pipette only and PARTIAL_COLUMN on an 8-channel one only; every style
    but ALL comes with an allowed start nozzle.  The core was asked once,
    with the style, the start and the two corners, and returned; the tip
    racks have taken the given value and nothing else has changed. *)
Theorem configure_nozzle_layout_accepted
    (style : NozzleLayout.t) (start end_ front_right back_left : option string)
    (tip_racks : option (list Labware)) (s s' : ApiState) :
  InstrumentContextMethods.configure_nozzle_layout
    style start end_ front_right back_left tip_racks s = (Ok tt, s') ->
  let api := _api_version (context s) in
  let ch := core_get_channels (_core (context s)) in
  (version_lt api (2, 0) = true \/ version_ge api (2, 16) = true)
  /\ style <> NozzleLayout.QUADRANT
  /\ (version_lt api (2, 20) = true ->
      style = NozzleLayout.COLUMN \/ style = NozzleLayout.ALL)
  /\ (style = NozzleLayout.COLUMN \/ style = NozzleLayout.ROW -> ch = 96)
  /\ (style = NozzleLayout.PARTIAL_COLUMN -> ch = 8)
  /\ (style <> NozzleLayout.ALL ->
      exists q, start = Some q /\ q ∈ ALLOWED_PRIMARY_NOZZLES)
  /\ exists f b,
       raised_by (context s)
         (api_core_configure_nozzle_layout style start f b) = None
       /\ s' = after_configure s style start f b tip_racks.
Proof.
  intros Hrun api ch. unfold api, ch. clear api ch. revert Hrun. api_unfold.
  unfold version_ge.
  destruct (version_lt (_api_version (context s)) (2, 0)) eqn:E0;
    destruct (version_lt (_api_version (context s)) (2, 16)) eqn:E16;
    simpl; try discriminate.
  all: unfold InstrumentContextMethods.disabled_layouts,
    InstrumentContextMethods.original_enabled_layouts,
    _PARTIAL_NOZZLE_CONFIGURATION_SINGLE_ROW_PARTIAL_COLUMN_ADDED_IN.
  all: destruct (version_lt (_api_version (context s)) (2, 20)) eqn:E20;
    destruct style; simpl; try discriminate;
    intros Hrun; result_unfold_in Hrun;
    unfold _raise_if_has_end_or_front_right_or_back_left,
      _raise_if_has_front_right_or_back_left_for_partial_column in Hrun;
    destruct_all_matches; tidy_results;
    injection Hrun as <-; subst.
  all: split; [auto |].
  all: split; [discriminate |].
  all: split; [first [intros; discriminate | auto] |].
  all: split; [first [intros; assumption | intros [? | ?]; discriminate] |].
  all: split; [first [intros; assumption | intros; discriminate] |].
  all: split; [first [intros; eexists; split; [reflexivity | assumption]
                     | intros Hne; now contradiction Hne] |].
  all: eexists _, _; split; [eassumption | reflexivity].
Qed.

Lemma configure_nozzle_layout_accepted_witness :
  let s := {| context := demo_context (2, 16) 96 full_map_96 None;
              api_calls := [] |} in
  exists f b,
    snd (InstrumentContextMethods.configure_nozzle_layout
           NozzleLayout.COLUMN (Some "A1") None None None None s)
    = after_configure s NozzleLayout.COLUMN (Some "A1") f b None.
Proof.
  intros s.
  destruct (configure_nozzle_layout_accepted
              NozzleLayout.COLUMN (Some "A1") None None None None s
              (snd (InstrumentContextMethods.configure_nozzle_layout
                      NozzleLayout.COLUMN (Some "A1") None None None None s)))
    as (_ & _ & _ & _ & _ & _ & f & b & _ & H).
  - vm_compute. reflexivity.
  - exists f, b. exact H.
Defined.

(** Below API version 2.0 the decorator lets the call through: a protocol
    at version 1.0 gets the ALL layout configured. *)
Example configure_all_at_version_1_0 :
  let s := {| context := demo_context (1, 0) 8 full_map_8 None;
              api_calls := [] |} in
  InstrumentContextMethods.configure_nozzle_layout
    NozzleLayout.ALL None None None None None s
  = (Ok tt, after_configure s NozzleLayout.ALL None None None None).
Proof. reflexivity. Qed.


Lemma tables_hold_allowed (p style : string) :
  p ∈ ALLOWED_PRIMARY_NOZZLES ->
  style = "COLUMN" \/ style = "ROW" ->
  exists e b,
    getitem2 PRIMARY_NOZZLE_TO_ENDING_NOZZLE_MAP p style = Ok e
    /\ getitem2 PRIMARY_NOZZLE_TO_BACK_LEFT_NOZZLE_MAP p style = Ok b.
Proof.
  rewrite allowed_primary_cases.
  intros [-> | [-> | [-> | ->]]] [-> | ->];
    eexists _, _; split; vm_compute; reflexivity.
Qed.

Lemma falsy_cases (o : option string) :
  truthy o = false -> o = None \/ o = Some "".
Proof.
  destruct o as [x |]; [| now left]. simpl.
  destruct (String.eqb_spec x ""); [subst; now right | discriminate].
Qed.

Lemma resolver_falsy_hints
    (channels : Z) (style : string) (p fr bl : option string) :
  truthy fr = false -> truthy bl = false ->
  _available_for_nozzle_layout channels style p fr bl
  = _available_for_nozzle_layout channels style p None None.
Proof.
  intros Hfr Hbl.
  destruct (falsy_cases _ Hfr) as [-> | ->], (falsy_cases _ Hbl) as [-> | ->];
    reflexivity.
Qed.

(** An accepted SINGLE, COLUMN or ROW layout: [start] is an allowed primary
    nozzle, no [end], [front_right] or [back_left] was given, and the core
    is called with the arguments as they came.  The engine's resolver then
    has what it needs: for "COLUMN" and "ROW" on a 96-channel pipette it
    returns the primary nozzle with both corners from its tables, and for
    "SINGLE" on any multi-channel pipette the primary nozzle alone.  On a
    single-channel pipette the resolver refuses the SINGLE layout that the
    instrument context has accepted. *)
Theorem configure_linear_layout_resolves
    (style : NozzleLayout.t) (start end_ front_right back_left : option string)
    (tip_racks : option (list Labware)) (s s' : ApiState) :
  InstrumentContextMethods.configure_nozzle_layout
    style start end_ front_right back_left tip_racks s = (Ok tt, s') ->
  style = NozzleLayout.SINGLE \/ style = NozzleLayout.COLUMN
  \/ style = NozzleLayout.ROW ->
  exists q,
    start = Some q /\ q ∈ ALLOWED_PRIMARY_NOZZLES
    /\ truthy end_ = false /\ truthy front_right = false
    /\ truthy back_left = false
    /\ s' = after_configure s style start front_right back_left tip_racks
    /\ (style = NozzleLayout.COLUMN ->
        exists e b,
          _available_for_nozzle_layout 96 "COLUMN" start front_right back_left
          = Ok (nozzle_dict q e b))
    /\ (style = NozzleLayout.ROW ->
        exists e b,
          _available_for_nozzle_layout 96 "ROW" start front_right back_left
          = Ok (nozzle_dict q e b))
    /\ (style = NozzleLayout.SINGLE ->
        forall channels,
          _available_for_nozzle_layout channels "SINGLE" start front_right
            back_left
          = if channels =? 1 then Raise CommandPreconditionViolated
            else Ok (<["primary_nozzle" := q]> ∅)).
Proof.
  intros Hrun Hstyle.
  assert (Hargs : exists q,
             start = Some q /\ q ∈ ALLOWED_PRIMARY_NOZZLES
             /\ (truthy end_ = false /\ truthy front_right = false
                 /\ truthy back_left = false)
             /\ s' = after_configure s style start front_right back_left
                       tip_racks).
  { revert Hrun. api_unfold.
    destruct (version_ge _ (2, 0) && version_lt _ (2, 16));
      [discriminate |].
    destruct (existsb _ _); [discriminate |].
    destruct (_ && _); [discriminate |].
    destruct Hstyle as [-> | [-> | ->]]; simpl;
      intros Hrun; result_unfold_in Hrun;
      unfold _raise_if_has_end_or_front_right_or_back_left in Hrun;
      destruct_all_matches; tidy_results;
      injection Hrun as <-; subst;
      eexists; (split; [reflexivity |]); (split; [assumption |]);
      (split; [| reflexivity]);
      match goal with
      | H : _ || _ || _ = false |- _ =>
          apply orb_false_iff in H; destruct H as [H ?];
          apply orb_false_iff in H; destruct H as [? ?]; auto
      end. }
  destruct Hargs as (q & -> & Hq & (Hend & Hfr & Hbl) & ->).
  assert (Hne : q <> "").
  { apply allowed_primary_cases in Hq.
    destruct Hq as [-> | [-> | [-> | ->]]]; discriminate. }
  exists q. repeat (split; [first [reflexivity | assumption] |]).
  split; [| split].
  - intros _.
    destruct (tables_hold_allowed q "COLUMN" Hq (or_introl eq_refl))
      as (e & b & He & Hb).
    exists e, b. rewrite (resolver_falsy_hints _ _ _ _ _ Hfr Hbl).
    apply resolver_no_hints; try assumption; try discriminate;
      intros [? ?]; discriminate.
  - intros _.
    destruct (tables_hold_allowed q "ROW" Hq (or_intror eq_refl))
      as (e & b & He & Hb).
    exists e, b. rewrite (resolver_falsy_hints _ _ _ _ _ Hfr Hbl).
    apply resolver_no_hints; try assumption; try discriminate;
      intros [? ?]; discriminate.
  - intros _ channels.
    rewrite (resolver_falsy_hints _ _ _ _ _ Hfr Hbl).
    unfold _available_for_nozzle_layout.
    change (truthy (Some q)) with (negb (String.eqb q "")).
    rewrite (eqb_false_of_ne _ _ Hne).
    destruct (channels =? 1); reflexivity.
Qed.

Lemma configure_linear_layout_resolves_witness :
  exists e b,
    _available_for_nozzle_layout 96 "COLUMN" (Some "A12") None None
    = Ok (nozzle_dict "A12" e b).
Proof.
  pose (s := {| context := demo_context (2, 20) 96 full_map_96 None;
                api_calls := [] |}).
  destruct (configure_linear_layout_resolves
              NozzleLayout.COLUMN (Some "A12") None None None None s
              (snd (InstrumentContextMethods.configure_nozzle_layout
                      NozzleLayout.COLUMN (Some "A12") None None None None s)))
    as (q & Hq & _ & _ & _ & _ & _ & Hcol & _).
  - vm_compute. reflexivity.
  - right; left; reflexivity.
  - injection Hq as <-. apply Hcol. reflexivity.
Defined.


(** An accepted PARTIAL_COLUMN layout on the (8-channel) pipette: [start]
    is an allowed primary nozzle and [end] a name with neither A nor H in
    it.  From a start in row H the core is given [start] as the
    front-right nozzle and [end] as the back-left one; from a start in row
    A it is the other way round.  With a non-empty [end], the engine's
    resolver returns the three nozzles unchanged for every style name that
    passes its guards, so no table lookup is made. *)
Theorem configure_partial_column_corners
    (start end_ front_right back_left : option string)
    (tip_racks : option (list Labware)) (s s' : ApiState) :
  InstrumentContextMethods.configure_nozzle_layout
    NozzleLayout.PARTIAL_COLUMN start end_ front_right back_left tip_racks s
  = (Ok tt, s') ->
  exists q e f b,
    start = Some q /\ end_ = Some e
    /\ q ∈ ALLOWED_PRIMARY_NOZZLES
    /\ ~ In "A"%char (list_ascii_of_string e)
    /\ ~ In "H"%char (list_ascii_of_string e)
    /\ (q = "H1" \/ q = "H12" -> f = q /\ b = e)
    /\ (q = "A1" \/ q = "A12" -> f = e /\ b = q)
    /\ s' = after_configure s NozzleLayout.PARTIAL_COLUMN
              (Some q) (Some f) (Some b) tip_racks
    /\ (e <> "" ->
        forall style,
          style <> "ALL" -> style <> "ROW" -> style <> "SINGLE" ->
          _available_for_nozzle_layout 8 style (Some q) (Some f) (Some b)
          = Ok (nozzle_dict q f b)).
Proof.
  api_unfold.
  destruct (version_ge _ (2, 0) && version_lt _ (2, 16));
    [discriminate |].
  simpl existsb. cbv iota.
  destruct (_ && _); [discriminate |].
  simpl. intros Hrun. result_unfold_in Hrun.
  destruct (negb (core_get_channels (_core (context s)) =? 8));
    [discriminate |].
  destruct (_check_valid_start_nozzle NozzleLayout.PARTIAL_COLUMN start)
    as [q |] eqn:Hstart; [| discriminate].
  apply check_valid_start_nozzle_ok in Hstart. destruct Hstart as [-> Hq].
  rewrite (check_valid_end_nozzle_run q end_ Hq) in Hrun.
  destruct end_ as [e |]; [| discriminate].
  destruct (contains "A" e || contains "H" e) eqn:Hah; [discriminate |].
  apply orb_false_iff in Hah. destruct Hah as [Ha Hh].
  apply contains_char_false in Ha. apply contains_char_false in Hh.
  destruct (_raise_if_has_front_right_or_back_left_for_partial_column _ _);
    [| discriminate].
  assert (Hne : q <> "").
  { apply allowed_primary_cases in Hq.
    destruct Hq as [-> | [-> | [-> | ->]]]; discriminate. }
  pose proof Hq as Hq'. apply allowed_primary_cases in Hq'.
  assert (Hcorners : exists f b,
             (q = "H1" \/ q = "H12" -> f = q /\ b = e)
             /\ (q = "A1" \/ q = "A12" -> f = e /\ b = q)
             /\ (f = q \/ f = e) /\ (b = q \/ b = e) /\ (f = e \/ b = e)
             /\ s' = after_configure s NozzleLayout.PARTIAL_COLUMN
                       (Some q) (Some f) (Some b) tip_racks).
  { destruct Hq' as [-> | [-> | [-> | ->]]]; simpl in Hrun;
      (destruct (raised_by _ _) in Hrun; [discriminate Hrun |]);
      injection Hrun as <-;
      [exists e, "A1" | exists "H1", e | exists e, "A12" | exists "H12", e];
      (split; [first [intros _; split; reflexivity
                     | intros [? | ?]; discriminate] |]);
      (split; [first [intros _; split; reflexivity
                     | intros [? | ?]; discriminate] |]);
      auto. }
  destruct Hcorners as (f & b & Hrowh & Hrowa & Hf & Hb & Hfb & ->).
  exists q, e, f, b.
  repeat (split; [first [reflexivity | assumption] |]).
  intros He style Hall Hrow Hsingle.
  apply resolver_both_corners_8; try assumption.
  - destruct Hf as [-> | ->]; assumption.
  - destruct Hb as [-> | ->]; assumption.
Qed.

Lemma configure_partial_column_corners_witness :
  let s := {| context := demo_context (2, 20) 8 full_map_8 None;
              api_calls := [] |} in
  exists f b,
    snd (InstrumentContextMethods.configure_nozzle_layout
           NozzleLayout.PARTIAL_COLUMN (Some "H1") (Some "E1") None None
           None s)
    = after_configure s NozzleLayout.PARTIAL_COLUMN
        (Some "H1") (Some f) (Some b) None
    /\ f = "H1" /\ b = "E1".
Proof.
  intros s.
  destruct (configure_partial_column_corners
              (Some "H1") (Some "E1") None None None s
              (snd (InstrumentContextMethods.configure_nozzle_layout
                      NozzleLayout.PARTIAL_COLUMN (Some "H1") (Some "E1")
                      None None None s)))
    as (q & e & f & b & [= <-] & [= <-] & _ & _ & _ & Hh & _ & Hs & _).
  - vm_compute. reflexivity.
  - exists f, b. split; [exact Hs |]. apply Hh. left; reflexivity.
Defined.


(** ** [pick_up_tip] of the instrument context *)

(** Where a run of [pick_up_tip] ends in an exception: at one of its own
    checks, or at a call out of the instrument context (the tip
    selection, then the tip-rack validation and the core's pickup). *)
Ltac own_check :=
  intros [= <- <-]; left; split; [reflexivity | auto].

Ltac call_raised :=
  intros [= <- <-]; right; split; [reflexivity | eauto].

Ltac validation_then_pickup :=
  let H := fresh "Hvalidated" in
  destruct (raised_by _ (api_validate_tiprack _)) eqn:H; simpl;
    [call_raised |];
  let H' := fresh "Hasked" in
  destruct (raised_by _ (api_core_pick_up_tip _ _ _ _ _)) eqn:H'; simpl;
    [call_raised | discriminate].

Ltac selection_then_calls :=
  let H := fresh "Hselected" in
  destruct (raised_by _ (api_next_available_tip _ _ _ _)) eqn:H; simpl;
    [call_raised |];
  let rack := fresh "rack" in
  let well := fresh "well" in
  destruct (next_available_tip _ _ _ _ _) as [rack well]; simpl;
  validation_then_pickup.

(** A [pick_up_tip] that raises has not moved the last pickup place.
    Either one of its own checks refused the call, and then nothing has
    been done: no tip was selected, no call left the instrument context,
    and the exception is [APIVersionError], [UnsupportedAPIError],
    [CommandPreconditionViolated] or [TypeError].  Or a call out of the
    instrument context (tip selection, tip-rack validation, the core's
    pickup) raised, and that exception is the one raised: the call is the
    last on record and the instrument context is as before. *)
Theorem pick_up_tip_refused_unchanged
    (location : LocationArg) (presses : option Z) (increment : option Q)
    (prep_after : option bool) (s s' : ApiState) (e : exn) :
  InstrumentContextMethods.pick_up_tip location presses increment prep_after s
  = (Raise e, s') ->
  (s' = s
   /\ (e = APIVersionError \/ e = UnsupportedAPIError
       \/ e = CommandPreconditionViolated \/ e = TypeError))
  \/ (context s' = context s
      /\ exists before asked,
           api_calls s' = api_calls s ++ before ++ [asked]
           /\ raised_by (context s) asked = Some e).
Proof.
  assert (Hone : forall (calls : list ApiCall) (asked : ApiCall),
             calls ++ [asked] = calls ++ [] ++ [asked]) by reflexivity.
  assert (Htwo : forall (calls : list ApiCall) (a b : ApiCall),
             (calls ++ [a]) ++ [b] = calls ++ [a] ++ [b])
    by (intros; now rewrite <- app_assoc).
  assert (Hthree : forall (calls : list ApiCall) (a b c : ApiCall),
             ((calls ++ [a]) ++ [b]) ++ [c] = calls ++ [a; b] ++ [c])
    by (intros; now rewrite <- !app_assoc).
  api_unfold.
  rewrite version_gate_2_0.
  destruct (_ && _); [own_check |].
  destruct (_ && _); [own_check |].
  destruct (_ && _); [own_check |].
  set (nozzle_map :=
         if version_ge (_api_version (context s))
              _PARTIAL_NOZZLE_CONFIGURATION_AUTOMATIC_TIP_TRACKING_IN
         then Some (core_get_nozzle_map (_core (context s))) else None).
  set (active_channels :=
         if version_ge (_api_version (context s))
              _PARTIAL_NOZZLE_CONFIGURATION_ADDED_IN
         then core_get_active_channels (_core (context s))
         else core_get_channels (_core (context s))).
  destruct location as [| w | l | loc |]; simpl.
  - destruct (match nozzle_map with Some _ => _ | None => false end);
      [own_check |].
    destruct (negb (core_is_tip_tracking_available (_core (context s))));
      [own_check |].
    selection_then_calls.
  - validation_then_pickup.
  - selection_then_calls.
  - destruct (InstrumentContextMethods.get_parent_labware_and_well loc)
      as [[rack |] [w |]]; simpl.
    + validation_then_pickup.
    + selection_then_calls.
    + validation_then_pickup.
    + own_check.
  - own_check.
Qed.

Lemma pick_up_tip_refused_unchanged_witness :
  let s := {| context := demo_context (2, 20) 96 full_map_96 None;
              api_calls := [] |} in
  snd (InstrumentContextMethods.pick_up_tip something_else None None None s)
  = s.
Proof.
  intros s.
  destruct (pick_up_tip_refused_unchanged something_else None None None s
              (snd (InstrumentContextMethods.pick_up_tip
                      something_else None None None s))
              TypeError)
    as [[H _] | (_ & before & asked & _ & H)].
  - reflexivity.
  - exact H.
  - discriminate H.
Defined.

(** A pickup from an explicitly given well, the arguments being ones the
    API version takes.  Whatever the nozzle configuration, [starting_tip]
    and tip racks are, no tip selection takes place.  The well's rack is
    validated, then the core is asked to pick up at the top of the well,
    [prep_after] defaulting to true from API version 2.13.  If the
    validation raises, the core is not asked; if either raises, so does
    the call, and the last pickup place stays as it was.  The well is
    remembered as the last pickup place only when the core has
    returned. *)
Theorem pick_up_tip_at_well
    (w : Well) (presses : option Z) (increment : option Q)
    (prep_after : option bool) (s : ApiState) :
  let api := _api_version (context s) in
  let validated := api_validate_tiprack (parent w) in
  let asked :=
    api_core_pick_up_tip (top_of w) w presses increment
      (default (version_ge api _PREP_AFTER_ADDED_IN) prep_after) in
  let run :=
    InstrumentContextMethods.pick_up_tip (a_well w) presses increment
      prep_after s in
  (is_Some presses \/ is_Some increment ->
   version_lt api _PRESSES_INCREMENT_REMOVED_IN = true) ->
  (is_Some prep_after -> version_ge api _PREP_AFTER_ADDED_IN = true) ->
  match raised_by (context s) validated, raised_by (context s) asked with
  | Some e, _ =>
      run
      = (Raise e,
         {| context := context s; api_calls := api_calls s ++ [validated] |})
  | None, Some e =>
      run
      = (Raise e,
         {| context := context s;
            api_calls := api_calls s ++ [validated; asked] |})
  | None, None =>
      fst run = Ok tt
      /\ api_calls (snd run) = api_calls s ++ [validated; asked]
      /\ _last_tip_picked_up_from (context (snd run)) = Some w
      /\ _starting_tip (context (snd run)) = _starting_tip (context s)
      /\ _tip_racks (context (snd run)) = _tip_racks (context s)
  end.
Proof.
  intros api validated asked run Hremoved Hprep.
  unfold run, validated, asked, api in *. clear run validated asked api.
  api_unfold.
  rewrite version_gate_2_0.
  assert (E1 : bool_decide (is_Some presses)
               && version_ge (_api_version (context s))
                    _PRESSES_INCREMENT_REMOVED_IN = false).
  { destruct presses; simpl; [| reflexivity].
    unfold version_ge. rewrite Hremoved; [reflexivity | left; eauto]. }
  assert (E2 : bool_decide (is_Some increment)
               && version_ge (_api_version (context s))
                    _PRESSES_INCREMENT_REMOVED_IN = false).
  { destruct increment; simpl; [| reflexivity].
    unfold version_ge. rewrite Hremoved; [reflexivity | right; eauto]. }
  assert (E3 : bool_decide (is_Some prep_after)
               && version_lt (_api_version (context s))
                    _PREP_AFTER_ADDED_IN = false).
  { destruct prep_after; simpl; [| reflexivity].
    apply version_ge_not_lt, Hprep. eauto. }
  rewrite E1, E2, E3. simpl.
  destruct (raised_by (context s) (api_validate_tiprack (parent w)));
    [reflexivity |].
  simpl.
  replace (match prep_after with
           | Some b => b
           | None => version_ge (_api_version (context s)) _PREP_AFTER_ADDED_IN
           end)
    with (default (version_ge (_api_version (context s)) _PREP_AFTER_ADDED_IN)
            prep_after)
    by (destruct prep_after; reflexivity).
  destruct (raised_by (context s) (api_core_pick_up_tip _ _ _ _ _)); simpl.
  - now rewrite <- app_assoc.
  - rewrite <- app_assoc. repeat split; reflexivity.
Qed.

Lemma pick_up_tip_at_well_witness :
  let s := {| context :=
                with_refusing_core
                  (demo_context (2, 20) 96 column12_map_96 (Some demo_well))
                  TipNotAttachedError;
              api_calls := [] |} in
  fst (InstrumentContextMethods.pick_up_tip (a_well demo_well) None None None s)
  = Raise TipNotAttachedError.
Proof.
  intros s.
  pose proof (pick_up_tip_at_well demo_well None None None s) as H.
  simpl in H. rewrite H.
  - reflexivity.
  - intros [[? E] | [? E]]; discriminate.
  - intros [? E]; discriminate.
Defined.


(** ** types.py: deck slots, mounts and axes *)

Ltac decide_closed := apply (bool_decide_unpack _); vm_compute; exact I.

(** OT-2 and OT-3 deck slot names for the same place.  Converting to
    either naming is idempotent and forgets the naming it came from;
    [to_ot3_equivalent] always lands in [ot3_slots] and
    [to_ot2_equivalent] never does; a slot is left as it is exactly when it
    already is of the wanted naming, so converting an OT-2 slot to OT-3 and
    back gives the slot again, and likewise from OT-3. *)
Theorem deck_slot_equivalents (s : DeckSlotName.t) :
  let ot2 := DeckSlotName.to_ot2_equivalent in
  let ot3 := DeckSlotName.to_ot3_equivalent in
  ot2 (ot3 s) = ot2 s
  /\ ot3 (ot2 s) = ot3 s
  /\ ot2 (ot2 s) = ot2 s
  /\ ot3 (ot3 s) = ot3 s
  /\ ot3 s ∈ DeckSlotName.ot3_slots
  /\ ~ (ot2 s ∈ DeckSlotName.ot3_slots)
  /\ ((s ∈ DeckSlotName.ot3_slots) <-> ot3 s = s)
  /\ (~ (s ∈ DeckSlotName.ot3_slots) <-> ot2 s = s)
  /\ (s ∈ DeckSlotName.ot3_slots -> ot3 (ot2 s) = s)
  /\ (~ (s ∈ DeckSlotName.ot3_slots) -> ot2 (ot3 s) = s).
Proof.
  intros ot2 ot3. unfold ot2, ot3.
  destruct s; repeat split;
    try decide_closed;
    intros H; try decide_closed;
    exfalso; revert H; decide_closed.
Qed.

Lemma deck_slot_equivalents_witness :
  DeckSlotName.to_ot2_equivalent
    (DeckSlotName.to_ot3_equivalent DeckSlotName.SLOT_5)
  = DeckSlotName.SLOT_5.
Proof.
  apply (deck_slot_equivalents DeckSlotName.SLOT_5).
  apply (bool_decide_unpack _). vm_compute. exact I.
Defined.

Lemma deck_of_value_ok (v : string) (s : DeckSlotName.t) :
  DeckSlotName.of_value v = Ok s -> DeckSlotName.value s = v.
Proof.
  unfold DeckSlotName.of_value.
  destruct (find _ DeckSlotName.members) as [x |] eqn:E; [| discriminate].
  intros [= <-]. apply find_some in E. destruct E as [_ E].
  now apply String.eqb_eq in E.
Qed.

Lemma deck_of_value_raise (v : string) (e : exn) :
  DeckSlotName.of_value v = Raise e -> e = ValueError.
Proof.
  unfold DeckSlotName.of_value.
  destruct (find _ DeckSlotName.members); [discriminate | congruence].
Qed.

(** [DeckSlotName.from_primitive] reads a slot back from its id, in either
    letter case: an input parses to a member exactly when its upper-cased
    text is the member's id, so every member parses from its own id, and
    any other input is a [ValueError]. *)
Theorem deck_slot_from_primitive :
  (forall v s,
     DeckSlotName.from_primitive v = Ok s
     <-> upper (deck_location_str v) = DeckSlotName.id s)
  /\ (forall s,
        DeckSlotName.from_primitive (location_str (DeckSlotName.id s)) = Ok s)
  /\ (forall v e, DeckSlotName.from_primitive v = Raise e -> e = ValueError).
Proof.
  split; [| split].
  - intros v s. split.
    + intros H. symmetry. now apply deck_of_value_ok in H.
    + unfold DeckSlotName.from_primitive. intros ->.
      destruct s; reflexivity.
  - intros []; reflexivity.
  - intros v e H. now apply deck_of_value_raise in H.
Qed.

Lemma deck_slot_from_primitive_witness :
  DeckSlotName.from_primitive (location_str "c2") = Ok DeckSlotName.SLOT_C2.
Proof.
  apply (proj1 deck_slot_from_primitive). reflexivity.
Defined.

(** The OT-2 slot number of a deck slot: [as_int] never raises, lies
    between 1 and 12, is the same for a slot and its OT-3 equivalent, and
    parsing it back gives the OT-2 equivalent of the slot. *)
Theorem deck_slot_as_int (s : DeckSlotName.t) :
  exists n,
    DeckSlotName.as_int s = Ok n
    /\ 1 <= n <= 12
    /\ DeckSlotName.as_int (DeckSlotName.to_ot3_equivalent s) = Ok n
    /\ DeckSlotName.from_primitive (location_int n)
       = Ok (DeckSlotName.to_ot2_equivalent s).
Proof.
  destruct s;
    [exists 1 | exists 2 | exists 3 | exists 4 | exists 5 | exists 6
    | exists 7 | exists 8 | exists 9 | exists 10 | exists 11 | exists 12
    | exists 10 | exists 11 | exists 12 | exists 7 | exists 8 | exists 9
    | exists 4 | exists 5 | exists 6 | exists 1 | exists 2 | exists 3];
    (split; [vm_compute; reflexivity |]);
    (split; [lia |]);
    split; vm_compute; reflexivity.
Qed.

(** Staging slots and deck slots do not share ids: a staging slot parses
    back from its id in either letter case, no staging slot id is a deck
    slot, and no deck slot id is a staging slot. *)
Theorem staging_slots_apart :
  (forall s v,
     upper v = StagingSlotName.id s -> StagingSlotName.from_primitive v = Ok s)
  /\ (forall s,
        DeckSlotName.from_primitive (location_str (StagingSlotName.id s))
        = Raise ValueError)
  /\ (forall d,
        StagingSlotName.from_primitive (DeckSlotName.id d) = Raise ValueError).
Proof.
  split; [| split].
  - intros s v H. unfold StagingSlotName.from_primitive. rewrite H.
    destruct s; reflexivity.
  - intros []; reflexivity.
  - intros []; reflexivity.
Qed.

Lemma staging_slots_apart_witness :
  StagingSlotName.from_primitive "b4" = Ok StagingSlotName.SLOT_B4.
Proof.
  apply (proj1 staging_slots_apart). reflexivity.
Defined.

(** Mounts and axes convert back and forth.  A pipette mount type goes to
    its hardware mount and back; the extension mount has a hardware mount
    but no way back ([KeyError]).  Every hardware mount has a Z axis that
    names it again, an axis names a mount exactly when it is one of the
    three Z axes, and only the two pipette mounts have a plunger axis.
    [other_mount] swaps left and right and never answers the extension
    mount. *)
Theorem mount_conversions :
  (forall m,
     from_hw_mount (to_hw_mount m)
     = match m with
       | MountType.EXTENSION => Raise (KeyError "EXTENSION")
       | _ => Ok m
       end)
  /\ (forall hw m, from_hw_mount hw = Ok m -> to_hw_mount m = hw)
  /\ (forall hw, AxisType.mount_for_axis (AxisType.axis_for_mount hw) = Ok hw)
  /\ (forall a hw,
        AxisType.mount_for_axis a = Ok hw -> AxisType.axis_for_mount hw = a)
  /\ (forall a,
        (exists hw, AxisType.mount_for_axis a = Ok hw)
        <-> a = AxisType.Z_L \/ a = AxisType.Z_R \/ a = AxisType.Z_G)
  /\ (forall hw,
        (exists a, AxisType.plunger_axis_for_mount hw = Ok a)
        <-> hw <> Mount.EXTENSION)
  /\ (forall m,
        other_mount m <> MountType.EXTENSION
        /\ (m <> MountType.EXTENSION -> other_mount (other_mount m) = m)).
Proof.
  repeat split.
  - intros []; reflexivity.
  - intros [] m [= <-]; reflexivity.
  - intros []; reflexivity.
  - intros [] hw [= <-]; reflexivity.
  - destruct a; intros [hw [=]]; auto.
  - intros [-> | [-> | ->]]; eexists; reflexivity.
  - destruct hw; intros [a [=]]; discriminate.
  - destruct hw; intros H; try (eexists; reflexivity). now contradiction H.
  - destruct m; discriminate.
  - destruct m; intros H; try reflexivity. now contradiction H.
Qed.

Lemma mount_conversions_witness :
  to_hw_mount MountType.RIGHT = Mount.RIGHT.
Proof.
  apply (proj1 (proj2 mount_conversions) Mount.RIGHT MountType.RIGHT).
  reflexivity.
Defined.


(** ** More on the hardware tip handler *)

(** A pipette whose channel count is not 1, 8 or 96 is found out only
    after the pickup motion: [pick_up_tip] raises [ValueError] with the
    geometry lookups and the motion already made, whether or not tip
    presence is to be checked, and tells the hardware API of no tip. *)
Theorem pick_up_tip_unknown_pipette
    (m : Machine) (pid lid well : string) (verify : bool) :
  let channels := get_channels (state_view m) pid in
  channels <> 1 -> channels <> 8 -> channels <> 96 ->
  HardwareTipHandler.pick_up_tip pid lid well verify m
  = (Raise ValueError,
     with_calls m (calls m ++ pickup_calls m pid lid well)).
Proof.
  intros channels H1 H8 H96.
  rewrite pick_up_tip_run.
  unfold HardwareTipHandler.get_tip_presence_config. fold channels.
  rewrite (proj2 (Z.eqb_neq _ _) H1), (proj2 (Z.eqb_neq _ _) H8),
    (proj2 (Z.eqb_neq _ _) H96).
  reflexivity.
Qed.

Lemma pick_up_tip_unknown_pipette_witness :
  fst (HardwareTipHandler.pick_up_tip "pipette" "tiprack" "A1" false
         (demo_machine 384 full_map_96 None true TipStateType.PRESENT))
  = Raise ValueError.
Proof.
  rewrite (pick_up_tip_unknown_pipette
             (demo_machine 384 full_map_96 None true TipStateType.PRESENT)
             "pipette" "tiprack" "A1" false); simpl; [reflexivity | lia ..].
Defined.

(** A prefix of a list of calls that holds a committing call reaches the
    first committing call of the list. *)
Lemma prefix_reaches_first_commit
    (before rest cut : list Call) (c : Call) :
  cut `prefix_of` before ++ c :: rest ->
  existsb commits_tip before = false ->
  existsb commits_tip cut = true ->
  exists rest', cut = before ++ c :: rest'.
Proof.
  revert cut. induction before as [| b before IH]; intros cut [k Hk] Hb Hcut.
  - destruct cut as [| x cut]; [discriminate |].
    simpl in Hk. injection Hk as Hx _. subst x. exists cut. reflexivity.
  - simpl in Hb. apply orb_false_iff in Hb. destruct Hb as [Hb Hbefore].
    destruct cut as [| x cut]; [discriminate |].
    simpl in Hk. injection Hk as Hx Hk. subst x.
    simpl in Hcut. rewrite Hb in Hcut. simpl in Hcut.
    destruct (IH cut) as [rest' ->];
      [exists k; exact Hk | exact Hbefore | exact Hcut |].
    exists rest'. reflexivity.
Qed.

(** A tip is committed to the hardware API only after its presence has
    been verified, or when verification does not apply.  Take a run of
    [pick_up_tip], or such a run cut short after any of its calls, as when
    a hardware call fails.  If it has told the hardware API of a tip, the
    first such call caches the resolved tip length; the presence
    configuration was computed before it; and where verification applies
    (it was asked for, the configuration supports it and the hardware
    senses) the sensor call is the call right before and read PRESENT.  A
    run that returns hands back the resolved geometry and ends with the
    four committing calls. *)
Theorem pick_up_tip_commits_after_verification
    (m m' : Machine) (pid lid well : string) (verify : bool)
    (r : result TipGeometry.t) :
  HardwareTipHandler.pick_up_tip pid lid well verify m = (r, m') ->
  let g := resolved_tip_geometry m pid lid well in
  let mount := hw_mount m pid in
  exists added,
    calls m' = calls m ++ added
    /\ (forall g',
          r = Ok g' ->
          g' = g /\ exists before, added = before ++ commit_calls m pid g)
    /\ (forall cut,
          cut `prefix_of` added ->
          existsb commits_tip cut = true ->
          exists supported follow before rest,
            HardwareTipHandler.get_tip_presence_config (state_view m) pid
            = Ok (supported, follow)
            /\ cut
               = before ++ call_cache_tip mount (TipGeometry.length g) :: rest
            /\ existsb commits_tip before = false
            /\ (verify && supported && is_ot3 (robot m) = true ->
                tip_presence_status (robot m) mount follow
                = TipStateType.PRESENT
                /\ last before
                   = Some (call_verify_tip_presence mount
                             TipStateType.PRESENT follow))).
Proof.
  rewrite pick_up_tip_run. cbv zeta.
  assert (Hnone : forall l cut : list Call,
             existsb commits_tip l = false ->
             cut `prefix_of` l -> existsb commits_tip cut = true -> False).
  { intros l cut Hl [k ->] Hcut. rewrite existsb_app, Hcut in Hl.
    discriminate. }
  destruct (HardwareTipHandler.get_tip_presence_config (state_view m) pid)
    as [[supported follow] | e] eqn:Hcfg.
  - destruct (verify && supported && is_ot3 (robot m)) eqn:Happlies.
    + destruct (tip_presence_status (robot m) (hw_mount m pid) follow)
        eqn:Hread;
        intros [= <- <-].
      * exists (pickup_calls m pid lid well
                ++ [call_verify_tip_presence (hw_mount m pid)
                      TipStateType.PRESENT follow]).
        split; [simpl; rewrite <- app_assoc; reflexivity |].
        split; [discriminate |].
        intros cut Hprefix Hcut. exfalso.
        apply (Hnone _ cut) in Hprefix; [exact Hprefix | reflexivity | exact Hcut].
      * exists ((pickup_calls m pid lid well
                 ++ [call_verify_tip_presence (hw_mount m pid)
                       TipStateType.PRESENT follow])
                ++ commit_calls m pid (resolved_tip_geometry m pid lid well)).
        split; [simpl; rewrite <- !app_assoc; reflexivity |].
        split.
        -- intros g' [= <-]. split; [reflexivity |].
           eexists. reflexivity.
        -- intros cut Hprefix Hcut.
           destruct (prefix_reaches_first_commit
                       (pickup_calls m pid lid well
                        ++ [call_verify_tip_presence (hw_mount m pid)
                              TipStateType.PRESENT follow])
                       _ cut (call_cache_tip _ _) Hprefix)
             as [rest' ->]; [reflexivity | exact Hcut |].
           exists supported, follow.
           exists (pickup_calls m pid lid well
                   ++ [call_verify_tip_presence (hw_mount m pid)
                         TipStateType.PRESENT follow]).
           exists rest'.
           split; [reflexivity |]. split; [reflexivity |].
           split; [reflexivity |]. intros _.
           split; [exact Hread | reflexivity].
    + intros [= <- <-].
      exists (pickup_calls m pid lid well
              ++ commit_calls m pid (resolved_tip_geometry m pid lid well)).
      split; [simpl; rewrite <- !app_assoc; reflexivity |].
      split.
      * intros g' [= <-]. split; [reflexivity |].
        eexists. reflexivity.
      * intros cut Hprefix Hcut.
        destruct (prefix_reaches_first_commit
                    (pickup_calls m pid lid well)
                    _ cut (call_cache_tip _ _) Hprefix)
          as [rest' ->]; [reflexivity | exact Hcut |].
        exists supported, follow.
        exists (pickup_calls m pid lid well), rest'.
        split; [reflexivity |]. split; [reflexivity |].
        split; [reflexivity |]. intros Hyes. congruence.
  - intros [= <- <-].
    exists (pickup_calls m pid lid well).
    split; [reflexivity |].
    split; [discriminate |].
    intros cut Hprefix Hcut. exfalso.
    apply (Hnone _ cut) in Hprefix; [exact Hprefix | reflexivity | exact Hcut].
Qed.

Lemma pick_up_tip_commits_after_verification_witness :
  tip_presence_status
    (robot (demo_machine 96 full_map_96 None true TipStateType.PRESENT))
    Mount.LEFT None
  = TipStateType.PRESENT.
Proof.
  destruct (pick_up_tip_commits_after_verification
              (demo_machine 96 full_map_96 None true TipStateType.PRESENT)
              (snd (HardwareTipHandler.pick_up_tip "pipette" "tiprack" "A1" true
                      (demo_machine 96 full_map_96 None true
                         TipStateType.PRESENT)))
              "pipette" "tiprack" "A1" true (Ok demo_tip))
    as (added & Hcalls & _ & Hcommitted).
  - vm_compute. reflexivity.
  - assert (Hadded :
      added
      = [call_get_nominal_tip_geometry "pipette" "tiprack" "A1";
         call_get_calibrated_tip_length "P1KSV3420230721" (50 # 1);
         call_tip_pickup_moves Mount.LEFT;
         call_verify_tip_presence Mount.LEFT TipStateType.PRESENT None;
         call_cache_tip Mount.LEFT (50 # 1);
         call_set_current_tiprack_diameter Mount.LEFT (5 # 1);
         call_set_working_volume Mount.LEFT (200 # 1);
         call_prepare_for_aspirate Mount.LEFT])
      by (vm_compute in Hcalls; symmetry; exact Hcalls).
    destruct (Hcommitted
                [call_get_nominal_tip_geometry "pipette" "tiprack" "A1";
                 call_get_calibrated_tip_length "P1KSV3420230721" (50 # 1);
                 call_tip_pickup_moves Mount.LEFT;
                 call_verify_tip_presence Mount.LEFT TipStateType.PRESENT None;
                 call_cache_tip Mount.LEFT (50 # 1)])
      as (supported & follow & before & rest & Hcfg & _ & _ & Hverified).
    + rewrite Hadded. eexists. reflexivity.
    + reflexivity.
    + vm_compute in Hcfg. injection Hcfg as <- <-.
      apply Hverified. reflexivity.
Defined.

(** [verify_tip_presence] lets no hardware-level exception out.  Expecting
    PRESENT it returns or raises [TipNotAttachedError]; expecting ABSENT it
    returns or raises [TipAttachedError]; it raises exactly when the
    hardware senses and reads the other state.  On hardware that does not
    sense it returns without a call. *)
Theorem verify_tip_presence_outcomes
    (m : Machine) (pid : string) (expected : TipPresenceStatus.t)
    (hw_expected : TipStateType.t) (follow : option InstrumentProbeType.t) :
  to_hw_state expected = Ok hw_expected ->
  let run := HardwareTipHandler.verify_tip_presence pid expected follow m in
  let mismatch :=
    is_ot3 (robot m)
    && negb (TipStateType.eqb
               (tip_presence_status (robot m) (hw_mount m pid) follow)
               hw_expected) in
  fst run
  = (if mismatch then
       Raise match expected with
             | TipPresenceStatus.PRESENT => TipNotAttachedError
             | _ => TipAttachedError
             end
     else Ok tt)
  /\ snd run
     = with_calls m
         (calls m
          ++ if is_ot3 (robot m)
             then [call_verify_tip_presence (hw_mount m pid) hw_expected follow]
             else []).
Proof.
  destruct expected; simpl; intros [= <-]; cbv zeta.
  - rewrite verify_present_run.
    destruct (is_ot3 (robot m)); simpl.
    + destruct (tip_presence_status _ _ _); simpl; split; reflexivity.
    + rewrite app_nil_r. destruct m; split; reflexivity.
  - rewrite verify_absent_run.
    destruct (is_ot3 (robot m)); simpl.
    + destruct (tip_presence_status _ _ _); simpl; split; reflexivity.
    + rewrite app_nil_r. destruct m; split; reflexivity.
Qed.

Lemma verify_tip_presence_outcomes_witness :
  fst (HardwareTipHandler.verify_tip_presence "pipette"
         TipPresenceStatus.ABSENT None
         (demo_machine 8 full_map_8 None true TipStateType.PRESENT))
  = Raise TipAttachedError.
Proof.
  destruct (verify_tip_presence_outcomes
              (demo_machine 8 full_map_8 None true TipStateType.PRESENT)
              "pipette" TipPresenceStatus.ABSENT TipStateType.ABSENT None
              eq_refl) as [H _].
  exact H.
Defined.

(** A sensor is singled out only for a 96-channel pipette in a supported
    configuration other than FULL: on 1- and 8-channel pipettes, in the
    FULL configuration, and whenever sensing is unsupported,
    [follow_singular_sensor] is [None].  Sensing is never reported as
    unsupported for a single-channel pipette. *)
Theorem follow_singular_sensor_only_96
    (sv : StateView) (pid : string) (supported : bool)
    (follow : option InstrumentProbeType.t) :
  HardwareTipHandler.get_tip_presence_config sv pid = Ok (supported, follow) ->
  let nm := get_nozzle_configuration sv pid in
  (is_Some follow ->
   get_channels sv pid = 96 /\ supported = true
   /\ NozzleMap.configuration nm <> NozzleConfigurationType.FULL
   /\ NozzleMap.configuration nm <> NozzleConfigurationType.SINGLE
   /\ 4 <= NozzleMap.tip_count nm)
  /\ (get_channels sv pid = 1 -> supported = true).
Proof.
  unfold HardwareTipHandler.get_tip_presence_config,
    HardwareTipHandler.unsupported_layout_types_96,
    HardwareTipHandler.supported_partial_nozzle_minimum.
  simpl existsb.
  destruct (Z.eqb_spec (get_channels sv pid) 1) as [E1 | E1].
  { intros [= <- <-]. split; [intros [? [=]] | reflexivity]. }
  destruct (Z.eqb_spec (get_channels sv pid) 8) as [E8 | E8].
  { intros [= <- <-]. split; [intros [? [=]] | intros; contradiction]. }
  destruct (Z.eqb_spec (get_channels sv pid) 96) as [E96 | E96];
    [| discriminate].
  rewrite orb_false_r.
  destruct (NozzleConfigurationType.eqb _ NozzleConfigurationType.FULL) eqn:Ef;
    destruct (NozzleConfigurationType.eqb _ NozzleConfigurationType.SINGLE)
      eqn:Es;
    destruct (_ <=? _) eqn:Etc; simpl;
    try (intros [= <- <-]; split; [intros [? [=]] | intros; contradiction]).
  unfold mbind, result_bind, Py.bind.
  destruct (tip_on_left_side_96 _) as [l |]; [| discriminate].
  destruct (tip_on_right_side_96 _) as [r |]; [| discriminate].
  intros H. split; [| intros; contradiction].
  intros _.
  split; [assumption |].
  split; [destruct (negb (l && r)), l; congruence |].
  split.
  { intros Hc. apply configuration_eqb_eq in Hc. congruence. }
  split.
  { intros Hc. apply configuration_eqb_eq in Hc. congruence. }
  now apply Z.leb_le.
Qed.

Lemma follow_singular_sensor_only_96_witness :
  get_channels (demo_state_view 96 column3_map_96 None) "pipette" = 96.
Proof.
  destruct (follow_singular_sensor_only_96
              (demo_state_view 96 column3_map_96 None) "pipette"
              true (Some InstrumentProbeType.SECONDARY) eq_refl)
    as [H _].
  apply H. eexists; reflexivity.
Defined.

(** [int] reads what Python reads: blanks around the number, a sign and
    single "_" separators; the edge tests inherit this. *)
Example int_readings :
  Py.int " +1_2 " = Ok 12
  /\ Py.int "-0" = Ok 0
  /\ Py.int "1__2" = Raise ValueError
  /\ Py.int "+ 1" = Raise ValueError
  /\ Py.int "" = Raise ValueError
  /\ tip_on_left_side_96 "A+1" = Ok true.
Proof. repeat split; reflexivity. Qed.

(** [int] raises [ValueError] and nothing else. *)
Lemma int_raises (s : string) (e : exn) :
  Py.int s = Raise e -> e = ValueError.
Proof.
  unfold Py.int.
  destruct (lstrip s) as [| [[] [] [] [] [] [] [] []] rest];
    destruct (int_digits _ _ _ _) as [[n count] |];
    try destruct (_ <=? _); congruence.
Qed.

(** The edge tests of the 96-nozzle grid.  On a name made of a row
    character and a column number from 1 to 12, the left-edge test answers
    true exactly in column 1 and the right-edge test exactly in column 12,
    whatever the row character is.  A name of at most one character has no
    column to read and makes both tests raise [ValueError]; no other
    exception is ever raised. *)
Theorem tip_on_side_96_grid :
  (forall (row : ascii) (column : Z),
     1 <= column <= 12 ->
     tip_on_left_side_96 (String row (pretty column)) = Ok (column =? 1)
     /\ tip_on_right_side_96 (String row (pretty column))
        = Ok (column =? 12))
  /\ (forall name,
        (String.length name <= 1)%nat ->
        tip_on_left_side_96 name = Raise ValueError
        /\ tip_on_right_side_96 name = Raise ValueError)
  /\ (forall name e,
        tip_on_left_side_96 name = Raise e
        \/ tip_on_right_side_96 name = Raise e ->
        e = ValueError).
Proof.
  split; [| split].
  - intros row column Hc.
    assert (Hcases : column = 1 \/ column = 2 \/ column = 3 \/ column = 4
                     \/ column = 5 \/ column = 6 \/ column = 7 \/ column = 8
                     \/ column = 9 \/ column = 10 \/ column = 11
                     \/ column = 12)
      by lia.
    repeat destruct Hcases as [-> | Hcases]; try subst column;
      split; reflexivity.
  - intros [| c [| c' rest]] Hlen; simpl in Hlen; [| | lia];
      split; reflexivity.
  - unfold tip_on_left_side_96, tip_on_right_side_96.
    unfold mbind, result_bind, Py.bind.
    intros name e [H | H];
      destruct (Py.int (drop_first name)) eqn:Hint;
      try discriminate;
      injection H as <-; exact (int_raises _ _ Hint).
Qed.

Lemma tip_on_side_96_grid_witness :
  tip_on_right_side_96 (String "H" (pretty 12)) = Ok true.
Proof.
  destruct tip_on_side_96_grid as (Hgrid & _ & _).
  destruct (Hgrid "H"%char 12) as (_ & H); [lia | exact H].
Defined.

(** ** More on the pick-up-tip command *)

Ltac execute_unfold :=
  unfold PickUpTipImplementation.execute, move_to_well, Exec.try_except,
    Exec.view, Exec.the_robot, Exec.call, Exec.raise,
    mbind, mret, exec_bind, exec_ret, Exec.bind, Exec.ret.


(** When the move ends in a defined error, the command returns that error
    as it is, whatever the tip handler: the handler is not asked to pick
    up, and the move is the only call made. *)
Theorem execute_move_error_returned
    (tip_handler : TipHandler.t) (m : Machine) (params : PickUpTipParams)
    (e : DefinedErrorData) :
  let pid := pipetteId params in
  let lid := labwareId params in
  let well := wellName params in
  move_to_well_result (robot m) pid lid well
    (convert_pick_up_tip_well_location (state_view m) (wellLocation params))
  = MoveDefinedError e ->
  PickUpTipImplementation.execute tip_handler params m
  = (Ok (DefinedError e),
     with_calls m (calls m ++ [call_move_to_well pid lid well])).
Proof.
  intros pid lid well Hmove.
  execute_unfold. fold pid lid well. simpl.
  rewrite Hmove. reflexivity.
Qed.

Lemma execute_move_error_returned_witness :
  fst (PickUpTipImplementation.execute HardwareTipHandler.handler demo_params
         (with_failed_move
            (demo_machine 8 full_map_8 None true TipStateType.PRESENT)
            stall_error))
  = Ok (DefinedError stall_error).
Proof.
  rewrite (execute_move_error_returned HardwareTipHandler.handler
             (with_failed_move
                (demo_machine 8 full_map_8 None true TipStateType.PRESENT)
                stall_error)
             demo_params stall_error eq_refl).
  reflexivity.
Defined.

(** The presence configuration raises [ValueError] and nothing else. *)
Lemma presence_config_raises (sv : StateView) (pid : string) (e : exn) :
  HardwareTipHandler.get_tip_presence_config sv pid = Raise e -> e = ValueError.
Proof.
  unfold HardwareTipHandler.get_tip_presence_config,
    tip_on_left_side_96, tip_on_right_side_96.
  unfold mbind, result_bind, Py.bind.
  intros H.
  repeat match type of H with
         | context [Py.int ?x] =>
             let E := fresh "E" in
             destruct (Py.int x) eqn:E; [| apply int_raises in E]
         end;
    destruct_all_matches; congruence.
Qed.

(** What the command has done when it returns, on the hardware tip
    handler.  The state view is left as it was and the move is the first
    call.  When the command returns success, the move succeeded, the tip
    was committed to the hardware API, and the delta holds the resolved
    geometry and ready-to-aspirate at the position the move reached.  When
    it returns a defined error, no tip was committed: the error is the
    move's own, nothing having been called after the move, or it is
    tipPhysicallyMissing wrapping the one [PickUpTipTipNotAttachedError]
    with the resolved geometry, its own delta setting the fluid to
    unknown. *)
Theorem execute_returning_runs (m : Machine) (params : PickUpTipParams) :
  let pid := pipetteId params in
  let lid := labwareId params in
  let well := wellName params in
  let g := resolved_tip_geometry m pid lid well in
  let move :=
    move_to_well_result (robot m) pid lid well
      (convert_pick_up_tip_well_location (state_view m)
         (wellLocation params)) in
  let run :=
    PickUpTipImplementation.execute HardwareTipHandler.handler params m in
  state_view (snd run) = state_view m
  /\ robot (snd run) = robot m
  /\ exists added,
       calls (snd run) = calls m ++ call_move_to_well pid lid well :: added
       /\ forall returned,
            fst run = Ok returned ->
            match returned with
            | SuccessData result update =>
              existsb commits_tip added = true
              /\ (exists reached move_update,
                    move = MoveSuccess reached move_update
                    /\ position result = reached
                    /\ pipette_location update
                       = pipette_location move_update)
              /\ pipette_tip_state update = Some (pid, Some g)
              /\ ready_to_aspirate update = Some (pid, true)
              /\ tipLength result = TipGeometry.length g
            | DefinedError d =>
              existsb commits_tip added = false
              /\ ((move = MoveDefinedError d /\ added = [])
                  \/ (public d
                      = TipPhysicallyMissingError
                          [PickUpTipTipNotAttachedError g]
                      /\ ready_to_aspirate (state_update d)
                         = ready_to_aspirate
                             (state_update_if_false_positive d)
                      /\ pipette_aspirated_fluid (state_update d)
                         = Some (pid, Unknown)))
            end.
Proof.
  intros pid lid well g move run.
  set (moved := with_calls m (calls m ++ [call_move_to_well pid lid well])).
  assert (Hrun :
    run
    = match move with
      | MoveDefinedError e => (Ok (DefinedError e), moved)
      | MoveSuccess position move_update =>
          let tips :=
            compute_tips_to_mark_as_used (state_view m) lid well
              (get_nozzle_configuration (state_view m) pid) in
          match HardwareTipHandler.pick_up_tip pid lid well true moved with
          | (Ok g', m') =>
              (Ok (SuccessData
                     {| tipVolume := TipGeometry.volume g';
                        tipLength := TipGeometry.length g';
                        tipDiameter := TipGeometry.diameter g';
                        position := position |}
                     (set_pipette_ready_to_aspirate pid true
                        (set_fluid_empty pid true
                           (mark_tips_as_used lid tips
                              (update_pipette_tip_state pid (Some g')
                                 move_update))))), m')
          | (Raise (PickUpTipTipNotAttachedError g'), m') =>
              (Ok (DefinedError
                     {| public :=
                          TipPhysicallyMissingError
                            [PickUpTipTipNotAttachedError g'];
                        state_update :=
                          set_fluid_unknown pid
                            (mark_tips_as_used lid tips
                               (reduce empty move_update));
                        state_update_if_false_positive :=
                          mark_tips_as_used lid tips
                            (set_fluid_empty pid true
                               (update_pipette_tip_state pid (Some g')
                                  (reduce empty move_update))) |}), m')
          | (Raise e, m') => (Raise e, m')
          end
      end).
  { subst run. execute_unfold. fold pid lid well. simpl. fold moved.
    change (robot moved) with (robot m). fold move.
    destruct move as [position move_update | e]; [| reflexivity].
    change (@TipHandler.pick_up_tip HardwareTipHandler.handler)
      with HardwareTipHandler.pick_up_tip.
    destruct (HardwareTipHandler.pick_up_tip pid lid well true moved)
      as [[g' | e] m']; [reflexivity |].
    destruct e; reflexivity. }
  rewrite Hrun. clear Hrun run.
  destruct move as [reached move_update | e] eqn:Hmove.
  2:{ simpl. split; [reflexivity |]. split; [reflexivity |].
      exists []. split; [reflexivity |]. intros returned [= <-].
      split; [reflexivity |].
      left. split; reflexivity. }
  rewrite (pick_up_tip_run moved pid lid well true).
  change (state_view moved) with (state_view m).
  change (robot moved) with (robot m).
  change (hw_mount moved pid) with (hw_mount m pid).
  change (resolved_tip_geometry moved pid lid well) with g.
  change (pickup_calls moved pid lid well) with (pickup_calls m pid lid well).
  change (commit_calls moved pid g) with (commit_calls m pid g).
  cbv zeta.
  destruct (HardwareTipHandler.get_tip_presence_config (state_view m) pid)
    as [[supported follow] | e] eqn:Hcfg.
  2:{ apply presence_config_raises in Hcfg. subst e. simpl.
      split; [reflexivity |]. split; [reflexivity |].
      eexists. split; [now rewrite <- !app_assoc |].
      intros returned [=]. }
  destruct (true && supported && is_ot3 (robot m)).
  - destruct (tip_presence_status (robot m) (hw_mount m pid) follow); simpl.
    + split; [reflexivity |]. split; [reflexivity |].
      eexists. split; [now rewrite <- !app_assoc |].
      intros returned [= <-].
      split; [reflexivity |].
      right. repeat split; reflexivity.
    + split; [reflexivity |]. split; [reflexivity |].
      eexists. split; [now rewrite <- !app_assoc |].
      intros returned [= <-].
      split; [reflexivity |].
      split; [exists reached, move_update; repeat split; reflexivity |].
      repeat split; reflexivity.
  - simpl. split; [reflexivity |]. split; [reflexivity |].
    eexists. split; [now rewrite <- !app_assoc |].
    intros returned [= <-].
    split; [reflexivity |].
    split; [exists reached, move_update; repeat split; reflexivity |].
    repeat split; reflexivity.
Qed.

Lemma execute_returning_runs_witness :
  exists added,
    calls
      (snd (PickUpTipImplementation.execute HardwareTipHandler.handler
              demo_params
              (demo_machine 96 column3_map_96 None true TipStateType.ABSENT)))
    = [] ++ call_move_to_well "pipette" "tiprack" "A1" :: added
    /\ existsb commits_tip added = false.
Proof.
  destruct (execute_returning_runs
              (demo_machine 96 column3_map_96 None true TipStateType.ABSENT)
              demo_params)
    as (_ & _ & added & Hcalls & Hreturned).
  exists added. split; [exact Hcalls |].
  destruct (Hreturned
              (DefinedError
                 {| public :=
                      TipPhysicallyMissingError
                        [PickUpTipTipNotAttachedError demo_tip];
                    state_update :=
                      mk (Some ("pipette", "tiprack", "A1")) None
                        (Some ("pipette", Unknown))
                        (Some ("tiprack", ["A1"])) None;
                    state_update_if_false_positive :=
                      mk (Some ("pipette", "tiprack", "A1"))
                        (Some ("pipette", Some demo_tip))
                        (Some ("pipette", Empty true))
                        (Some ("tiprack", ["A1"])) None |}))
    as [H _].
  - vm_compute. reflexivity.
  - exact H.
Defined.




